(** * Google Scholar department scraper: a shallow embedding

    The development follows [scholar_department_extract.py] (the crawler) and
    [make_yearly_notebooklm_docs.py] (the yearly export).

    - Python [str] is [string]: a character is a code point below 256 (the
      Latin-1 range of Unicode), and [lower], [strip], [isdigit], [\d] and
      [\s] are those of Python on that range. [int] is [Z], a value that may
      be [None] is an [option], a [dict] is a [gmap].
    - The libraries the scripts call are interfaces: the HTML parser of
      BeautifulSoup, the HTTP server behind [requests.get], the headless
      browser of Playwright and pandas' sort are parameters; what the scripts
      do with their results (CSS selection, text extraction, regular
      expressions, caching, pagination, merging, formatting) is written out.
    - Effects are a state-and-exception monad over the cache directory and
      the logs of the requests sent. The cache directory holds the files the
      runs wrote and nothing else: a path is one string, names no directory
      and passes through no file. Beyond what the code itself makes fail (a
      path without a directory part, a path that ends with a slash), the
      operations on the file system succeed; [time.sleep] changes nothing a
      run can see and is left out.
    - A Python float is a binary64 number, a [spec_float] of the Standard
      Library with the precision 53 and the exponent bound 1024; [float(n)]
      and [/] round to nearest, ties to even, as CPython does.
    - [int()] and [str()] refuse more than 4300 digits, the default of
      [sys.int_max_str_digits]. *)

From Stdlib Require Import Ascii ZArith QArith Qabs Lia SpecFloat.
From stdpp Require Import base option list strings gmap pretty.

Local Open Scope Z_scope.

(** ** Python strings *)

Module Py.

(** [str.isspace] on one character: the ASCII white space, the separators
    FS, GS, RS and US, NEL (133) and the no-break space (160). It is also
    the class [\s] of [re]. *)
Definition is_space (a : ascii) : bool :=
  match a with
  | "009" | "010" | "011" | "012" | "013"
  | "028" | "029" | "030" | "031" | " " | "133" | "160" => true
  | _ => false
  end%char.

(** A decimal digit: the class [\d] of [re], and the digits [int()] reads. *)
Definition is_digit (a : ascii) : bool :=
  match a with
  | "0" | "1" | "2" | "3" | "4" | "5" | "6" | "7" | "8" | "9" => true
  | _ => false
  end%char.

(** [str.isdigit] on one character: the decimal digits and the superscripts
    two (178), three (179) and one (185), which [int()] does not read. *)
Definition is_digit_like (a : ascii) : bool :=
  is_digit a ||
  match a with
  | "178" | "179" | "185" => true
  | _ => false
  end%char.

Definition digit_val (a : ascii) : Z := Z.of_N (N_of_ascii a) - 48.

(** The upper-case letters below 256 are A to Z and 192 to 222 without the
    multiplication sign (215); each has its lower-case letter 32 further. *)
Definition lower_char (a : ascii) : ascii :=
  let n := N_of_ascii a in
  if ((65 <=? n) && (n <=? 90)
      || (192 <=? n) && (n <=? 222) && negb (n =? 215))%N
  then ascii_of_N (n + 32) else a.

(** [s.lower()] *)
Fixpoint lower (s : string) : string :=
  match s with
  | "" => ""
  | String a s' => String (lower_char a) (lower s')
  end.

(** [s.endswith(p)] is [startswith] from the other end; only the path
    separator is ever asked for. *)
Fixpoint endswith_char (a : ascii) (s : string) : bool :=
  match s with
  | "" => false
  | String b "" => bool_decide (a = b)
  | String _ s' => endswith_char a s'
  end.

(** [s.startswith(p)] *)
Fixpoint startswith (p s : string) : bool :=
  match p, s with
  | "", _ => true
  | String a p', String b s' => bool_decide (a = b) && startswith p' s'
  | String _ _, "" => false
  end.

(** [needle in hay] *)
Fixpoint contains (needle hay : string) : bool :=
  startswith needle hay ||
  match hay with
  | "" => false
  | String _ hay' => contains needle hay'
  end.

Fixpoint lstrip (s : string) : string :=
  match s with
  | "" => ""
  | String a s' => if is_space a then lstrip s' else s
  end.

Fixpoint rstrip (s : string) : string :=
  match s with
  | "" => ""
  | String a s' =>
      let t := rstrip s' in
      if is_space a && bool_decide (t = "") then "" else String a t
  end.

(** [s.strip()] *)
Definition strip (s : string) : string := rstrip (lstrip s).

Fixpoint all_digits (s : string) : bool :=
  match s with
  | "" => true
  | String a s' => is_digit a && all_digits s'
  end.

(** [s.isdecimal()]: at least one character, and decimal digits only. *)
Definition isdecimal (s : string) : bool :=
  match s with
  | "" => false
  | _ => all_digits s
  end.

Fixpoint all_digit_like (s : string) : bool :=
  match s with
  | "" => true
  | String a s' => is_digit_like a && all_digit_like s'
  end.

(** [s.isdigit()]: at least one character, and every character a digit in
    the wider sense. *)
Definition isdigit (s : string) : bool :=
  match s with
  | "" => false
  | _ => all_digit_like s
  end.

(** Truthiness of a string: [bool(s)]. *)
Definition truthy (s : string) : bool := negb (bool_decide (s = "")).

(** The body of an integer literal as [int()] reads it: digits, with single
    underscores allowed between digits. [None] is [ValueError]. *)
Fixpoint int_digits (acc : Z) (s : string) : option Z :=
  match s with
  | "" => Some acc
  | String a s' =>
      if bool_decide (a = "_"%char) then
        match s' with
        | String b _ => if is_digit b then int_digits acc s' else None
        | "" => None
        end
      else if is_digit a then int_digits (10 * acc + digit_val a) s'
      else None
  end.

(** The white space [int()] skips around a literal: that of [str.isspace]
    without the separators FS, GS, RS and US. *)
Definition is_int_space (a : ascii) : bool :=
  match a with
  | "009" | "010" | "011" | "012" | "013" | " " | "133" | "160" => true
  | _ => false
  end%char.

Fixpoint int_lstrip (s : string) : string :=
  match s with
  | "" => ""
  | String a s' => if is_int_space a then int_lstrip s' else s
  end.

Fixpoint int_rstrip (s : string) : string :=
  match s with
  | "" => ""
  | String a s' =>
      let t := int_rstrip s' in
      if is_int_space a && bool_decide (t = "") then "" else String a t
  end.

(** [sys.get_int_max_str_digits()], which the scripts leave at its default. *)
Definition MAX_STR_DIGITS : nat := 4300.

Fixpoint count_digits (s : string) : nat :=
  match s with
  | "" => O
  | String a s' => ((if is_digit a then 1 else 0) + count_digits s')%nat
  end.

(** [int(s)] for a string: surrounding white space and one sign are
    accepted, and no more than 4300 digits. [None] is [ValueError]. *)
Definition int (s : string) : option Z :=
  let t := int_rstrip (int_lstrip s) in
  let '(neg, body) :=
    match t with
    | String "-" b => (true, b)
    | String "+" b => (false, b)
    | _ => (false, t)
    end in
  match body with
  | String a _ =>
      if is_digit a && (count_digits body <=? MAX_STR_DIGITS)%nat
      then (if neg then Z.opp else id) <$> int_digits 0 body
      else None
  | "" => None
  end.

(** [sep.join(l)] *)
Fixpoint join (sep : string) (l : list string) : string :=
  match l with
  | [] => ""
  | [x] => x
  | x :: l' => x +:+ sep +:+ join sep l'
  end.

(** [str(n)] for an integer, and [n] in an f-string: the decimal digits,
    when there are no more than 4300 of them ([str_ok]); beyond, Python raises
    [ValueError]. *)
Definition str_ok (n : Z) : bool := Z.abs n <? 10 ^ 4300.
Definition str_int (n : Z) : string := pretty n.

(** [f"{n:05d}"] for a non-negative integer (an index into a list that is
    in memory: it has far fewer than 4300 digits). *)
Definition zfill5 (n : Z) : string :=
  let s := pretty n in
  String.app (String.concat "" (replicate (5 - String.length s)%nat "0")) s.

End Py.

(** ** Regular expressions: the fragment of [re] the crawler uses

    A backtracking matcher. [run r s c] lists, in the order Python's engine
    tries them, the ways [r] can match a prefix of [s]: the text left over and
    the groups captured. The first element is the match Python reports. *)

Module Re.

Inductive regex :=
| Eps
| Cls (p : ascii → bool)        (* one character of a class *)
| Cat (r1 r2 : regex)
| Star (r : regex)              (* r*  , greedy *)
| StarLazy (r : regex)          (* r*? , lazy *)
| Grp (g : nat) (r : regex).    (* capturing group number g *)

Abbreviation caps := (gmap nat string).

(** The text consumed between [s] and its suffix [s1]. *)
Definition consumed (s s1 : string) : string :=
  String.substring 0 (String.length s - String.length s1) s.

Section iter.
Context (step : string → caps → list (string * caps)).

(** Iterations of a starred body; an iteration has to consume a
    character (all starred bodies of the crawler's patterns do). *)
Fixpoint iter_greedy (n : nat) (s : string) (c : caps) : list (string * caps) :=
  match n with
  | O => [(s, c)]
  | S n' =>
      flat_map (λ '(s1, c1),
          if (String.length s1 <? String.length s)%nat
          then iter_greedy n' s1 c1 else []) (step s c)
      ++ [(s, c)]
  end.

Fixpoint iter_lazy (n : nat) (s : string) (c : caps) : list (string * caps) :=
  match n with
  | O => [(s, c)]
  | S n' =>
      (s, c) ::
      flat_map (λ '(s1, c1),
          if (String.length s1 <? String.length s)%nat
          then iter_lazy n' s1 c1 else []) (step s c)
  end.
End iter.

Fixpoint run (r : regex) (s : string) (c : caps) : list (string * caps) :=
  match r with
  | Eps => [(s, c)]
  | Cls p =>
      match s with
      | String a s' => if p a then [(s', c)] else []
      | "" => []
      end
  | Cat r1 r2 => flat_map (λ '(s1, c1), run r2 s1 c1) (run r1 s c)
  | Star r1 => iter_greedy (run r1) (String.length s) s c
  | StarLazy r1 => iter_lazy (run r1) (String.length s) s c
  | Grp g r1 =>
      flat_map (λ '(s1, c1), [(s1, <[g := consumed s s1]> c1)]) (run r1 s c)
  end.

(** A match object: [group(0)], the numbered groups and the text after
    the match. *)
Record match_obj := Match {
  m_text : string;
  m_groups : caps;
  m_rest : string;
}.

(** [m.group(g)]; a group that took no part in the match is [None] in
    Python, and the crawler's patterns have none of those. *)
Definition group (m : match_obj) (g : nat) : string :=
  default "" (m_groups m !! g).

(** [re.search(r, s)]: the first match at the leftmost position. *)
Fixpoint search (r : regex) (s : string) : option match_obj :=
  match run r s ∅ with
  | (rest, c) :: _ => Some (Match (consumed s rest) c rest)
  | [] =>
      match s with
      | "" => None
      | String _ s' => search r s'
      end
  end.

(** [re.finditer(r, s)]: the successive non-overlapping matches. *)
Fixpoint finditer_go (n : nat) (r : regex) (s : string) : list match_obj :=
  match n with
  | O => []
  | S n' =>
      match search r s with
      | None => []
      | Some m =>
          if (String.length (m_rest m) <? String.length s)%nat
          then m :: finditer_go n' r (m_rest m)
          else []
      end
  end.

Definition finditer (r : regex) (s : string) : list match_obj :=
  finditer_go (String.length s) r s.

(** Pattern syntax. *)
Definition chr (a : ascii) : regex := Cls (λ b, bool_decide (a = b)).
Fixpoint lit (s : string) : regex :=
  match s with
  | "" => Eps
  | String a s' => Cat (chr a) (lit s')
  end.
Definition plus (r : regex) : regex := Cat r (Star r).
Definition rep4 (r : regex) : regex := Cat r (Cat r (Cat r r)).
Definition d : regex := Cls Py.is_digit.                    (* \d *)
Definition ws : regex := Star (Cls Py.is_space).            (* \s* *)
Definition ws1 : regex := plus (Cls Py.is_space).           (* \s+ *)
Definition dot : regex := Cls (λ a, negb (bool_decide (a = "010"%char))).
Definition dot_all : regex := Cls (λ _, true).              (* . with DOTALL *)
Fixpoint cat (l : list regex) : regex :=
  match l with
  | [] => Eps
  | [r] => r
  | r :: l' => Cat r (cat l')
  end.

(** Vocabulary for what a match consumes and captures. *)

(** Every way [r] matches consumes a prefix that satisfies [Q]. *)
Definition consumes (r : regex) (Q : string → Prop) : Prop :=
  ∀ s c s1 c1, In (s1, c1) (run r s c) → ∃ pre, s = pre +:+ s1 ∧ Q pre.

(** Groups that hold [Pre] before a match of [r] hold [Post] after it. *)
Definition triple (Pre : caps → Prop) (r : regex) (Post : caps → Prop) : Prop :=
  ∀ s c s1 c1, In (s1, c1) (run r s c) → Pre c → Post c1.

(** [r] has no capturing group. *)
Fixpoint no_grp (r : regex) : bool :=
  match r with
  | Eps | Cls _ => true
  | Cat r1 r2 => no_grp r1 && no_grp r2
  | Star r1 | StarLazy r1 => no_grp r1
  | Grp _ _ => false
  end.

(** Group [g] holds a string of digits. *)
Definition dig (g : nat) (c : caps) : Prop :=
  ∃ v, c !! g = Some v ∧ Py.isdecimal v = true.

End Re.

(** ** BeautifulSoup: the parsed document and the queries made on it *)

Module Soup.

(** The classes of the strings of a parsed document. The parser gives a
    string the class of the innermost [script], [style], [template], [rt] or
    [rp] element around it, and [NavigableString] outside of those. *)
Inductive string_type :=
| NavigableString
| CData
| Comment
| Script
| Stylesheet
| TemplateString
| RubyTextString
| RubyParenthesisString
| Declaration.          (* and Doctype, ProcessingInstruction *)

(** A parsed document is a forest of tags and strings. The attributes of
    a tag are a dictionary. *)
#[warnings="-register-all"]
Inductive node :=
| Str (ty : string_type) (s : string)
| Tag (name : string) (attrs : gmap string string) (children : list node).

(** An ordinary text node. *)
Definition Text (s : string) : node := Str NavigableString s.

(** The simple selectors the crawler uses: [tag.class], [tag#id],
    [#id] and [.class]. *)
Record selector := Sel {
  sel_tag : option string;
  sel_id : option string;
  sel_class : option string;
}.

(** White-space separated words of a [class] attribute. *)
Fixpoint words_go (cur : string) (s : string) : list string :=
  match s with
  | "" => if bool_decide (cur = "") then [] else [String.rev cur]
  | String a s' =>
      if Py.is_space a
      then (if bool_decide (cur = "") then [] else [String.rev cur]) ++ words_go "" s'
      else words_go (String a cur) s'
  end.
Definition words : string → list string := words_go "".

Definition opt_ok {A} (o : option A) (f : A → bool) : bool :=
  match o with
  | Some a => f a
  | None => true
  end.

Definition matches (sel : selector) (n : node) : bool :=
  match n with
  | Str _ _ => false
  | Tag name attrs _ =>
      opt_ok (sel_tag sel) (λ t, bool_decide (t = name))
      && opt_ok (sel_id sel) (λ i, bool_decide (attrs !! "id" = Some i))
      && opt_ok (sel_class sel)
           (λ c, match attrs !! "class" with
                 | Some v => bool_decide (c ∈ words v)
                 | None => false
                 end)
  end.

(** The nodes below [n], in document order. *)
Fixpoint descendants (n : node) : list node :=
  match n with
  | Str _ _ => []
  | Tag _ _ cs => flat_map (λ c, c :: descendants c) cs
  end.

(** [soup.select(sel)] on the whole document. *)
Definition select_doc (sel : selector) (doc : list node) : list node :=
  filter (λ n, matches sel n) (flat_map (λ c, c :: descendants c) doc).

(** [tag.select(sel)]: the matching nodes below the tag. *)
Definition select (sel : selector) (n : node) : list node :=
  filter (λ n, matches sel n) (descendants n).

Definition select_one_doc (sel : selector) (doc : list node) : option node :=
  head (select_doc sel doc).

Definition select_one (sel : selector) (n : node) : option node :=
  head (select sel n).

(** [tag.interesting_string_types]: the strings [get_text] shows for a tag
    of that name. A [script] tag shows the [Script] strings and no others,
    and likewise [style], [template], [rt] and [rp]; any other tag shows the
    ordinary strings and leaves those out. *)
Definition interesting (name : string) (ty : string_type) : bool :=
  if bool_decide (name = "script") then
    match ty with Script => true | _ => false end
  else if bool_decide (name = "style") then
    match ty with Stylesheet => true | _ => false end
  else if bool_decide (name = "template") then
    match ty with TemplateString => true | _ => false end
  else if bool_decide (name = "rt") then
    match ty with RubyTextString => true | _ => false end
  else if bool_decide (name = "rp") then
    match ty with RubyParenthesisString => true | _ => false end
  else
    match ty with NavigableString | CData => true | _ => false end.

(** The strings below [n] (or [n] itself) of the classes [keep], in
    document order. *)
Fixpoint strings (keep : string_type → bool) (n : node) : list string :=
  match n with
  | Str ty s => if keep ty then [s] else []
  | Tag _ _ cs => flat_map (strings keep) cs
  end.

(** [tag.get_text(sep, strip=True)]: every string the tag shows stripped,
    the empty ones dropped, the rest joined by [sep]. *)
Definition get_text (sep : string) (n : node) : string :=
  let keep :=
    match n with
    | Tag name _ _ => interesting name
    | Str _ _ => interesting ""
    end in
  Py.join sep (filter (λ s, Py.truthy s) (Py.strip <$> strings keep n)).

(** [tag.get(k)] *)
Definition get (k : string) (n : node) : option string :=
  match n with
  | Str _ _ => None
  | Tag _ attrs _ => attrs !! k
  end.

(** [tag.has_attr(k)] *)
Definition has_attr (k : string) (n : node) : bool :=
  bool_decide (is_Some (get k n)).

Definition tag_class (t c : string) : selector := Sel (Some t) None (Some c).
Definition tag_id (t i : string) : selector := Sel (Some t) (Some i) None.
Definition by_id (i : string) : selector := Sel None (Some i) None.
Definition by_class (c : string) : selector := Sel None None (Some c).

End Soup.

(** ** Exceptions, results and the state of a run *)

Inductive exn :=
| RequestException           (* requests: transport failure, error status, bad URL *)
| PlaywrightError            (* the headless browser failed to load the page *)
| RuntimeError (msg : string)
| ValueError
| KeyError (k : string)
| OverflowError              (* float() of an integer beyond the doubles *)
| ZeroDivisionError
| FileNotFoundError
| IsADirectoryError
| AttributeError.

(** What a call comes to: a value, a raised exception, or no answer within
    the number of loop iterations allowed (which stands for a loop that is
    still running). *)
Inductive result (A : Type) :=
| Ok (a : A)
| Raise (e : exn)
| Unfinished.
Arguments Ok {A} a.
Arguments Raise {A} e.
Arguments Unfinished {A}.

Definition rbind {A B} (r : result A) (k : A → result B) : result B :=
  match r with
  | Ok a => k a
  | Raise e => Raise e
  | Unfinished => Unfinished
  end.

(** The cache directory (path to text written) and the requests sent so
    far, most recent first. *)
Record world := World {
  files : gmap string string;
  http_log : list string;
  browser_log : list string;
}.

Definition M (A : Type) : Type := world → result A * world.

Definition ret {A} (a : A) : M A := λ w, (Ok a, w).
Definition raise {A} (e : exn) : M A := λ w, (Raise e, w).
Definition lift {A} (r : result A) : M A := λ w, (r, w).
Definition bind {A B} (m : M A) (k : A → M B) : M B :=
  λ w, match m w with
       | (Ok a, w') => k a w'
       | (Raise e, w') => (Raise e, w')
       | (Unfinished, w') => (Unfinished, w')
       end.

Notation "'let!' x ':=' m 'in' k" := (bind m (λ x, k))
  (at level 10, x name, m at level 100, k at level 200, only parsing).
Notation "'let?' x ':=' r 'in' k" := (rbind r (λ x, k))
  (at level 10, x name, r at level 100, k at level 200, only parsing).

(** [[f(x) for x in l]] where [f] may raise and gives a list: the lists
    put together, up to the first exception. *)
Fixpoint flat_mapM {A B} (f : A → result (list B)) (l : list A) : result (list B) :=
  match l with
  | [] => Ok []
  | x :: l' => let? ys := f x in let? zs := flat_mapM f l' in Ok (ys ++ zs)
  end.

(** ** Floats *)

(** [float(n)] for an integer: the nearest double, ties to even; an integer
    that rounds beyond the largest double raises. *)
Definition float_of_int (n : Z) : result spec_float :=
  match binary_normalize 53 1024 n 0 false with
  | S754_infinity _ => Raise OverflowError
  | x => Ok x
  end.

(** [x / y] on floats. *)
Definition float_div (x y : spec_float) : result spec_float :=
  match y with
  | S754_zero _ => Raise ZeroDivisionError
  | _ => Ok (SFdiv 53 1024 x y)
  end.

(** The number a finite float stands for. *)
Definition float_value (x : spec_float) : Q :=
  match x with
  | S754_finite s m e =>
      inject_Z (if s then Z.neg m else Z.pos m) * (if 0 <=? e then inject_Z (2 ^ e) else 1 # Z.to_pos (2 ^ (- e)))
  | _ => 0
  end.

(** ** The headless browser: what Playwright shows of a rendered page *)

Module Browser.
Record page := Page {
  content : string;             (* page.content() *)
  aria_labels : list string;    (* the aria-label of every element that has one *)
  inner_text : string;          (* page.locator("body").inner_text() *)
}.
End Browser.

(** The texts of a rendered page in which numbers are looked for. *)
Definition rendered_texts (page : Browser.page) : list string :=
  Browser.inner_text page :: Browser.aria_labels page.

(** ** scholar_department_extract.py *)

Definition YEAR_MIN : Z := 2015.
Definition YEAR_MAX : Z := 2026.
Definition BASE : string := "https://scholar.google.com".

(** A row of the publication list (the dictionary built by
    [parse_author_page_for_pubs]). *)
Record pub := Pub {
  p_title : string;
  p_year : option Z;
  p_cited_by_from_list : option Z;
  p_view_citation_url : option string;
}.

(** The dictionary returned by [parse_view_citation]. *)
Record detail := Detail {
  d_title : option string;
  d_pub_year : option Z;
  d_cited_by_total : option Z;
  d_abstract : option string;
  d_cites_by_year : gmap Z Z;
  d_fields : gmap string string;
}.

(** A row of the output table. *)
Record row := Row {
  r_department : string;
  r_faculty_name : string;
  r_title : string;
  r_publication_year : option Z;
  r_cited_by_total : option Z;
  r_citations_per_year_proxy : option spec_float;
  r_abstract : option string;
  r_scholar_user_id : string;
  r_view_citation_url : option string;
  r_cites : list (string * option Z);     (* the columns [cites_2015] .. [cites_2026] *)
}.

(** [os.path.join] on POSIX paths: one more component [b] after [path]. *)
Definition join_step (path b : string) : string :=
  if Py.startswith "/" b then b
  else if bool_decide (path = "") || Py.endswith_char "/" path then path +:+ b
  else path +:+ "/" +:+ b.

Definition path_join (a : string) (l : list string) : string := foldl join_step a l.

(** Reading a file opened in text mode: universal newlines, so CR LF and a
    lone CR come back as LF. (Writing on POSIX stores the text as it is.) *)
Fixpoint read_text (s : string) : string :=
  match s with
  | "" => ""
  | String a s' =>
      if bool_decide (a = "013"%char) then
        String "010"
          match s' with
          | String b s'' =>
              if bool_decide (b = "010"%char) then read_text s'' else read_text s'
          | "" => ""
          end
      else String a (read_text s')
  end.

(** What [requests] takes for a URL it can send: after the white space in
    front, [http://] or [https://], in any case of the letters. *)
Definition http_url (u : string) : bool :=
  let v := Py.lower (Py.lstrip u) in
  Py.startswith "http://" v || Py.startswith "https://" v.

Definition looks_like_captcha (html : string) : bool :=
  let h := Py.lower html in
  Py.contains "recaptcha" h || Py.contains "unusual traffic" h
  || (Py.contains "sorry" h && Py.contains "automated queries" h).

Definition citations_per_year_proxy
    (total_cites : option Z) (pub_year : option Z) (now_year : Z)
    : result (option spec_float) :=
  match total_cites, pub_year with
  | Some total_cites, Some pub_year =>
      let denom := now_year - pub_year + 1 in
      let denom := if denom <=? 0 then 1 else denom in
      let? a := float_of_int total_cites in
      let? b := float_of_int denom in
      let? q := float_div a b in
      Ok (Some q)
  | _, _ => Ok None
  end.

(** [range(lo, hi + 1)] *)
Definition years_range (lo hi : Z) : list Z :=
  (λ i, lo + Z.of_nat i) <$> seq 0 (Z.to_nat (hi + 1 - lo)).

Definition cites_2015_2026 (cites_by_year : gmap Z Z) : list (string * option Z) :=
  (λ y, ("cites_" +:+ Py.str_int y, cites_by_year !! y)) <$> years_range YEAR_MIN YEAR_MAX.

(** The patterns. *)
Module Pat.
Import Re.

(** "(\d{4})" *)
Definition year : regex := Grp 1 (rep4 d).

(** "Cited by\s+(\d+)" *)
Definition cited_by : regex := cat [lit "Cited by"; ws1; Grp 1 (plus d)].

(** "\[\s*\d{4}\s*,\s*\d+\s*\]", with the groups the caller puts
    around the year and the count *)
Definition pair (wrap_y wrap_c : regex → regex) : regex :=
  cat [chr "["; ws; wrap_y (rep4 d); ws; chr ","; ws; wrap_c (plus d); ws; chr "]"].

(** ( \[ \s* PAIR \s* (?: , \s* PAIR \s* )+ \] )   where PAIR is the
    pattern above without groups (tokens spaced out for reading) *)
Definition pairs_blob : regex :=
  Grp 1 (cat [chr "["; ws; pair id id; ws;
              plus (cat [chr ","; ws; pair id id; ws]);
              chr "]"]).

(** "\[\s*(\d{4})\s*,\s*(\d+)\s*\]" *)
Definition one_pair : regex := pair (Grp 1) (Grp 2).

(** years \s* = \s* ( \[ \s* \d{4} (?: \s* , \s* \d{4} )+ \s* \] ) .*?
    cites \s* = \s* ( \[ \s* \d+ (?: \s* , \s* \d+ )+ \s* \] )
    with [re.DOTALL] (tokens spaced out for reading) *)
Definition years_cites : regex :=
  cat [lit "years"; ws; chr "="; ws;
       Grp 1 (cat [chr "["; ws; rep4 d; plus (cat [ws; chr ","; ws; rep4 d]); ws; chr "]"]);
       StarLazy dot_all;
       lit "cites"; ws; chr "="; ws;
       Grp 2 (cat [chr "["; ws; plus d; plus (cat [ws; chr ","; ws; plus d]); ws; chr "]"])].

(** "\d{4}" and "\d+" *)
Definition four_digits : regex := rep4 d.
Definition digits : regex := plus d.

(** "(\d{4}).*?(\d+)\s+cit" *)
Definition aria_cit : regex :=
  cat [Grp 1 (rep4 d); StarLazy dot; Grp 2 (plus d); ws1; lit "cit"].

(** "(\d{4})\s+(\d+)\s+cit" *)
Definition text_cit : regex :=
  cat [Grp 1 (rep4 d); ws1; Grp 2 (plus d); ws1; lit "cit"].
End Pat.

(** No count of a series is negative. *)
Abbreviation nonneg := (map_Forall (λ (_ : Z) (c : Z), 0 ≤ c)).

(** A text without a run of more than 4300 digits: [int()] reads every
    run of digits taken from it. [k] digits stand just before [s]. *)
Fixpoint runs_ok (k : nat) (s : string) : bool :=
  match s with
  | "" => true
  | String a s' =>
      if Py.is_digit a
      then (S k <=? Py.MAX_STR_DIGITS)%nat && runs_ok (S k) s'
      else runs_ok 0 s'
  end.
Definition short_digits (s : string) : bool := runs_ok 0 s.

(** [v] is a piece of [s]. *)
Definition within (s v : string) : Prop := ∃ a b, s = a +:+ v +:+ b.

(** Every group is a piece of [s]. *)
Definition grp_within (s : string) (c : Re.caps) : Prop :=
  map_Forall (λ (_ : nat) v, within s v) c.

(** The text of a year or of a count: digits, out of [s]. *)
Definition piece (s v : string) : Prop := Py.isdecimal v = true ∧ within s v.

(** A series without a negative year or count. *)
Abbreviation nonneg2 := (map_Forall (λ (y : Z) (c : Z), 0 ≤ y ∧ 0 ≤ c)).

(** [for y, c in pairs: cites[int(y)] = int(c)] *)
Fixpoint fill_series (pairs : list (string * string)) (cites : gmap Z Z)
    : result (gmap Z Z) :=
  match pairs with
  | [] => Ok cites
  | (y, c) :: pairs' =>
      match Py.int y, Py.int c with
      | Some y, Some c => fill_series pairs' (<[y := c]> cites)
      | _, _ => Raise ValueError
      end
  end.

(** [[int(x) for x in l]] *)
Fixpoint ints (l : list string) : result (list Z) :=
  match l with
  | [] => Ok []
  | x :: l' =>
      match Py.int x with
      | Some v => let? vs := ints l' in Ok (v :: vs)
      | None => Raise ValueError
      end
  end.

(** [int(m.group(g))] *)
Definition int_group (m : Re.match_obj) (g : nat) : result Z :=
  match Py.int (Re.group m g) with
  | Some v => Ok v
  | None => Raise ValueError
  end.

Section Crawler.

(** The outside world of a run:
    - [html_parser]: [BeautifulSoup(html, "html.parser")];
    - [http]: the answer of the server to [requests.get(url)], given the
      requests sent before it ([None]: no answer, or an error status, which
      [raise_for_status] turns into an exception);
    - [browser]: the page the headless browser renders for a URL ([None]:
      navigation failed or timed out). *)
Context (html_parser : string → list Soup.node).
Context (http : list string → string → option string).
Context (browser : list string → string → option Browser.page).

(** [requests.get(url, ...)] followed by [raise_for_status()] and [.text].
    A URL that is [None], or that does not start with the scheme of HTTP, is
    refused by [requests] before anything is sent. *)
Definition requests_get (url : option string) : M string :=
  λ w,
    match url with
    | None => (Raise RequestException, w)
    | Some u =>
        if negb (http_url u) then (Raise RequestException, w) else
        let w' := World (files w) (u :: http_log w) (browser_log w) in
        match http (http_log w) u with
        | Some text => (Ok text, w')
        | None => (Raise RequestException, w')
        end
    end.

(** [ensure_dir(os.path.dirname(path))], then the file is opened for writing
    and written. A path without a slash has the directory [""], which
    [os.makedirs] refuses; a path that ends with a slash names the directory
    just made. *)
Definition write_file (path text : string) : M unit :=
  λ w,
    if negb (Py.contains "/" path) then (Raise FileNotFoundError, w)
    else if Py.endswith_char "/" path then (Raise IsADirectoryError, w)
    else (Ok (), World (<[path := text]> (files w)) (http_log w) (browser_log w)).

(** [time.sleep] changes nothing that the run can see and is left out. *)
Definition cache_get (url : option string) (cache_path : string) (force : bool)
    : M string :=
  λ w,
    match (if force then None else files w !! cache_path) with
    | Some text => (Ok (read_text text), w)        (* the cached copy *)
    | None =>
        (let! html := requests_get url in
         let! _ := write_file cache_path html in
         ret html) w
    end.

(** The body of the loop over the rows of a listing page: the stub of the
    row, or nothing for a row that is skipped. *)
Definition row_stub (tr : Soup.node) : result (list pub) :=
  match Soup.select_one (Soup.tag_class "a" "gsc_a_at") tr with
  | None => Ok []                                           (* continue *)
  | Some a =>
      let title := Soup.get_text "" a in
      let href := Soup.get "href" a in
      let view_url :=
        match href with
        | Some h => if Py.truthy h && Py.startswith "/" h
                    then Some (BASE +:+ h) else href
        | None => href
        end in
      let year :=
        match Soup.select_one (Soup.tag_class "span" "gsc_a_h") tr with
        | Some y => Py.int (Soup.get_text "" y)             (* None on ValueError *)
        | None => None
        end in
      let? cited_by :=
        match Soup.select_one (Soup.tag_class "a" "gsc_a_ac") tr with
        | Some cb =>
            let txt := Soup.get_text "" cb in
            if Py.isdigit txt then
              match Py.int txt with                         (* no try around it *)
              | Some c => Ok (Some c)
              | None => Raise ValueError
              end
            else Ok None
        | None => Ok None
        end in
      Ok [Pub title year cited_by view_url]
  end.

Definition parse_author_page_for_pubs (html : string) : result (list pub) :=
  let soup := html_parser html in
  flat_mapM row_stub (Soup.select_doc (Soup.tag_class "tr" "gsc_a_tr") soup).

(** [Some 1] is the sentinel for: there is a next page. *)
Definition next_cstart_from_author_page (html : string) : option Z :=
  let soup := html_parser html in
  match Soup.select_one_doc (Soup.tag_id "button" "gsc_bpf_next") soup with
  | None => None
  | Some btn => if Soup.has_attr "disabled" btn then None else Some 1
  end.

(** [l[:m]] *)
Definition slice_to {A} (m : Z) (l : list A) : list A :=
  if 0 <=? m then take (Z.to_nat m) l
  else take (Z.to_nat (Z.of_nat (length l) + m)) l.

Definition author_page_url (user_id : string) (cstart pagesize : Z) : string :=
  BASE +:+ "/citations?hl=en&user=" +:+ user_id +:+ "&cstart=" +:+ Py.str_int cstart
    +:+ "&pagesize=" +:+ Py.str_int pagesize.

Definition author_page_path (cache_dir user_id : string) (cstart : Z) : string :=
  path_join cache_dir ["author_pages"; user_id; "cstart_" +:+ Py.str_int cstart +:+ ".html"].

Definition CAPTCHA_LIST : string :=
  "CAPTCHA / unusual traffic page detected. Increase sleep or try later.".
Definition CAPTCHA_VIEW : string :=
  "CAPTCHA / unusual traffic page detected while fetching view_citation pages.".
Definition BLOCKED : string :=
  "Blocked by Google Scholar (CAPTCHA/unusual traffic). Increase sleep or try later.".

(** The [while True] loop of [get_all_author_pubs]; [n] bounds the number of
    iterations, and running out of it is [Unfinished]. *)
Fixpoint pages_loop (n : nat) (user_id cache_dir : string) (pagesize : Z)
    (max_pubs : option Z) (pubs_all : list pub) (cstart page : Z) : M (list pub) :=
  match n with
  | O => lift Unfinished
  | S n' =>
      (* the f-strings of the URL and of the path format both numbers *)
      if negb (Py.str_ok cstart && Py.str_ok pagesize) then raise ValueError else
      let url := author_page_url user_id cstart pagesize in
      let cache_path := author_page_path cache_dir user_id cstart in
      let! html := cache_get (Some url) cache_path false in
      if looks_like_captcha html then raise (RuntimeError CAPTCHA_LIST) else
      let! pubs := lift (parse_author_page_for_pubs html) in
      if bool_decide (pubs = []) then ret pubs_all else
      let pubs_all := pubs_all ++ pubs in
      if match max_pubs with
         | Some m => Z.of_nat (length pubs_all) >=? m
         | None => false
         end
      then ret (slice_to (default 0 max_pubs) pubs_all) else
      match next_cstart_from_author_page html with
      | None => ret pubs_all
      | Some has_next =>
          if bool_decide (has_next = 0) then ret pubs_all else
          let cstart := cstart + pagesize in
          let page := page + 1 in
          if 500 <? page then ret pubs_all      (* safety *)
          else pages_loop n' user_id cache_dir pagesize max_pubs pubs_all cstart page
      end
  end.

Definition get_all_author_pubs (n : nat) (user_id cache_dir : string)
    (pagesize : Z) (max_pubs : option Z) : M (list pub) :=
  pages_loop n user_id cache_dir pagesize max_pubs [] 0 0.

Definition parse_view_citation (html : string) : result detail :=
  let soup := html_parser html in
  let title :=
    match Soup.select_one_doc (Soup.by_id "gsc_oci_title") soup with
    | Some t => Some (Soup.get_text "" t)
    | None =>
        match Soup.select_one_doc (Soup.by_class "gsc_oci_title_link") soup with
        | Some t2 => Some (Soup.get_text "" t2)
        | None => None
        end
    end in
  let fields : gmap string string :=
    foldl (λ fields '(f, v), <[Soup.get_text "" f := Soup.get_text " " v]> fields) ∅
      (zip (Soup.select_doc (Soup.by_class "gsc_oci_field") soup)
           (Soup.select_doc (Soup.by_class "gsc_oci_value") soup)) in
  let abstract := fields !! "Description" in
  let? pub_year :=
    match fields !! "Publication date" with
    | Some pub_date =>
        if Py.truthy pub_date then
          match Re.search Pat.year pub_date with
          | Some m => let? y := int_group m 1 in Ok (Some y)
          | None => Ok None
          end
        else Ok None
    | None => Ok None
    end in
  let? cited_by_total :=
    match fields !! "Total citations" with
    | Some total =>
        match Re.search Pat.cited_by total with
        | Some m => let? c := int_group m 1 in Ok (Some c)
        | None => Ok None
        end
    | None => Ok None
    end in
  let? cited_by_total :=
    match cited_by_total with
    | Some _ => Ok cited_by_total
    | None =>
        match Re.search Pat.cited_by html with
        | Some m => let? c := int_group m 1 in Ok (Some c)
        | None => Ok None
        end
    end in
  let? cites_by_year :=
    match Re.search Pat.pairs_blob html with
    | Some m =>
        let blob := Re.group m 1 in
        let pairs := (λ m, (Re.group m 1, Re.group m 2)) <$> Re.finditer Pat.one_pair blob in
        fill_series pairs ∅
    | None =>
        match Re.search Pat.years_cites html with
        | Some m2 =>
            let years_blob := Re.group m2 1 in
            let cites_blob := Re.group m2 2 in
            let? years := ints (Re.m_text <$> Re.finditer Pat.four_digits years_blob) in
            let? cites := ints (Re.m_text <$> Re.finditer Pat.digits cites_blob) in
            Ok (foldl (λ cites_by_year '(y, c), <[y := c]> cites_by_year) ∅ (zip years cites))
        | None => Ok ∅
        end
    end in
  Ok (Detail title pub_year cited_by_total abstract cites_by_year fields).

(** The texts of a detail page in which numbers are looked for: the page
    itself and the values of its fields. *)
Definition detail_texts (html : string) : list string :=
  html :: (Soup.get_text " "
             <$> Soup.select_doc (Soup.by_class "gsc_oci_value") (html_parser html)).

(** [page.goto(url)] in a fresh browser. *)
Definition goto (url : option string) : M Browser.page :=
  λ w,
    match url with
    | None => (Raise PlaywrightError, w)
    | Some u =>
        let w' := World (files w) (http_log w) (u :: browser_log w) in
        match browser (browser_log w) u with
        | Some page => (Ok page, w')
        | None => (Raise PlaywrightError, w')
        end
    end.

(** Approach A: the aria-labels that mention citations. *)
Fixpoint cites_from_labels (labels : list string) (cites : gmap Z Z)
    : result (gmap Z Z) :=
  match labels with
  | [] => Ok cites
  | label :: labels' =>
      let txt := Py.lower label in
      match Re.search Pat.aria_cit txt with
      | Some m =>
          let? y := int_group m 1 in
          let? c := int_group m 2 in
          cites_from_labels labels' (<[y := c]> cites)
      | None => cites_from_labels labels' cites
      end
  end.

Definition extract_cites_by_year_playwright (view_citation_url : option string)
    : M (gmap Z Z) :=
  let! page := goto view_citation_url in
  let body := Py.lower (Browser.content page) in
  if Py.contains "unusual traffic" body || Py.contains "automated queries" body
     || Py.contains "recaptcha" body
  then raise (RuntimeError BLOCKED) else
  (* page.locator("[aria-label*='citations']").all() *)
  let aria_nodes := filter (λ l, Py.contains "citations" l) (Browser.aria_labels page) in
  let! cites := lift (cites_from_labels aria_nodes ∅) in
  if bool_decide (cites = ∅) then
    let graph_text := Browser.inner_text page in
    lift (fill_series
            ((λ m, (Re.group m 1, Re.group m 2))
               <$> Re.finditer Pat.text_cit (Py.lower graph_text)) ∅)
  else ret cites.

Definition view_page_path (cache_dir user_id : string) (i : nat) : string :=
  path_join cache_dir ["view_pages"; user_id; "pub_" +:+ Py.zfill5 (Z.of_nat i) +:+ ".html"].

(** [a or b] on optional integers: [None] and [0] are falsy. *)
Definition or_int (a b : option Z) : option Z :=
  match a with
  | Some v => if bool_decide (v = 0) then b else a
  | None => b
  end.

(** [a or b] where [a] is an optional string and [b] a string. *)
Definition or_str (a : option string) (b : string) : string :=
  match a with
  | Some s => if Py.truthy s then s else b
  | None => b
  end.

(** The body of the loop over the publications of one author. *)
Definition process_pub (user_id faculty_name department cache_dir : string)
    (i : nat) (p : pub) : M row :=
  let view_url := p_view_citation_url p in
  let year_from_list := p_year p in
  let cited_from_list := p_cited_by_from_list p in
  let cache_path := view_page_path cache_dir user_id i in
  let! html := cache_get view_url cache_path false in
  let! cites_by_year := extract_cites_by_year_playwright view_url in
  if looks_like_captcha html then raise (RuntimeError CAPTCHA_VIEW) else
  let! parsed := lift (parse_view_citation html) in
  let pub_year := or_int (d_pub_year parsed) year_from_list in
  let cited_total :=
    match d_cited_by_total parsed with
    | None => cited_from_list                        (* fallback *)
    | Some c => Some c
    end in
  let! cpy_proxy := lift (citations_per_year_proxy cited_total pub_year YEAR_MAX) in
  let cites_src :=
    if bool_decide (cites_by_year = ∅) then d_cites_by_year parsed else cites_by_year in
  ret (Row department faculty_name (or_str (d_title parsed) (p_title p))
         pub_year cited_total cpy_proxy (d_abstract parsed) user_id view_url
         (cites_2015_2026 cites_src)).

Fixpoint process_pubs (user_id faculty_name department cache_dir : string)
    (i : nat) (pubs : list pub) : M (list row) :=
  match pubs with
  | [] => ret []
  | p :: pubs' =>
      let! r := process_pub user_id faculty_name department cache_dir i p in
      let! rows := process_pubs user_id faculty_name department cache_dir (S i) pubs' in
      ret (r :: rows)
  end.

Definition in_horizon (r : row) : bool :=
  match r_publication_year r with
  | None => true
  | Some y => (YEAR_MIN <=? y) && (y <=? YEAR_MAX)
  end.

(** [n] bounds the iterations of the pagination loop. A table built from
    no rows has no columns, and selecting its year column raises. *)
Definition process_one_professor (n : nat)
    (user_id faculty_name department cache_dir : string) (max_pubs : option Z)
    : M (list row) :=
  let! pubs := get_all_author_pubs n user_id cache_dir 100 max_pubs in
  let! rows := process_pubs user_id faculty_name department cache_dir 0 pubs in
  if bool_decide (rows = []) then raise (KeyError "publication_year")
  else ret (filter (λ r, in_horizon r) rows).

End Crawler.

(** A listing page that shows at least one row and an enabled button for
    the next page. *)
Definition endless_page (html_parser : string → list Soup.node) (html : string) : Prop :=
  looks_like_captcha html = false
  ∧ (∃ pubs, parse_author_page_for_pubs html_parser html = Ok pubs ∧ pubs ≠ [])
  ∧ next_cstart_from_author_page html_parser html = Some 1.

(** ** make_yearly_notebooklm_docs.py *)

Module YearlyDocs.

(** A cell of a table row read back from the CSV file. A float that is not
    NaN is given by the text [str()] prints for it. *)
Inductive cell :=
| CNone                    (* the row has no such column: row.get gives None *)
| CNaN                     (* an empty cell *)
| CFloat (text : string)
| CInt (z : Z)
| CStr (s : string).

Definition clean_text (x : cell) : string :=
  match x with
  | CNone => ""
  | CNaN => ""
  | CFloat text => Py.strip text
  | CInt z => Py.strip (Py.str_int z)
  | CStr s => Py.strip s
  end.

(** A value that is missing from the record. *)
Definition absent (x : cell) : Prop := x = CNone ∨ x = CNaN.

(** [row.get(k)] *)
Definition row_get (r : gmap string cell) (k : string) : cell :=
  default CNone (r !! k).

Definition nl : string := String "010" "".
Definition dq : string := String "034" "".

(** [a or b] on strings. *)
Definition or_else (a b : string) : string := if Py.truthy a then a else b.

(** [DISCLAIMER_TEMPLATE.format(dept=..., year=..., git_repo=...)] *)
Definition disclaimer (dept year git_repo : string) : string :=
  String.concat nl [
    "Data source: Google Scholar (scholar.google.com)";
    "Department: " +:+ dept;
    "Year: " +:+ year;
    "";
    "Notes:";
    "- Every attempt was made to identify Illinois Institute of Technology (IIT) faculty in "
      +:+ dept +:+ " and collect publication metadata from their Google Scholar profiles.";
    "- The document contains publication titles and available descriptions/abstract-like snippets for works published in "
      +:+ year +:+ ".";
    "- Author names are intentionally omitted from entries.";
    "- Citation counts are as reported by Google Scholar at collection time. A "
      +:+ dq +:+ "citations_per_year_proxy" +:+ dq +:+ " is computed as:";
    "    cited_by_total / (2026 - publication_year + 1)";
    "- Git repository for the collection code: " +:+ git_repo;
    "";
    "------------------------------------------------------------";
    ""
  ].

(** The strings written for one row, one per [f.write]. *)
Definition record_writes (row : gmap string cell) : list string :=
  let title := clean_text (row_get row "title") in
  let abstract := clean_text (row_get row "abstract") in
  let cited_by_total := clean_text (row_get row "cited_by_total") in
  let proxy := clean_text (row_get row "citations_per_year_proxy") in
  [ "TITLE: " +:+ title +:+ nl;
    "CITED_BY_TOTAL: " +:+ or_else cited_by_total "N/A" +:+ nl;
    "CITATIONS_PER_YEAR_PROXY: " +:+ or_else proxy "N/A" +:+ nl;
    "ABSTRACT_OR_DESCRIPTION:" +:+ nl;
    (if Py.truthy abstract then abstract else "N/A") +:+ nl;
    nl +:+ String.concat "" (replicate 60 "-") +:+ nl +:+ nl ].

Section write.
(** pandas' [sort_values] on the sort key (citations, most cited first;
    then title), for a table that has both columns and whose citation counts
    are numbers or missing. *)
Context (sort_values : list (gmap string cell) → list (gmap string cell)).

(** The text the file of one year holds at the end, and how the call ends.
    [columns] are the columns of the table. The header is written first;
    then the sort key is computed, which fails on a table without the column
    of the citation counts (the default [0] of [get] has no [fillna]), and
    the table is sorted, which fails without the title column. *)
Definition write_year_file (columns : list string) (df_year : list (gmap string cell))
    (dept : string) (year : Z) (git_repo : string) : string * result unit :=
  if negb (Py.str_ok year) then ("", Raise ValueError) else
  let header := disclaimer dept (Py.str_int year) git_repo in
  if negb (bool_decide ("cited_by_total" ∈ columns)) then (header, Raise AttributeError)
  else if negb (bool_decide ("title" ∈ columns)) then (header, Raise (KeyError "title"))
  else (header +:+ String.concat "" (flat_map record_writes (sort_values df_year)), Ok ()).
End write.

End YearlyDocs.

(** ** A small site, for running the definitions *)

Module Site.

Definition tag (name : string) (attrs : list (string * string))
    (children : list Soup.node) : Soup.node :=
  Soup.Tag name (list_to_map attrs) children.

(** The documents of the site. A listing page has one row and the button
    for the next page; [anchor] is what the title anchor carries. *)
Definition listing_html (anchor next : string) : string :=
  "<tr class='gsc_a_tr'><td class='gsc_a_t'><a " +:+ anchor +:+ ">A paper</a></td>"
  +:+ "<td class='gsc_a_c'><a class='gsc_a_ac gs_ibl'>12</a></td>"
  +:+ "<td class='gsc_a_y'><span class='gsc_a_h gsc_a_hc gs_ibl'>2019</span></td></tr>"
  +:+ "<button id='gsc_bpf_next'" +:+ next +:+ "></button>".

Definition LISTING : string :=
  listing_html "href='/citations?citation_for_view=U:1' class='gsc_a_at'" " disabled".
Definition LISTING_NOHREF : string := listing_html "class='gsc_a_at'" " disabled".
Definition LISTING_MORE : string :=
  listing_html "href='/citations?citation_for_view=U:1' class='gsc_a_at'" "".

Definition DETAIL : string :=
  "<div id='gsc_oci_title'>A paper, in full</div>"
  +:+ "<div class='gsc_oci_field'>Publication date</div><div class='gsc_oci_value'>2020/5/1</div>"
  +:+ "<div class='gsc_oci_field'>Total citations</div><div class='gsc_oci_value'>Cited by 12</div>"
  +:+ "<div class='gsc_oci_field'>Description</div><div class='gsc_oci_value'>We study things.</div>"
  +:+ "<script>var bars = [[2018,5],[2019,7]];</script>".

Definition DETAIL_Y0 : string :=
  "<div id='gsc_oci_title'></div>"
  +:+ "<div class='gsc_oci_field'>Publication date</div><div class='gsc_oci_value'>0000</div>".

Definition BLOCKED_PAGE : string :=
  "<html><body>Our systems have detected unusual traffic from your computer network.</body></html>".

(** The trees of these documents. *)
Definition listing_tree (anchor : list (string * string)) (next : list (string * string))
    : list Soup.node :=
  [ tag "tr" [("class", "gsc_a_tr")] [
      tag "td" [("class", "gsc_a_t")] [tag "a" anchor [Soup.Text "A paper"]];
      tag "td" [("class", "gsc_a_c")] [tag "a" [("class", "gsc_a_ac gs_ibl")] [Soup.Text "12"]];
      tag "td" [("class", "gsc_a_y")]
        [tag "span" [("class", "gsc_a_h gsc_a_hc gs_ibl")] [Soup.Text "2019"]] ];
    tag "button" (("id", "gsc_bpf_next") :: next) [] ].

Definition field (label value : string) : list Soup.node :=
  [ tag "div" [("class", "gsc_oci_field")] [Soup.Text label];
    tag "div" [("class", "gsc_oci_value")] [Soup.Text value] ].

(** The parser, on the documents of the site. *)
Definition html_parser (html : string) : list Soup.node :=
  if bool_decide (html = LISTING) then
    listing_tree [("href", "/citations?citation_for_view=U:1"); ("class", "gsc_a_at")]
      [("disabled", "")]
  else if bool_decide (html = LISTING_NOHREF) then
    listing_tree [("class", "gsc_a_at")] [("disabled", "")]
  else if bool_decide (html = LISTING_MORE) then
    listing_tree [("href", "/citations?citation_for_view=U:1"); ("class", "gsc_a_at")] []
  else if bool_decide (html = DETAIL) then
    tag "div" [("id", "gsc_oci_title")] [Soup.Text "A paper, in full"]
    :: field "Publication date" "2020/5/1" ++ field "Total citations" "Cited by 12"
       ++ field "Description" "We study things."
       ++ [tag "script" [] [Soup.Str Soup.Script "var bars = [[2018,5],[2019,7]];"]]
  else if bool_decide (html = DETAIL_Y0) then
    tag "div" [("id", "gsc_oci_title")] [] :: field "Publication date" "0000"
  else if bool_decide (html = BLOCKED_PAGE) then
    [ tag "html" [] [tag "body" []
        [Soup.Text "Our systems have detected unusual traffic from your computer network."]] ]
  else [].

Definition VIEW_URL : string := "https://scholar.google.com/citations?citation_for_view=U:1".

(** A listing URL and the cache path of its page. *)
Definition LIST_URL : string :=
  "https://scholar.google.com/citations?hl=en&user=U&cstart=0&pagesize=100".
Definition LIST_PATH : string := "cache/author_pages/U/cstart_0.html".

(** A server that answers every listing request with [listing] and every
    other request with [detail_page]. *)
Definition server (listing detail_page : string) (log : list string) (url : string)
    : option string :=
  if Py.contains "&cstart=" url then Some listing else Some detail_page.

(** A server that answers every request with [body]. *)
Definition always (body : string) (log : list string) (url : string) : option string :=
  Some body.

(** A body with a CR LF line ending. *)
Definition CRLF_BODY : string := "a" +:+ String "013" (String "010" "b").

(** A browser that shows the same rendered page for every URL. *)
Definition shows (p : Browser.page) (log : list string) (url : string)
    : option Browser.page := Some p.

(** A rendered page without a chart, and one with a bar of 9 citations
    in 2018. *)
Definition PLAIN : Browser.page := Browser.Page "<p>No chart.</p>" [] "No chart.".
Definition BARS : Browser.page :=
  Browser.Page
    "<div aria-label='2018: 9 citations'></div><button aria-label='Close'></button>"
    ["2018: 9 citations"; "Close"] "".

Definition empty_world : world := World ∅ [] [].

(** The stub of the listing row above. *)
Definition STUB : pub := Pub "A paper" (Some 2019) (Some 12) (Some VIEW_URL).

(** A record of the yearly export with a title that is missing. *)
Definition UNTITLED : gmap string YearlyDocs.cell :=
  {[ "title" := YearlyDocs.CNaN; "cited_by_total" := YearlyDocs.CInt 3;
     "citations_per_year_proxy" := YearlyDocs.CFloat "0.5";
     "abstract" := YearlyDocs.CStr "We study things." ]}.

(** A record with nothing but a title. *)
Definition BARE : gmap string YearlyDocs.cell :=
  {[ "title" := YearlyDocs.CStr "A paper"; "cited_by_total" := YearlyDocs.CNaN;
     "citations_per_year_proxy" := YearlyDocs.CNaN ]}.

End Site.

(** ** The rest of scholar_department_extract.py *)

(** [re.sub(r, repl, s)] for a pattern that matches no empty string: every
    match, from left to right, is replaced by [repl]. *)
Module ReSub.

Fixpoint sub_go (n : nat) (r : Re.regex) (repl s : string) : string :=
  match n with
  | O => s
  | S n' =>
      match Re.search r s with
      | None => s
      | Some m =>
          if (String.length (Re.m_rest m) <? String.length s)%nat then
            (* the text before the match, the replacement, and the rest *)
            String.substring 0
              (String.length s - String.length (Re.m_text m)
               - String.length (Re.m_rest m)) s
            +:+ repl +:+ sub_go n' r repl (Re.m_rest m)
          else s
      end
  end.

Definition sub (r : Re.regex) (repl s : string) : string :=
  sub_go (String.length s) r repl s.

End ReSub.

Module Pat2.
Import Re.

(** [a-z0-9_] *)
Definition is_slug_char (a : ascii) : bool :=
  let n := N_of_ascii a in
  ((97 <=? n) && (n <=? 122) || (48 <=? n) && (n <=? 57) || (n =? 95))%N.

(** "\s+" *)
Definition spaces : regex := plus (Cls Py.is_space).

(** "[^a-z0-9_]+" *)
Definition non_slug : regex := plus (Cls (λ a, negb (is_slug_char a))).

(** "[?&]user=([^&]+)" *)
Definition user_param : regex :=
  cat [Cls (λ a, bool_decide (a = "?"%char) || bool_decide (a = "&"%char));
       lit "user=";
       Grp 1 (plus (Cls (λ a, negb (bool_decide (a = "&"%char)))))].

End Pat2.

(** What is left of [s] after its longest prefix of characters in [p]. *)
Fixpoint drop_while (p : ascii → bool) (s : string) : string :=
  match s with
  | "" => ""
  | String a s' => if p a then drop_while p s' else s
  end.

(** The characters of a string. *)
Abbreviation chars := String.list_ascii_of_string.

(** [s[:n]] for a string *)
Definition str_take (n : nat) (s : string) : string := String.substring 0 n s.

Definition slugify (s : string) : string :=
  let s := Py.lower (Py.strip s) in
  let s := ReSub.sub Pat2.spaces "_" s in
  let s := ReSub.sub Pat2.non_slug "" s in
  let s := str_take 120 s in
  if Py.truthy s then s else "x".

(** The argument is a string here: the caller passes nothing else. *)
Definition scholar_author_id_from_url (url : string) : option string :=
  if negb (Py.truthy url) then None
  else
    match Re.search Pat2.user_param url with
    | Some m => Some (Re.group m 1)
    | None => None
    end.

(** The roster table read by [pd.read_csv]. *)
Module Roster.

(** A cell: an empty one ([NaN]), a string, or a value of another type
    (a number, say), given by the text [str()] prints for it. *)
Inductive cell :=
| NaN
| Str (s : string)
| Other (text : string).

(** [str(x)] *)
Definition str (x : cell) : string :=
  match x with
  | NaN => "nan"
  | Str s => s
  | Other text => text
  end.

Record frame := Frame {
  columns : list string;
  rows : list (gmap string cell);
}.

(** [r[col]] for a column of the table: a cell left empty reads as [NaN]. *)
Definition get (r : gmap string cell) (col : string) : cell := default NaN (r !! col).

End Roster.

Section Department.
Context (html_parser : string → list Soup.node).
Context (http : list string → string → option string).
Context (browser : list string → string → option Browser.page).

(** The user id of a roster row that is processed, with the name it is
    processed under; [None] for a row that is skipped. *)
Definition roster_entry (name_col url_col : string) (r : gmap string Roster.cell)
    : option (string * string) :=
  let faculty_name := Py.strip (Roster.str (Roster.get r name_col)) in
  let scholar_url := Roster.get r url_col in
  if bool_decide (faculty_name = "") then None
  else
    match scholar_url with
    | Roster.NaN => None
    | Roster.Other _ => None
    | Roster.Str u =>
        if bool_decide (Py.strip u = "") then None
        else
          match scholar_author_id_from_url u with
          | None => None
          | Some user_id =>
              if Py.truthy user_id then Some (user_id, faculty_name) else None
          end
    end.

(** The loop over the rows of the roster; [n] counts the authors processed
    and [fuel] bounds the pagination loop of each. *)
Fixpoint faculty_loop (fuel : nat) (department name_col url_col cache_dir : string)
    (max_faculty max_pubs_per_faculty : option Z)
    (rows : list (gmap string Roster.cell)) (all_frames : list (list row)) (n : Z)
    : M (list (list row)) :=
  match rows with
  | [] => ret all_frames
  | r :: rows' =>
      if match max_faculty with
         | Some m => n >=? m
         | None => false
         end
      then ret all_frames                                   (* break *)
      else
        match roster_entry name_col url_col r with
        | None =>                                           (* continue *)
            faculty_loop fuel department name_col url_col cache_dir
              max_faculty max_pubs_per_faculty rows' all_frames n
        | Some (user_id, faculty_name) =>
            let! df_prof :=
              process_one_professor html_parser http browser fuel user_id faculty_name
                department cache_dir max_pubs_per_faculty in
            faculty_loop fuel department name_col url_col cache_dir
              max_faculty max_pubs_per_faculty rows' (all_frames ++ [df_prof]) (n + 1)
        end
  end.

(** The value is the table that is written to [out_csv]. *)
Definition process_department_csv (fuel : nat) (df : Roster.frame)
    (department name_col url_col cache_dir : string)
    (max_faculty max_pubs_per_faculty : option Z) : M (list row) :=
  if negb (bool_decide (name_col ∈ Roster.columns df)
           && bool_decide (url_col ∈ Roster.columns df))
  then raise ValueError
  else
    let! all_frames :=
      faculty_loop fuel department name_col url_col cache_dir max_faculty
        max_pubs_per_faculty (Roster.rows df) [] 0 in
    ret (concat all_frames).

End Department.

(** ** More of the small site *)

Module Demo.

(** A server that answers nothing. *)
Definition down (log : list string) (url : string) : option string := None.

(** A page without publication rows. *)
Definition NO_ROWS : string := "<p>No publications.</p>".

(** A roster of three rows: one without a link, one whose link names no
    user, and one that is processed. *)
Definition COLUMNS : list string := ["Faculty Name"; "Google Scholar Link"].
Definition BOB : gmap string Roster.cell :=
  {[ "Faculty Name" := Roster.Str "Bob"; "Google Scholar Link" := Roster.NaN ]}.
Definition CY : gmap string Roster.cell :=
  {[ "Faculty Name" := Roster.Str "Cy";
     "Google Scholar Link" := Roster.Str "https://scholar.google.com/citations?hl=en" ]}.
Definition ANN : gmap string Roster.cell :=
  {[ "Faculty Name" := Roster.Str " Ann ";
     "Google Scholar Link" :=
       Roster.Str "https://scholar.google.com/citations?user=U&hl=en" ]}.
Definition ROSTER : Roster.frame := Roster.Frame COLUMNS [BOB; CY; ANN].

End Demo.

(** * Proofs *)

#[local] Arguments String.append !s1 s2 /.
#[local] Arguments Py.str_ok : simpl never.

(** * Facts about strings *)


Section py_facts.
Import Py.

Lemma digit_char a :
  is_digit a = true →
  is_space a = false ∧ is_int_space a = false
  ∧ a ≠ "_"%char ∧ a ≠ "-"%char ∧ a ≠ "+"%char
  ∧ 0 ≤ digit_val a ≤ 9.
Proof.
  destruct a as [[] [] [] [] [] [] [] []]; intros H; try discriminate H;
    (repeat split; [done .. | vm_compute; discriminate | vm_compute; discriminate]).
Qed.

Lemma all_digits_app s t :
  all_digits (s +:+ t) = all_digits s && all_digits t.
Proof. induction s as [|a s IH]; simpl; [done|]. by rewrite IH, andb_assoc. Qed.

Lemma isdecimal_app s t :
  isdecimal s = true → all_digits t = true → isdecimal (s +:+ t) = true.
Proof.
  destruct s as [|a s]; [done|]. simpl. intros Hs Ht.
  rewrite all_digits_app. apply andb_true_iff in Hs as [-> ->]. by rewrite Ht.
Qed.

Lemma isdecimal_all s : isdecimal s = true → all_digits s = true.
Proof. by destruct s. Qed.

Lemma int_lstrip_digits a s : is_digit a = true → int_lstrip (String a s) = String a s.
Proof. intros (_ & Hsp & _)%digit_char. simpl. by rewrite Hsp. Qed.

Lemma int_rstrip_digits s : all_digits s = true → int_rstrip s = s.
Proof.
  induction s as [|a s IH]; simpl; [done|].
  intros [Ha Hs]%andb_true_iff. rewrite (IH Hs).
  apply digit_char in Ha as (_ & -> & _). done.
Qed.

Lemma count_digits_all s : all_digits s = true → count_digits s = String.length s.
Proof.
  induction s as [|a s IH]; simpl; [done|].
  intros [-> Hs]%andb_true_iff. by rewrite (IH Hs).
Qed.

Lemma int_digits_ok s acc :
  all_digits s = true → 0 ≤ acc → ∃ z, int_digits acc s = Some z ∧ 0 ≤ z.
Proof.
  revert acc. induction s as [|a s IH]; simpl; intros acc Hs Hacc; [eauto|].
  apply andb_true_iff in Hs as [Ha Hs].
  destruct (digit_char a Ha) as (_ & _ & Hu & _ & _ & Hv).
  rewrite bool_decide_eq_false_2 by done. rewrite Ha.
  apply IH; [done | lia].
Qed.

(** On a string of decimal digits [int] gives a number that is not
    negative, unless there are more than 4300 of them: then it raises. *)
Lemma int_isdecimal s :
  isdecimal s = true →
  if (String.length s <=? MAX_STR_DIGITS)%nat
  then ∃ z, int s = Some z ∧ 0 ≤ z
  else int s = None.
Proof.
  destruct s as [|a s]; [done|]. intros Hs.
  assert (all_digits (String a s) = true) as Hall by done.
  pose proof Hs as [Ha Hs']%andb_true_iff.
  unfold int. rewrite int_lstrip_digits by done.
  rewrite int_rstrip_digits by done.
  destruct (digit_char a Ha) as (_ & _ & _ & Hm & Hp & _).
  destruct (int_digits_ok (String a s) 0) as (z & Hz & Hz0); [done | lia |].
  assert (match String a s with
          | String "-" b => (true, b)
          | String "+" b => (false, b)
          | _ => (false, String a s)
          end = (false, String a s)) as ->.
  { destruct a as [[] [] [] [] [] [] [] []]; try done. }
  rewrite Ha, count_digits_all, Hz by done. cbn [andb].
  destruct (String.length (String a s) <=? MAX_STR_DIGITS)%nat; [|done].
  simpl. eauto.
Qed.

Lemma int_isdecimal_short s :
  isdecimal s = true → (String.length s ≤ MAX_STR_DIGITS)%nat →
  ∃ z, int s = Some z ∧ 0 ≤ z.
Proof.
  intros Hs Hlen. pose proof (int_isdecimal s Hs) as H.
  by replace (_ <=? _)%nat with true in H by (symmetry; by apply Nat.leb_le).
Qed.

Lemma int_isdecimal_nonneg s z : isdecimal s = true → int s = Some z → 0 ≤ z.
Proof.
  intros Hs Hz. pose proof (int_isdecimal s Hs) as H.
  destruct (_ <=? _)%nat; [|congruence].
  destruct H as (z' & Hz' & ?). congruence.
Qed.

Lemma str_length_app s t :
  String.length (s +:+ t) = (String.length s + String.length t)%nat.
Proof. induction s; simpl; [done|]. by f_equal. Qed.

Lemma str_substring_app s t : String.substring 0 (String.length s) (s +:+ t) = s.
Proof. induction s; simpl; [by destruct t|]. by f_equal. Qed.

Lemma str_app_assoc s t u : (s +:+ t) +:+ u = s +:+ t +:+ u.
Proof. induction s; simpl; [done|]. by f_equal. Qed.

End py_facts.

Lemma lower_app s t : Py.lower (s +:+ t) = Py.lower s +:+ Py.lower t.
Proof. induction s as [|a s IH]; simpl; [done|]. by rewrite IH. Qed.

Lemma startswith_app_r p s t : Py.startswith p s = true → Py.startswith p (s +:+ t) = true.
Proof.
  revert s. induction p as [|a p IH]; intros s; [done|].
  destruct s as [|b s]; [done|]. simpl.
  intros [-> Hp]%andb_true_iff. by rewrite (IH _ Hp).
Qed.

Lemma contains_app_r p s t : Py.contains p s = true → Py.contains p (s +:+ t) = true.
Proof.
  induction s as [|b s IH].
  - cbn [Py.contains]. intros [Hp|[=]]%orb_true_iff. destruct p; [|done]. by destruct t.
  - change (String b s +:+ t) with (String b (s +:+ t)). cbn [Py.contains].
    intros [Hp|Hs]%orb_true_iff.
    + apply orb_true_iff. left. exact (startswith_app_r _ (String b s) t Hp).
    + rewrite (IH Hs). apply orb_true_r.
Qed.

Lemma contains_app_l p s t : Py.contains p t = true → Py.contains p (s +:+ t) = true.
Proof.
  intros Ht. induction s as [|b s IH]; [done|].
  change (String b s +:+ t) with (String b (s +:+ t)). cbn [Py.contains].
  rewrite IH. apply orb_true_r.
Qed.

Lemma contains_context p s t u :
  Py.contains p t = true → Py.contains p (s +:+ t +:+ u) = true.
Proof. intros Ht. by apply contains_app_l, contains_app_r. Qed.

Lemma startswith_contains p s : Py.startswith p s = true → Py.contains p s = true.
Proof. intros H. destruct s; cbn [Py.contains]; by rewrite H. Qed.

Lemma endswith_char_app a s t :
  t ≠ "" → Py.endswith_char a (s +:+ t) = Py.endswith_char a t.
Proof.
  intros Ht. induction s as [|b s IH]; [done|].
  change (String b s +:+ t) with (String b (s +:+ t)). cbn [Py.endswith_char].
  destruct (s +:+ t) eqn:E; [|done]. destruct s; [|done]. simpl in E. done.
Qed.

Lemma endswith_char_contains a s :
  Py.endswith_char a s = true → Py.contains (String a "") s = true.
Proof.
  induction s as [|b s IH]; [done|]. cbn [Py.endswith_char Py.contains].
  destruct s as [|c s].
  - intros ->%bool_decide_eq_true. simpl. by rewrite bool_decide_eq_true_2.
  - intros H. rewrite (IH H). apply orb_true_r.
Qed.
(** * Facts about the matcher *)

Section re_facts.
Import Re.

Lemma consumed_app pre s1 : consumed (pre +:+ s1) s1 = pre.
Proof.
  unfold consumed. rewrite str_length_app.
  replace (String.length pre + String.length s1 - String.length s1)%nat
    with (String.length pre) by lia.
  apply str_substring_app.
Qed.

Section iter_facts.
Context (step : string → caps → list (string * caps)).
Context (Q Q' : string → Prop) (I : caps → Prop).
Context (Hnil : Q' "") (Happ : ∀ a b, Q a → Q' b → Q' (a +:+ b)).

Lemma iter_greedy_consumes n :
  (∀ s c s1 c1, In (s1, c1) (step s c) → ∃ pre, s = pre +:+ s1 ∧ Q pre) →
  ∀ s c s1 c1, In (s1, c1) (iter_greedy step n s c) → ∃ pre, s = pre +:+ s1 ∧ Q' pre.
Proof.
  intros Hstep. induction n as [|n IH]; simpl; intros s c s1 c1 Hin.
  - destruct Hin as [[= <- <-]|[]]. by exists "".
  - apply in_app_iff in Hin as [Hin|[[= <- <-]|[]]]; [|by exists ""].
    apply in_flat_map in Hin as ([s2 c2] & H2 & Hin).
    destruct (_ <? _)%nat; [|done].
    destruct (Hstep _ _ _ _ H2) as (p1 & -> & Hp1).
    destruct (IH _ _ _ _ Hin) as (p2 & -> & Hp2).
    exists (p1 +:+ p2). by rewrite str_app_assoc; auto.
Qed.

Lemma iter_lazy_consumes n :
  (∀ s c s1 c1, In (s1, c1) (step s c) → ∃ pre, s = pre +:+ s1 ∧ Q pre) →
  ∀ s c s1 c1, In (s1, c1) (iter_lazy step n s c) → ∃ pre, s = pre +:+ s1 ∧ Q' pre.
Proof.
  intros Hstep. induction n as [|n IH]; simpl; intros s c s1 c1 Hin.
  - destruct Hin as [[= <- <-]|[]]. by exists "".
  - destruct Hin as [[= <- <-]|Hin]; [by exists ""|].
    apply in_flat_map in Hin as ([s2 c2] & H2 & Hin).
    destruct (_ <? _)%nat; [|done].
    destruct (Hstep _ _ _ _ H2) as (p1 & -> & Hp1).
    destruct (IH _ _ _ _ Hin) as (p2 & -> & Hp2).
    exists (p1 +:+ p2). by rewrite str_app_assoc; auto.
Qed.

Lemma iter_greedy_inv n :
  (∀ s c s1 c1, In (s1, c1) (step s c) → I c → I c1) →
  ∀ s c s1 c1, In (s1, c1) (iter_greedy step n s c) → I c → I c1.
Proof.
  intros Hstep. induction n as [|n IH]; simpl; intros s c s1 c1 Hin Hc.
  - by destruct Hin as [[= <- <-]|[]].
  - apply in_app_iff in Hin as [Hin|[[= <- <-]|[]]]; [|done].
    apply in_flat_map in Hin as ([s2 c2] & H2 & Hin).
    destruct (_ <? _)%nat; [|done]. eauto.
Qed.

Lemma iter_lazy_inv n :
  (∀ s c s1 c1, In (s1, c1) (step s c) → I c → I c1) →
  ∀ s c s1 c1, In (s1, c1) (iter_lazy step n s c) → I c → I c1.
Proof.
  intros Hstep. induction n as [|n IH]; simpl; intros s c s1 c1 Hin Hc.
  - by destruct Hin as [[= <- <-]|[]].
  - destruct Hin as [[= <- <-]|Hin]; [done|].
    apply in_flat_map in Hin as ([s2 c2] & H2 & Hin).
    destruct (_ <? _)%nat; [|done]. eauto.
Qed.

(** The same for what holds of the text that is left and the groups
    together. *)
Context (J : string → caps → Prop).

Lemma iter_greedy_inv2 n :
  (∀ s c s1 c1, In (s1, c1) (step s c) → J s c → J s1 c1) →
  ∀ s c s1 c1, In (s1, c1) (iter_greedy step n s c) → J s c → J s1 c1.
Proof.
  intros Hstep. induction n as [|n IH]; simpl; intros s c s1 c1 Hin Hc.
  - by destruct Hin as [[= <- <-]|[]].
  - apply in_app_iff in Hin as [Hin|[[= <- <-]|[]]]; [|done].
    apply in_flat_map in Hin as ([s2 c2] & H2 & Hin).
    destruct (_ <? _)%nat; [|done]. eauto.
Qed.

Lemma iter_lazy_inv2 n :
  (∀ s c s1 c1, In (s1, c1) (step s c) → J s c → J s1 c1) →
  ∀ s c s1 c1, In (s1, c1) (iter_lazy step n s c) → J s c → J s1 c1.
Proof.
  intros Hstep. induction n as [|n IH]; simpl; intros s c s1 c1 Hin Hc.
  - by destruct Hin as [[= <- <-]|[]].
  - destruct Hin as [[= <- <-]|Hin]; [done|].
    apply in_flat_map in Hin as ([s2 c2] & H2 & Hin).
    destruct (_ <? _)%nat; [|done]. eauto.
Qed.
End iter_facts.

Lemma consumes_mono r (Q Q' : string → Prop) :
  (∀ x, Q x → Q' x) → consumes r Q → consumes r Q'.
Proof. intros HQ Hr s c s1 c1 Hin. destruct (Hr _ _ _ _ Hin) as (p & ? & ?); eauto. Qed.

Lemma consumes_Cls p : consumes (Cls p) (λ pre, ∃ a, pre = String a "" ∧ p a = true).
Proof.
  intros [|a s] c s1 c1; simpl; [done|].
  destruct (p a) eqn:Hp; [|done]. intros [[= <- <-]|[]]. exists (String a ""). eauto.
Qed.

Lemma consumes_Cat r1 r2 (Q1 Q2 : string → Prop) :
  consumes r1 Q1 → consumes r2 Q2 →
  consumes (Cat r1 r2) (λ pre, ∃ a b, pre = a +:+ b ∧ Q1 a ∧ Q2 b).
Proof.
  intros H1 H2 s c s1 c1; simpl. intros ([s2 c2] & Hin1 & Hin2)%in_flat_map.
  destruct (H1 _ _ _ _ Hin1) as (p1 & -> & ?).
  destruct (H2 _ _ _ _ Hin2) as (p2 & -> & ?).
  exists (p1 +:+ p2). rewrite str_app_assoc. eauto 6.
Qed.

Lemma consumes_Star r (Q Q' : string → Prop) :
  Q' "" → (∀ a b, Q a → Q' b → Q' (a +:+ b)) → consumes r Q → consumes (Star r) Q'.
Proof. intros ?? Hr s c s1 c1. simpl. by eapply iter_greedy_consumes. Qed.

Lemma consumes_StarLazy r (Q Q' : string → Prop) :
  Q' "" → (∀ a b, Q a → Q' b → Q' (a +:+ b)) → consumes r Q → consumes (StarLazy r) Q'.
Proof. intros ?? Hr s c s1 c1. simpl. by eapply iter_lazy_consumes. Qed.

(** What is left after a match is a suffix of the subject. *)
Lemma run_suffix r : consumes r (λ _, True).
Proof.
  induction r as [|p|r1 IH1 r2 IH2|r IH|r IH|g r IH].
  - intros s c s1 c1 [[= <- <-]|[]]. by exists "".
  - eapply consumes_mono; [|apply consumes_Cls]. done.
  - eapply consumes_mono; [|exact (consumes_Cat _ _ _ _ IH1 IH2)]. done.
  - by apply (consumes_Star _ (λ _, True)).
  - by apply (consumes_StarLazy _ (λ _, True)).
  - intros s c s1 c1; simpl. intros ([s2 c2] & Hin & [[= <- <-]|[]])%in_flat_map.
    by apply (IH _ _ _ _ Hin).
Qed.

(** One digit, four digits, a run of digits. *)
Lemma consumes_d : consumes d (λ pre, Py.isdecimal pre = true).
Proof.
  eapply consumes_mono; [|apply consumes_Cls].
  intros x (a & -> & Ha). simpl. by rewrite Ha.
Qed.

Lemma consumes_rep4 : consumes (rep4 d) (λ pre, Py.isdecimal pre = true).
Proof.
  unfold rep4.
  pose proof (consumes_Cat _ _ _ _ consumes_d consumes_d) as H2.
  pose proof (consumes_Cat _ _ _ _ consumes_d H2) as H3.
  pose proof (consumes_Cat _ _ _ _ consumes_d H3) as H4.
  eapply consumes_mono; [|exact H4].
  intros x (a & ? & -> & Ha & b & ? & -> & Hb & e & f & -> & He & Hf).
  apply isdecimal_app; [done|]. apply isdecimal_all, isdecimal_app; [done|].
  apply isdecimal_all, isdecimal_app; [done|]. by apply isdecimal_all.
Qed.

Lemma consumes_plus_d : consumes (plus d) (λ pre, Py.isdecimal pre = true).
Proof.
  unfold plus.
  assert (consumes (Star d) (λ pre, Py.all_digits pre = true)) as Hstar.
  { apply (consumes_Star _ (λ pre, Py.isdecimal pre = true)); [done| |apply consumes_d].
    intros a b Ha Hb. rewrite all_digits_app. by rewrite (isdecimal_all _ Ha), Hb. }
  eapply consumes_mono; [|exact (consumes_Cat _ _ _ _ consumes_d Hstar)].
  intros x (a & b & -> & Ha & Hb). by apply isdecimal_app.
Qed.

(** Groups. *)
Lemma no_grp_same r :
  no_grp r = true → ∀ s c s1 c1, In (s1, c1) (run r s c) → c1 = c.
Proof.
  induction r as [|p|r1 IH1 r2 IH2|r IH|r IH|g r IH]; simpl; intros Hr s c s1 c1 Hin.
  - by destruct Hin as [[= <- <-]|[]].
  - destruct s as [|a s]; [done|]. destruct (p a); [|done].
    by destruct Hin as [[= <- <-]|[]].
  - apply andb_true_iff in Hr as [Hr1 Hr2].
    apply in_flat_map in Hin as ([s2 c2] & Hin1 & Hin2).
    rewrite (IH2 Hr2 _ _ _ _ Hin2). eauto.
  - eapply (iter_greedy_inv (run r) (λ c', c' = c)); [|exact Hin|done].
    intros ???? Hin' ->. eauto.
  - eapply (iter_lazy_inv (run r) (λ c', c' = c)); [|exact Hin|done].
    intros ???? Hin' ->. eauto.
  - done.
Qed.

Lemma triple_no_grp (Pre : caps → Prop) r : no_grp r = true → triple Pre r Pre.
Proof. intros Hr s c s1 c1 Hin Hc. by rewrite (no_grp_same r Hr _ _ _ _ Hin). Qed.

Lemma triple_Cat (A B C : caps → Prop) r1 r2 :
  triple A r1 B → triple B r2 C → triple A (Cat r1 r2) C.
Proof.
  intros H1 H2 s c s1 c1; simpl. intros ([s2 c2] & Hin1 & Hin2)%in_flat_map Hc. eauto.
Qed.

(** A group around digits, with nothing captured inside it. *)
Lemma triple_Grp_digits (Pre Post : caps → Prop) g r :
  no_grp r = true → consumes r (λ pre, Py.isdecimal pre = true) →
  (∀ c v, Pre c → Py.isdecimal v = true → Post (<[g := v]> c)) →
  triple Pre (Grp g r) Post.
Proof.
  intros Hng Hr HPost s c s1 c1; simpl.
  intros ([s2 c2] & Hin & [[= <- <-]|[]])%in_flat_map Hc.
  rewrite (no_grp_same r Hng _ _ _ _ Hin).
  destruct (Hr _ _ _ _ Hin) as (pre & -> & Hpre).
  rewrite consumed_app. auto.
Qed.

Lemma dig_insert g v (c : caps) : Py.isdecimal v = true → dig g (<[g := v]> c).
Proof. intros Hv. exists v. by rewrite lookup_insert_eq. Qed.

Lemma dig_insert_ne g g' v (c : caps) : g ≠ g' → dig g' c → dig g' (<[g := v]> c).
Proof. intros Hne (u & Hu & ?). exists u. by rewrite lookup_insert_ne. Qed.

Lemma search_inv (Φ : match_obj → Prop) r :
  (∀ s s1 c1, In (s1, c1) (run r s ∅) → Φ (Match (consumed s s1) c1 s1)) →
  ∀ s m, search r s = Some m → Φ m.
Proof.
  intros Hrun s. induction s as [|a s IH]; simpl; intros m.
  - destruct (run r "" ∅) as [|[rest c] l] eqn:Hr; [done|].
    intros [= <-]. apply Hrun. rewrite Hr. by left.
  - destruct (run r (String a s) ∅) as [|[rest c] l] eqn:Hr; [by auto|].
    intros [= <-]. apply Hrun. rewrite Hr. by left.
Qed.

Lemma search_groups (Post : caps → Prop) r s m :
  triple (λ _, True) r Post → search r s = Some m → Post (m_groups m).
Proof.
  intros Hr. revert s m. apply (search_inv (λ m, Post (m_groups m))).
  intros s s1 c1 Hin. simpl. eauto.
Qed.

Lemma search_text (Q : string → Prop) r s m :
  consumes r Q → search r s = Some m → Q (m_text m).
Proof.
  intros Hr. revert s m. apply (search_inv (λ m, Q (m_text m))).
  intros s s1 c1 Hin. simpl. destruct (Hr _ _ _ _ Hin) as (pre & -> & ?).
  by rewrite consumed_app.
Qed.

Lemma finditer_Forall (Φ : match_obj → Prop) r :
  (∀ s m, search r s = Some m → Φ m) → ∀ s, Forall Φ (finditer r s).
Proof.
  intros Hs s. unfold finditer. generalize (String.length s) as n. intros n. revert s.
  induction n as [|n IH]; simpl; intros s; [done|].
  destruct (search r s) as [m|] eqn:Hm; [|done].
  destruct (_ <? _)%nat; [|done]. constructor; eauto.
Qed.

(** Pieces of a text, and the runs of digits among them. *)
Lemma within_refl s : within s s.
Proof. exists "", "". simpl. induction s; simpl; [done|]. by f_equal. Qed.

Lemma within_trans s t u : within s t → within t u → within s u.
Proof.
  intros (a & b & ->) (a' & b' & ->). exists (a +:+ a'), (b' +:+ b).
  by rewrite !str_app_assoc.
Qed.

Lemma runs_ok_suffix a : ∀ k s,
  (k ≤ Py.MAX_STR_DIGITS)%nat → runs_ok k (a +:+ s) = true →
  ∃ k', (k' ≤ Py.MAX_STR_DIGITS)%nat ∧ runs_ok k' s = true.
Proof.
  induction a as [|x a IH]; intros k s Hk; [by eauto|].
  cbn [String.append runs_ok]. destruct (Py.is_digit x).
  - intros [Hle%Nat.leb_le H]%andb_true_iff. by apply (IH (S k)).
  - apply IH. unfold Py.MAX_STR_DIGITS. lia.
Qed.

Lemma runs_ok_digits v : ∀ k s,
  runs_ok k (v +:+ s) = true → Py.all_digits v = true → (k ≤ Py.MAX_STR_DIGITS)%nat →
  (k + String.length v ≤ Py.MAX_STR_DIGITS)%nat.
Proof.
  induction v as [|x v IH]; intros k s; [simpl; lia|].
  cbn [String.append runs_ok Py.all_digits String.length].
  intros H [Hx Hv]%andb_true_iff Hk. rewrite Hx in H.
  apply andb_true_iff in H as [Hle%Nat.leb_le H].
  specialize (IH (S k) s H Hv Hle). lia.
Qed.

Lemma short_digits_within s v :
  short_digits s = true → within s v → Py.all_digits v = true →
  (String.length v ≤ Py.MAX_STR_DIGITS)%nat.
Proof.
  intros Hs (a & b & ->) Hv. unfold short_digits in Hs.
  apply runs_ok_suffix in Hs as (k & Hk & Hs); [|unfold Py.MAX_STR_DIGITS; lia].
  pose proof (runs_ok_digits _ _ _ Hs Hv Hk). lia.
Qed.

(** The groups of a match are pieces of the subject. *)
Lemma run_within s0 r :
  ∀ s c s1 c1, In (s1, c1) (run r s c) →
    (∃ a, s0 = a +:+ s) ∧ grp_within s0 c → (∃ a, s0 = a +:+ s1) ∧ grp_within s0 c1.
Proof.
  induction r as [|p|r1 IH1 r2 IH2|r IH|r IH|g r IH]; intros s c s1 c1 Hin [[a Ha] Hc].
  - destruct Hin as [[= <- <-]|[]]. eauto.
  - destruct (consumes_Cls p _ _ _ _ Hin) as (pre & -> & _).
    simpl in Hin. destruct pre as [|x pre]; simpl in Hin.
    + destruct s1 as [|y s1]; [done|]. destruct (p y); [|done].
      destruct Hin as [[= Hs <-]|[]]. split; [|done]. exists a. by rewrite Ha.
    + destruct (p x); [|done]. destruct Hin as [[= Hs <-]|[]]. split; [|done].
      exists (a +:+ String x pre). by rewrite Ha, str_app_assoc.
  - simpl in Hin. apply in_flat_map in Hin as ([s2 c2] & Hin1 & Hin2).
    eapply IH2; [exact Hin2|]. eapply IH1; [exact Hin1|]. eauto.
  - simpl in Hin.
    eapply (iter_greedy_inv2 (run r)
              (λ s c, (∃ a, s0 = a +:+ s) ∧ grp_within s0 c)); [exact IH|exact Hin|eauto].
  - simpl in Hin.
    eapply (iter_lazy_inv2 (run r)
              (λ s c, (∃ a, s0 = a +:+ s) ∧ grp_within s0 c)); [exact IH|exact Hin|eauto].
  - simpl in Hin. apply in_flat_map in Hin as ([s2 c2] & Hin & [[= <- <-]|[]]).
    destruct (IH _ _ _ _ Hin) as [Hs2 Hc2]; [by eauto|]. split; [done|].
    destruct (run_suffix r _ _ _ _ Hin) as (pre & -> & _). rewrite consumed_app.
    apply map_Forall_insert_2; [|done]. exists a, s2. by rewrite Ha.
Qed.

Lemma search_within s0 r m :
  ∀ s a, s0 = a +:+ s → search r s = Some m →
    grp_within s0 (m_groups m) ∧ within s0 (m_text m) ∧ ∃ a', s0 = a' +:+ m_rest m.
Proof.
  assert (∀ s a rest c l, s0 = a +:+ s → run r s ∅ = (rest, c) :: l →
            grp_within s0 c ∧ within s0 (consumed s rest) ∧ ∃ a', s0 = a' +:+ rest) as Hhit.
  { intros s a rest c l Ha Hr.
    assert (In (rest, c) (run r s ∅)) as Hin by (rewrite Hr; by left).
    destruct (run_within s0 r _ _ _ _ Hin) as [Hrest Hc].
    { split; [by eauto|]. apply map_Forall_empty. }
    split; [done|]. split; [|done].
    destruct (run_suffix r _ _ _ _ Hin) as (pre & -> & _). rewrite consumed_app.
    exists a, rest. by rewrite Ha. }
  induction s as [|x s IH]; intros a Ha; simpl.
  - destruct (run r "" ∅) as [|[rest c] l] eqn:Hr; [done|].
    intros [= <-]. by apply (Hhit "" a rest c l).
  - destruct (run r (String x s) ∅) as [|[rest c] l] eqn:Hr.
    + apply (IH (a +:+ String x "")). rewrite Ha, str_app_assoc. done.
    + intros [= <-]. by apply (Hhit (String x s) a rest c l).
Qed.

Lemma finditer_within s0 r :
  Forall (λ m, grp_within s0 (m_groups m) ∧ within s0 (m_text m)) (finditer r s0).
Proof.
  unfold finditer. generalize (String.length s0) as n. intros n.
  assert (∀ s a, s0 = a +:+ s →
            Forall (λ m, grp_within s0 (m_groups m) ∧ within s0 (m_text m))
              (finditer_go n r s)) as H.
  { induction n as [|n IH]; simpl; intros s a Ha; [done|].
    destruct (search r s) as [m|] eqn:Hm; [|done].
    destruct (_ <? _)%nat; [|done].
    destruct (search_within s0 r m s a Ha Hm) as (Hg & Ht & a' & Ha').
    constructor; [done|]. by apply (IH _ a'). }
  apply (H s0 ""). done.
Qed.

(** [int] on a group of digits: a number that is not negative, or the
    error of a run of more than 4300 digits in the subject. *)
Lemma int_group_dig s0 m g :
  grp_within s0 (m_groups m) → dig g (m_groups m) →
  (∃ z, int_group m g = Ok z ∧ 0 ≤ z)
  ∨ (int_group m g = Raise ValueError ∧ short_digits s0 = false).
Proof.
  intros Hw (v & Hv & Hd). unfold int_group, group. rewrite Hv. simpl.
  pose proof (int_isdecimal v Hd) as Hint.
  destruct (String.length v <=? Py.MAX_STR_DIGITS)%nat eqn:Hlen.
  - destruct Hint as (z & -> & ?). eauto.
  - rewrite Hint. right. split; [done|].
    destruct (short_digits s0) eqn:Hs; [|done].
    apply Nat.leb_gt in Hlen.
    pose proof (short_digits_within s0 v Hs (Hw _ _ Hv) (isdecimal_all _ Hd)). lia.
Qed.

(** The groups of the crawler's patterns hold digits. *)
Lemma year_groups : triple (λ _, True) Pat.year (dig 1).
Proof.
  apply triple_Grp_digits; [done | apply consumes_rep4 |].
  intros c v _ Hv. by apply dig_insert.
Qed.

Lemma cited_by_groups : triple (λ _, True) Pat.cited_by (dig 1).
Proof.
  unfold Pat.cited_by, cat.
  apply (triple_Cat _ (λ _, True)); [by apply triple_no_grp|].
  apply (triple_Cat _ (λ _, True)); [by apply triple_no_grp|].
  apply triple_Grp_digits; [done | apply consumes_plus_d |].
  intros c v _ Hv. by apply dig_insert.
Qed.

Lemma one_pair_groups : triple (λ _, True) Pat.one_pair (λ c, dig 1 c ∧ dig 2 c).
Proof.
  unfold Pat.one_pair, Pat.pair, cat.
  do 2 (apply (triple_Cat _ (λ _, True)); [by apply triple_no_grp|]).
  apply (triple_Cat _ (dig 1)).
  { apply triple_Grp_digits; [done | apply consumes_rep4 |].
    intros c v _ Hv. by apply dig_insert. }
  do 3 (apply (triple_Cat _ (dig 1)); [by apply triple_no_grp|]).
  apply (triple_Cat _ (λ c, dig 1 c ∧ dig 2 c)); [|by apply triple_no_grp].
  apply triple_Grp_digits; [done | apply consumes_plus_d |].
  intros c v H1 Hv. split; [by apply dig_insert_ne | by apply dig_insert].
Qed.

Lemma cit_groups mid :
  no_grp mid = true →
  triple (λ _, True)
    (cat [Grp 1 (rep4 d); mid; Grp 2 (plus d); ws1; lit "cit"])
    (λ c, dig 1 c ∧ dig 2 c).
Proof.
  intros Hmid. unfold cat.
  apply (triple_Cat _ (dig 1)).
  { apply triple_Grp_digits; [done | apply consumes_rep4 |].
    intros c v _ Hv. by apply dig_insert. }
  apply (triple_Cat _ (dig 1)); [by apply triple_no_grp|].
  apply (triple_Cat _ (λ c, dig 1 c ∧ dig 2 c)); [|by apply triple_no_grp].
  apply triple_Grp_digits; [done | apply consumes_plus_d |].
  intros c v H1 Hv. split; [by apply dig_insert_ne | by apply dig_insert].
Qed.

Lemma aria_cit_groups : triple (λ _, True) Pat.aria_cit (λ c, dig 1 c ∧ dig 2 c).
Proof. by apply cit_groups. Qed.

Lemma text_cit_groups : triple (λ _, True) Pat.text_cit (λ c, dig 1 c ∧ dig 2 c).
Proof. by apply cit_groups. Qed.

End re_facts.

(** * The series read off a page *)

Section series_facts.
Import Re.

Lemma within_empty s : within s "".
Proof. by exists "", s. Qed.

Lemma group_within s m g : grp_within s (m_groups m) → within s (group m g).
Proof.
  intros Hw. unfold group. destruct (m_groups m !! g) as [v|] eqn:Hv; simpl.
  - exact (Hw _ _ Hv).
  - apply within_empty.
Qed.

(** [int] on a piece of digits of a text. *)
Lemma int_piece s v :
  Py.isdecimal v = true → within s v →
  (∃ z, Py.int v = Some z ∧ 0 ≤ z) ∨ (Py.int v = None ∧ short_digits s = false).
Proof.
  intros Hd Hw. pose proof (int_isdecimal v Hd) as Hint.
  destruct (String.length v <=? Py.MAX_STR_DIGITS)%nat eqn:Hlen; [by left|].
  right. split; [done|]. destruct (short_digits s) eqn:Hs; [|done].
  apply Nat.leb_gt in Hlen.
  pose proof (short_digits_within s v Hs Hw (isdecimal_all _ Hd)). lia.
Qed.

Lemma fill_series_cases s pairs cites :
  Forall (λ yc, piece s yc.1 ∧ piece s yc.2) pairs →
  nonneg2 cites →
  (∃ cites', fill_series pairs cites = Ok cites' ∧ nonneg2 cites')
  ∨ (fill_series pairs cites = Raise ValueError ∧ short_digits s = false).
Proof.
  intros Hp. revert cites.
  induction Hp as [|[y c] pairs [[Hy Hyw] [Hc Hcw]] _ IH]; simpl; intros cites Hn.
  - eauto.
  - destruct (int_piece s y Hy Hyw) as [(zy & -> & ?)|[-> ?]]; [|by right].
    destruct (int_piece s c Hc Hcw) as [(zc & -> & ?)|[-> ?]]; [|by right].
    apply IH. by apply map_Forall_insert_2.
Qed.

Lemma finditer_pairs r s :
  triple (λ _, True) r (λ c, dig 1 c ∧ dig 2 c) →
  Forall (λ yc, piece s yc.1 ∧ piece s yc.2)
    ((λ m, (group m 1, group m 2)) <$> finditer r s).
Proof.
  intros Hr. apply Forall_fmap.
  pose proof (finditer_Forall (λ m, dig 1 (m_groups m) ∧ dig 2 (m_groups m)) r
                (λ s' m Hm, search_groups (λ c, dig 1 c ∧ dig 2 c) r s' m Hr Hm) s) as Hd.
  pose proof (finditer_within s r) as Hw.
  eapply Forall_impl; [apply Forall_and; split; [exact Hd|exact Hw]|].
  intros m [[(v1 & H1 & ?) (v2 & H2 & ?)] [Hg _]]. unfold piece, group. simpl.
  rewrite H1, H2. simpl. repeat split; try done; by eapply Hg.
Qed.

Lemma ints_cases s l :
  Forall (piece s) l →
  (∃ zs, ints l = Ok zs ∧ Forall (λ z, 0 ≤ z) zs)
  ∨ (ints l = Raise ValueError ∧ short_digits s = false).
Proof.
  induction 1 as [|x l [Hx Hw] _ IH]; simpl; [eauto|].
  destruct (int_piece s x Hx Hw) as [(z & -> & ?)|[-> ?]]; [|by right].
  destruct IH as [(zs & -> & Hzs)|[-> ?]]; simpl; [eauto|by right].
Qed.

Lemma finditer_digits r s :
  consumes r (λ pre, Py.isdecimal pre = true) →
  Forall (piece s) (m_text <$> finditer r s).
Proof.
  intros Hr. apply Forall_fmap.
  pose proof (finditer_Forall (λ m, Py.isdecimal (m_text m) = true) r
                (λ s' m Hm, search_text (λ pre, Py.isdecimal pre = true) r s' m Hr Hm) s)
    as Hd.
  pose proof (finditer_within s r) as Hw.
  eapply Forall_impl; [apply Forall_and; split; [exact Hd|exact Hw]|].
  by intros m [? [_ ?]].
Qed.

Lemma piece_within s t v : within s t → piece t v → piece s v.
Proof. intros Hst [Hd Hw]. split; [done|]. by eapply within_trans. Qed.

Lemma zip_series_nonneg2 (years cites : list Z) (acc : gmap Z Z) :
  Forall (λ z, 0 ≤ z) years → Forall (λ z, 0 ≤ z) cites → nonneg2 acc →
  nonneg2 (foldl (λ cites_by_year '(y, c), <[y := c]> cites_by_year) acc (zip years cites)).
Proof.
  intros Hy. revert cites acc.
  induction Hy as [|y years Hy0 _ IH]; intros cites acc Hc Hacc; [done|].
  destruct Hc as [|c cites Hc0 Hc]; [done|]. simpl.
  apply IH; [done|]. by apply map_Forall_insert_2.
Qed.

Lemma nonneg2_nonneg (cites : gmap Z Z) : nonneg2 cites → nonneg cites.
Proof. intros H y c Hc. by destruct (H y c Hc). Qed.

(** Lower case changes no digit. *)
Lemma is_digit_lower a : Py.is_digit (Py.lower_char a) = Py.is_digit a.
Proof. by destruct a as [[] [] [] [] [] [] [] []]. Qed.

Lemma short_digits_lower s : short_digits (Py.lower s) = short_digits s.
Proof.
  unfold short_digits. generalize O as k. induction s as [|a s IH]; intros k; [done|].
  cbn [Py.lower runs_ok]. rewrite is_digit_lower. by rewrite !IH.
Qed.

End series_facts.

(** * Facts about the crawler *)

Section crawler_facts.
Import Re.
Context (html_parser : string → list Soup.node).
Context (http : list string → string → option string).
Context (browser : list string → string → option Browser.page).

(** A number looked for in a text: found and not negative, not there, or
    too long for [int]. *)
Lemma search_int_group r s :
  triple (λ _, True) r (dig 1) →
  (∃ o : option Z,
     match Re.search r s with
     | Some m => let? y := int_group m 1 in Ok (Some y)
     | None => Ok None
     end = Ok o
     ∧ ∀ z, o = Some z → 0 ≤ z)
  ∨ (match Re.search r s with
     | Some m => let? y := int_group m 1 in Ok (Some y)
     | None => Ok None
     end = Raise ValueError
     ∧ short_digits s = false).
Proof.
  intros Hr. destruct (Re.search r s) as [m|] eqn:Hm; [|left; by exists None].
  destruct (search_within s r m s "" eq_refl Hm) as (Hw & _).
  destruct (int_group_dig s m 1 Hw) as [(z & -> & Hz)|[-> ?]].
  - exact (search_groups (dig 1) r s m Hr Hm).
  - left. exists (Some z). split; [done|]. by intros ? [= <-].
  - by right.
Qed.

(** The values of the fields of a detail page are texts of its value
    elements. *)
Lemma fields_values (fs vs : list Soup.node) :
  ∀ (acc : gmap string string) k x,
    foldl (λ fields '(f, v), <[Soup.get_text "" f := Soup.get_text " " v]> fields) acc
      (zip fs vs) !! k = Some x →
    acc !! k = Some x ∨ x ∈ (Soup.get_text " " <$> vs).
Proof.
  revert vs. induction fs as [|f fs IH]; intros [|v vs] acc k x; simpl; try by left.
  intros [H|H]%IH.
  - destruct (decide (Soup.get_text "" f = k)) as [<-|Hne].
    + rewrite lookup_insert_eq in H. injection H as <-. right. by left.
    + rewrite lookup_insert_ne in H by done. by left.
  - right. by right.
Qed.

(** Parsing a detail page: it returns, and then no year, total or count
    is negative; or [int] raises, and then one of the texts holds a run of
    more than 4300 digits. *)
Lemma parse_view_citation_cases html :
  (∃ d,
     parse_view_citation html_parser html = Ok d
     ∧ (∀ y, d_pub_year d = Some y → 0 ≤ y)
     ∧ (∀ c, d_cited_by_total d = Some c → 0 ≤ c)
     ∧ nonneg2 (d_cites_by_year d))
  ∨ (parse_view_citation html_parser html = Raise ValueError
     ∧ ¬ Forall (λ t, short_digits t = true) (detail_texts html_parser html)).
Proof.
  unfold parse_view_citation, detail_texts.
  set (values := Soup.select_doc (Soup.by_class "gsc_oci_value") _).
  set (fields := foldl _ _ _).
  set (title := match Soup.select_one_doc _ _ with Some _ => _ | None => _ end).
  assert (∀ k x, fields !! k = Some x → short_digits x = false →
            ¬ Forall (λ t, short_digits t = true) (html :: (Soup.get_text " " <$> values)))
    as Hfield.
  { intros k x Hx Hlong Hall. apply fields_values in Hx as [Hx|Hx]; [done|].
    apply Forall_cons in Hall as [_ Hall]. rewrite Forall_forall in Hall.
    specialize (Hall x Hx). congruence. }
  assert (short_digits html = false →
            ¬ Forall (λ t, short_digits t = true) (html :: (Soup.get_text " " <$> values)))
    as Hhtml.
  { intros Hlong [Hh _]%Forall_cons. congruence. }
  assert ((∃ o, match fields !! "Publication date" with
                | Some pub_date =>
                    if Py.truthy pub_date then
                      match Re.search Pat.year pub_date with
                      | Some m => let? y := int_group m 1 in Ok (Some y)
                      | None => Ok None
                      end
                    else Ok None
                | None => Ok None
                end = Ok o ∧ ∀ z, o = Some z → 0 ≤ z)
          ∨ (match fields !! "Publication date" with
             | Some pub_date =>
                 if Py.truthy pub_date then
                   match Re.search Pat.year pub_date with
                   | Some m => let? y := int_group m 1 in Ok (Some y)
                   | None => Ok None
                   end
                 else Ok None
             | None => Ok None
             end = Raise ValueError
             ∧ ¬ Forall (λ t, short_digits t = true)
                   (html :: (Soup.get_text " " <$> values))))
    as [(py & -> & Hpy)|[-> ?]]; [| |by right].
  { destruct (fields !! "Publication date") as [pub_date|] eqn:Hf; [|left; by exists None].
    destruct (Py.truthy pub_date); [|left; by exists None].
    destruct (search_int_group Pat.year pub_date year_groups) as [?|[-> ?]]; [by left|].
    right. eauto. }
  cbn [rbind].
  assert ((∃ o, match fields !! "Total citations" with
                | Some total =>
                    match Re.search Pat.cited_by total with
                    | Some m => let? c := int_group m 1 in Ok (Some c)
                    | None => Ok None
                    end
                | None => Ok None
                end = Ok o ∧ ∀ z, o = Some z → 0 ≤ z)
          ∨ (match fields !! "Total citations" with
             | Some total =>
                 match Re.search Pat.cited_by total with
                 | Some m => let? c := int_group m 1 in Ok (Some c)
                 | None => Ok None
                 end
             | None => Ok None
             end = Raise ValueError
             ∧ ¬ Forall (λ t, short_digits t = true)
                   (html :: (Soup.get_text " " <$> values))))
    as [(ct & -> & Hct)|[-> ?]]; [| |by right].
  { destruct (fields !! "Total citations") as [total|] eqn:Hf; [|left; by exists None].
    destruct (search_int_group Pat.cited_by total cited_by_groups) as [?|[-> ?]]; [by left|].
    right. eauto. }
  cbn [rbind].
  assert ((∃ o, match ct with
                | Some _ => Ok ct
                | None =>
                    match Re.search Pat.cited_by html with
                    | Some m => let? c := int_group m 1 in Ok (Some c)
                    | None => Ok None
                    end
                end = Ok o ∧ ∀ z, o = Some z → 0 ≤ z)
          ∨ (match ct with
             | Some _ => Ok ct
             | None =>
                 match Re.search Pat.cited_by html with
                 | Some m => let? c := int_group m 1 in Ok (Some c)
                 | None => Ok None
                 end
             end = Raise ValueError
             ∧ ¬ Forall (λ t, short_digits t = true)
                   (html :: (Soup.get_text " " <$> values))))
    as [(ct' & -> & Hct')|[-> ?]]; [| |by right].
  { destruct ct; [left; by eauto|].
    destruct (search_int_group Pat.cited_by html cited_by_groups) as [?|[-> ?]]; [by left|].
    right. eauto. }
  cbn [rbind].
  assert ((∃ series,
             match Re.search Pat.pairs_blob html with
             | Some m =>
                 fill_series
                   ((λ m0, (Re.group m0 1, Re.group m0 2))
                      <$> Re.finditer Pat.one_pair (Re.group m 1)) ∅
             | None =>
                 match Re.search Pat.years_cites html with
                 | Some m2 =>
                     let? years :=
                       ints (Re.m_text <$> Re.finditer Pat.four_digits (Re.group m2 1)) in
                     let? cites :=
                       ints (Re.m_text <$> Re.finditer Pat.digits (Re.group m2 2)) in
                     Ok (foldl (λ cites_by_year '(y, c), <[y := c]> cites_by_year) ∅
                           (zip years cites))
                 | None => Ok ∅
                 end
             end = Ok series ∧ nonneg2 series)
          ∨ (match Re.search Pat.pairs_blob html with
             | Some m =>
                 fill_series
                   ((λ m0, (Re.group m0 1, Re.group m0 2))
                      <$> Re.finditer Pat.one_pair (Re.group m 1)) ∅
             | None =>
                 match Re.search Pat.years_cites html with
                 | Some m2 =>
                     let? years :=
                       ints (Re.m_text <$> Re.finditer Pat.four_digits (Re.group m2 1)) in
                     let? cites :=
                       ints (Re.m_text <$> Re.finditer Pat.digits (Re.group m2 2)) in
                     Ok (foldl (λ cites_by_year '(y, c), <[y := c]> cites_by_year) ∅
                           (zip years cites))
                 | None => Ok ∅
                 end
             end = Raise ValueError ∧ short_digits html = false))
    as [(series & -> & Hseries)|[-> ?]]; [| |right; by auto].
  { destruct (Re.search Pat.pairs_blob html) as [m|] eqn:Hm.
    - destruct (search_within html Pat.pairs_blob m html "" eq_refl Hm) as (Hw & _).
      apply (fill_series_cases html); [|apply map_Forall_empty].
      eapply Forall_impl; [apply finditer_pairs, one_pair_groups|].
      intros yc [H1 H2].
      split; (eapply piece_within; [apply (group_within html m 1 Hw)|done]).
    - destruct (Re.search Pat.years_cites html) as [m2|] eqn:Hm2; [|left; by exists ∅].
      destruct (search_within html Pat.years_cites m2 html "" eq_refl Hm2) as (Hw & _).
      destruct (ints_cases html (Re.m_text <$> Re.finditer Pat.four_digits (Re.group m2 1)))
        as [(years & -> & Hy)|[-> ?]]; [|cbn [rbind]|by right].
      { eapply Forall_impl; [apply finditer_digits, consumes_rep4|].
        intros v. apply piece_within, (group_within html m2 1 Hw). }
      destruct (ints_cases html (Re.m_text <$> Re.finditer Pat.digits (Re.group m2 2)))
        as [(cites & -> & Hc)|[-> ?]]; [|cbn [rbind]|by right].
      { eapply Forall_impl; [apply finditer_digits, consumes_plus_d|].
        intros v. apply piece_within, (group_within html m2 2 Hw). }
      left. eexists. split; [done|].
      apply zip_series_nonneg2; [done | done | apply map_Forall_empty]. }
  cbn [rbind]. left. eexists. split; [done|]. simpl. eauto.
Qed.

Lemma parse_view_citation_nonneg html d :
  parse_view_citation html_parser html = Ok d →
  (∀ y, d_pub_year d = Some y → 0 ≤ y)
  ∧ (∀ c, d_cited_by_total d = Some c → 0 ≤ c)
  ∧ nonneg2 (d_cites_by_year d).
Proof.
  intros Hd. destruct (parse_view_citation_cases html) as [(d' & Hd' & H)|[Hr _]].
  - rewrite Hd in Hd'. by injection Hd' as <-.
  - congruence.
Qed.

Lemma cites_from_labels_cases labels acc :
  nonneg2 acc →
  (∃ cites, cites_from_labels labels acc = Ok cites ∧ nonneg2 cites)
  ∨ (cites_from_labels labels acc = Raise ValueError
     ∧ ¬ Forall (λ t, short_digits t = true) labels).
Proof.
  revert acc. induction labels as [|label labels IH]; simpl; intros acc Hacc; [by eauto|].
  assert (∀ acc', nonneg2 acc' →
            (∃ cites, cites_from_labels labels acc' = Ok cites ∧ nonneg2 cites)
            ∨ (cites_from_labels labels acc' = Raise ValueError
               ∧ ¬ Forall (λ t, short_digits t = true) (label :: labels))) as IH'.
  { intros acc' Hacc'. destruct (IH acc' Hacc') as [?|[-> Hl]]; [by left|].
    right. split; [done|]. by intros [_ ?]%Forall_cons. }
  assert (short_digits (Py.lower label) = false →
            ¬ Forall (λ t, short_digits t = true) (label :: labels)) as Hlong.
  { rewrite short_digits_lower. intros Hl [? _]%Forall_cons. congruence. }
  destruct (Re.search Pat.aria_cit (Py.lower label)) as [m|] eqn:Hm; [|by apply IH'].
  destruct (search_groups _ _ _ _ aria_cit_groups Hm) as [H1 H2].
  destruct (search_within _ _ _ _ "" eq_refl Hm) as (Hw & _).
  destruct (int_group_dig _ m 1 Hw H1) as [(y & -> & ?)|[-> ?]]; [|right; by auto].
  destruct (int_group_dig _ m 2 Hw H2) as [(c & -> & ?)|[-> ?]]; [|right; by auto].
  cbn [rbind]. apply IH'. by apply map_Forall_insert_2.
Qed.

(** What one call of [cache_get] without [force] comes to. *)
Lemma cache_get_eq url cache_path w :
  cache_get http url cache_path false w =
    match files w !! cache_path with
    | Some text => (Ok (read_text text), w)
    | None =>
        match url with
        | None => (Raise RequestException, w)
        | Some u =>
            if negb (http_url u) then (Raise RequestException, w) else
            let w1 := World (files w) (u :: http_log w) (browser_log w) in
            match http (http_log w) u with
            | Some body =>
                if negb (Py.contains "/" cache_path) then (Raise FileNotFoundError, w1)
                else if Py.endswith_char "/" cache_path then (Raise IsADirectoryError, w1)
                else (Ok body,
                      World (<[cache_path := body]> (files w)) (u :: http_log w)
                        (browser_log w))
            | None => (Raise RequestException, w1)
            end
        end
    end.
Proof.
  unfold cache_get. simpl. destruct (files w !! cache_path); [done|].
  unfold bind, requests_get, write_file. destruct url as [u|]; [|done].
  destruct (negb (http_url u)); [done|].
  destruct (http (http_log w) u); [|done]. simpl.
  destruct (negb (Py.contains "/" cache_path)); [done|].
  by destruct (Py.endswith_char "/" cache_path).
Qed.

Lemma cache_get_finishes url cache_path w :
  (cache_get http url cache_path false w).1 ≠ Unfinished.
Proof.
  rewrite cache_get_eq. destruct (files w !! cache_path); [done|].
  destruct url as [u|]; [|done]. destruct (negb (http_url u)); [done|].
  destruct (http (http_log w) u); [|done]. simpl.
  destruct (negb _); [done|]. by destruct (Py.endswith_char "/" cache_path).
Qed.

Ltac cache_get_cases url :=
  rewrite cache_get_eq;
  destruct (files _ !! _) as [?text|] eqn:?Hfile;
    [|destruct url as [?u|];
      [destruct (negb (http_url _)) eqn:?Hurl;
        [|destruct (http _ _) as [?body|] eqn:?Hhttp;
          [cbn zeta; destruct (negb (Py.contains "/" _)) eqn:?Hdir;
            [|destruct (Py.endswith_char "/" _) eqn:?Hslash]|]]|]].

Lemma cache_get_browser_log url cache_path w r w' :
  cache_get http url cache_path false w = (r, w') → browser_log w' = browser_log w.
Proof. cache_get_cases url; by intros [= _ <-]. Qed.

(** What [cache_get] does to the world, whatever comes of it. *)
Lemma cache_get_world url cache_path w r w' :
  cache_get http url cache_path false w = (r, w') →
  files w ⊆ files w'
  ∧ browser_log w' = browser_log w
  ∧ (length (http_log w') ≤ S (length (http_log w)))%nat
  ∧ (∀ html, r = Ok html →
       ∃ text, files w' !! cache_path = Some text
               ∧ (html = read_text text ∨ (html = text ∧ ∃ log u, http log u = Some html)))
  ∧ (∀ e, r = Raise e → files w' = files w).
Proof.
  cache_get_cases url; intros [= <- <-]; simpl;
    (split; [first [done | by apply insert_subseteq]|]);
    (split; [done|]); (split; [lia|]); (split; [|done]); try done.
  - intros html [= <-]. eauto.
  - intros html [= <-]. exists body. rewrite lookup_insert_eq. eauto 6.
Qed.

(** The exceptions of [cache_get]. *)
Lemma cache_get_raises url cache_path w r w' :
  cache_get http url cache_path false w = (r, w') →
  r ≠ Unfinished
  ∧ ∀ e, r = Raise e →
      e = RequestException
      ∨ (e = FileNotFoundError ∧ Py.contains "/" cache_path = false)
      ∨ (e = IsADirectoryError ∧ Py.endswith_char "/" cache_path = true).
Proof.
  cache_get_cases url; intros [= <- <-]; (split; [done|]); intros e [= <-]; auto.
  right. left. split; [done|]. by apply negb_true_iff.
Qed.

Lemma cache_get_log_cases url cache_path w r w' :
  cache_get http url cache_path false w = (r, w') →
  http_log w' = http_log w ∨ ∃ u, url = Some u ∧ http_log w' = u :: http_log w.
Proof. cache_get_cases url; intros [= <- <-]; eauto. Qed.

Lemma cache_get_log u cache_path w r w' :
  cache_get http (Some u) cache_path false w = (r, w') →
  http_log w' = http_log w ∨ http_log w' = u :: http_log w.
Proof. intros [?|(? & [= <-] & ?)]%cache_get_log_cases; auto. Qed.

(** The rendered extractor: how it can end, what it leaves of the world,
    and what it returns. *)
Lemma playwright_cases url w :
  let '(r, w') := extract_cites_by_year_playwright browser url w in
  files w' = files w ∧ http_log w' = http_log w
  ∧ ((∃ cites, r = Ok cites ∧ nonneg2 cites)
     ∨ r = Raise PlaywrightError
     ∨ r = Raise (RuntimeError BLOCKED)
     ∨ (r = Raise ValueError
        ∧ ∃ u page, url = Some u ∧ browser (browser_log w) u = Some page
                    ∧ ¬ Forall (λ t, short_digits t = true) (rendered_texts page))).
Proof.
  unfold extract_cites_by_year_playwright, bind, goto.
  destruct url as [u|]; [|simpl; by auto].
  destruct (browser (browser_log w) u) as [page|] eqn:Hpage; [|simpl; by auto].
  destruct (_ || _); [simpl; by auto 6|].
  destruct (cites_from_labels_cases
              (filter (λ l, Py.contains "citations" l) (Browser.aria_labels page)) ∅)
    as [(c1 & Hc1 & Hn1)|[Hc1 Hlong]]; [apply map_Forall_empty| |].
  - unfold lift at 1. rewrite Hc1. destruct (bool_decide (c1 = ∅)).
    + unfold lift.
      destruct (fill_series_cases (Py.lower (Browser.inner_text page))
                  ((λ m, (Re.group m 1, Re.group m 2))
                     <$> Re.finditer Pat.text_cit (Py.lower (Browser.inner_text page))) ∅)
        as [(c2 & -> & Hn2)|[-> Hl]];
        [apply finditer_pairs, text_cit_groups|apply map_Forall_empty| |].
      * simpl. split; [done|]. split; [done|]. left. by exists c2.
      * simpl. split; [done|]. split; [done|]. do 3 right. split; [done|].
        exists u, page. split; [done|]. split; [done|].
        rewrite short_digits_lower in Hl. intros [? _]%Forall_cons. congruence.
    + simpl. split; [done|]. split; [done|]. left. by exists c1.
  - unfold lift at 1. rewrite Hc1. simpl. split; [done|]. split; [done|].
    do 3 right. split; [done|]. exists u, page. split; [done|]. split; [done|].
    intros [_ Hall]%Forall_cons. apply Hlong.
    rewrite Forall_forall in Hall |- *. intros l [_ Hl]%list_elem_of_filter. by apply Hall.
Qed.

(** The rendered extractor, when it returns: the page was loaded, once, and
    neither a year nor a count is negative. *)
Lemma playwright_inv url w cites w' :
  extract_cites_by_year_playwright browser url w = (Ok cites, w') →
  ∃ u, url = Some u ∧ w' = World (files w) (http_log w) (u :: browser_log w)
       ∧ nonneg2 cites.
Proof.
  intros Hrun. pose proof (playwright_cases url w) as Hc. rewrite Hrun in Hc.
  destruct Hc as (_ & _ & [(c & [= <-] & Hn)|[?|[?|[? _]]]]); try done.
  revert Hrun. unfold extract_cites_by_year_playwright, bind, goto.
  destruct url as [u|]; [|done]. destruct (browser (browser_log w) u) as [page|]; [|done].
  destruct (_ || _); [done|].
  destruct (lift _ _) as [[c1| |] w1] eqn:Hl; [|done..].
  unfold lift in Hl. injection Hl as _ <-.
  destruct (bool_decide (c1 = ∅)); unfold lift, ret; intros [= _ <-]; eauto.
Qed.

(** Whatever comes of the rendered extractor, the browser has been sent to
    the page, once. *)
Lemma playwright_log url w r w' :
  extract_cites_by_year_playwright browser url w = (r, w') →
  match url with
  | Some u => browser_log w' = u :: browser_log w
  | None => r = Raise PlaywrightError ∧ w' = w
  end.
Proof.
  unfold extract_cites_by_year_playwright, bind, goto.
  destruct url as [u|]; [|by intros [= <- <-]].
  destruct (browser (browser_log w) u) as [page|]; [|by intros [= <- <-]].
  destruct (_ || _); [by intros [= _ <-]|].
  destruct (lift _ _) as [[c1| |] w1] eqn:Hl; unfold lift in Hl; injection Hl as _ <-;
    [|by intros [= _ <-]..].
  destruct (bool_decide (c1 = ∅)); unfold lift, ret; by intros [= _ <-].
Qed.

(** What a row is made of. *)
Lemma process_pub_inv user_id faculty_name department cache_dir i p w r w' :
  process_pub html_parser http browser user_id faculty_name department cache_dir i p w
    = (Ok r, w') →
  ∃ html w1 cites parsed proxy,
    cache_get http (p_view_citation_url p) (view_page_path cache_dir user_id i) false w
      = (Ok html, w1)
    ∧ extract_cites_by_year_playwright browser (p_view_citation_url p) w1 = (Ok cites, w')
    ∧ looks_like_captcha html = false
    ∧ parse_view_citation html_parser html = Ok parsed
    ∧ citations_per_year_proxy
        (match d_cited_by_total parsed with
         | None => p_cited_by_from_list p
         | Some c => Some c
         end)
        (or_int (d_pub_year parsed) (p_year p)) YEAR_MAX = Ok proxy
    ∧ r = Row department faculty_name (or_str (d_title parsed) (p_title p))
            (or_int (d_pub_year parsed) (p_year p))
            (match d_cited_by_total parsed with
             | None => p_cited_by_from_list p
             | Some c => Some c
             end)
            proxy
            (d_abstract parsed) user_id (p_view_citation_url p)
            (cites_2015_2026
               (if bool_decide (cites = ∅) then d_cites_by_year parsed else cites)).
Proof.
  unfold process_pub, bind.
  destruct (cache_get _ _ _ _ _) as [[html| |] w1] eqn:Hget; [|done..].
  destruct (extract_cites_by_year_playwright _ _ _) as [[cites| |] w2] eqn:Hpw; [|done..].
  destruct (looks_like_captcha html) eqn:Hcap; [done|].
  unfold lift. destruct (parse_view_citation html_parser html) as [parsed| |] eqn:Hparse;
    [|done..].
  destruct (citations_per_year_proxy _ _ _) as [proxy| |] eqn:Hproxy; [|done..].
  intros [= <- <-]. by exists html, w1, cites, parsed, proxy.
Qed.

Lemma process_pubs_inv user_id faculty_name department cache_dir pubs :
  ∀ i w rows w',
    process_pubs html_parser http browser user_id faculty_name department cache_dir i pubs w
      = (Ok rows, w') →
    Forall (λ r, ∃ j p w0 w1,
                process_pub html_parser http browser user_id faculty_name department
                  cache_dir j p w0 = (Ok r, w1)) rows.
Proof.
  induction pubs as [|p pubs IH]; simpl; intros i w rows w'.
  - by intros [= <- <-].
  - unfold bind at 1.
    destruct (process_pub _ _ _ _ _ _ _ _ _ _) as [[r| |] w1] eqn:Hr; [|done..].
    unfold bind at 1.
    destruct (process_pubs _ _ _ _ _ _ _ _ _ _) as [[rows'| |] w2] eqn:Hrows; [|done..].
    intros [= <- <-]. constructor; eauto.
Qed.

Lemma process_one_professor_inv n user_id faculty_name department cache_dir max_pubs w rows w' :
  process_one_professor html_parser http browser n user_id faculty_name department
    cache_dir max_pubs w = (Ok rows, w') →
  Forall (λ r, ∃ j p w0 w1,
              process_pub html_parser http browser user_id faculty_name department
                cache_dir j p w0 = (Ok r, w1)) rows.
Proof.
  unfold process_one_professor, bind.
  destruct (get_all_author_pubs _ _ _ _ _ _ _ _) as [[pubs| |] w1]; [|done..].
  destruct (process_pubs _ _ _ _ _ _ _ _ _ _) as [[rows'| |] w2] eqn:Hrows; [|done..].
  destruct (bool_decide (rows' = [])); [done|]. intros [= <- <-].
  apply process_pubs_inv in Hrows. rewrite Forall_forall in Hrows |- *.
  intros r [_ Hr]%list_elem_of_filter. eauto.
Qed.

End crawler_facts.

(** * Pagination *)

Lemma str_app_inv_tail s1 s2 t : s1 +:+ t = s2 +:+ t → s1 = s2.
Proof.
  intros H. assert (String.length s1 = String.length s2) as Hlen.
  { apply (f_equal String.length) in H. rewrite !str_length_app in H. lia. }
  revert s2 H Hlen. induction s1 as [|a s1 IH]; intros [|b s2] H Hlen; try done.
  simpl in *. injection H as -> H. f_equal. apply IH; [done | lia].
Qed.

Lemma join_step_inj path b1 b2 :
  Py.startswith "/" b1 = false → Py.startswith "/" b2 = false →
  join_step path b1 = join_step path b2 → b1 = b2.
Proof.
  unfold join_step. intros -> ->. destruct (_ || _); intros H.
  - by apply String.app_inj in H.
  - apply String.app_inj in H. by injection H.
Qed.

Lemma author_page_path_inj cache_dir user_id c1 c2 :
  author_page_path cache_dir user_id c1 = author_page_path cache_dir user_id c2 → c1 = c2.
Proof.
  unfold author_page_path, path_join. cbn [foldl].
  intros H%join_step_inj; [|done..].
  apply String.app_inj, str_app_inv_tail in H. by apply (inj pretty).
Qed.

(** The cache file of a page lies in a directory and is no directory. *)
Lemma path_join_file cache_dir d user_id f :
  d ≠ "" → f ≠ "" → Py.startswith "/" f = false →
  Py.contains "/" (path_join cache_dir [d; user_id; f]) = true
  ∧ Py.endswith_char "/" (path_join cache_dir [d; user_id; f]) = Py.endswith_char "/" f.
Proof.
  intros Hd Hf Hrel. unfold path_join. cbn [foldl].
  set (Y := join_step cache_dir d).
  assert (Y ≠ "") as HY.
  { unfold Y, join_step. destruct (Py.startswith "/" d); [done|].
    destruct (_ || _); destruct cache_dir; simpl; try done. }
  assert (Py.contains "/" (join_step Y user_id) = true) as HX.
  { unfold join_step. destruct (Py.startswith "/" user_id) eqn:Hu.
    - by apply startswith_contains.
    - destruct (bool_decide (Y = "")) eqn:E; [by apply bool_decide_eq_true in E|]. simpl.
      destruct (Py.endswith_char "/" Y) eqn:He.
      + by apply contains_app_r, (endswith_char_contains "/").
      + by apply contains_app_l. }
  unfold join_step at 1 3. rewrite Hrel.
  destruct (_ || _).
  - split; [by apply contains_app_r|]. by apply endswith_char_app.
  - split; [by apply contains_app_r|].
    rewrite endswith_char_app; [|by destruct f]. by apply (endswith_char_app _ "/").
Qed.

Lemma author_page_path_file cache_dir user_id cstart :
  Py.contains "/" (author_page_path cache_dir user_id cstart) = true
  ∧ Py.endswith_char "/" (author_page_path cache_dir user_id cstart) = false.
Proof.
  unfold author_page_path.
  destruct (path_join_file cache_dir "author_pages" user_id
              ("cstart_" +:+ Py.str_int cstart +:+ ".html")) as [-> ->]; [done..|].
  split; [done|].
  rewrite (endswith_char_app _ "cstart_"); [|by destruct (Py.str_int cstart)].
  by rewrite endswith_char_app.
Qed.

Lemma view_page_path_file cache_dir user_id i :
  Py.contains "/" (view_page_path cache_dir user_id i) = true
  ∧ Py.endswith_char "/" (view_page_path cache_dir user_id i) = false.
Proof.
  unfold view_page_path.
  destruct (path_join_file cache_dir "view_pages" user_id
              ("pub_" +:+ Py.zfill5 (Z.of_nat i) +:+ ".html")) as [-> ->]; [done..|].
  split; [done|].
  rewrite (endswith_char_app _ "pub_"); [|by destruct (Py.zfill5 _)].
  by rewrite endswith_char_app.
Qed.

Lemma author_page_url_http user_id cstart pagesize :
  http_url (author_page_url user_id cstart pagesize) = true.
Proof. reflexivity. Qed.

Lemma str_ok_le n m : 0 ≤ n ≤ m → Py.str_ok m = true → Py.str_ok n = true.
Proof.
  unfold Py.str_ok. generalize (10 ^ 4300). intros b Hn Hm%Z.ltb_lt. apply Z.ltb_lt. lia.
Qed.

Lemma flat_mapM_finishes {A B} (f : A → result (list B)) l :
  (∀ x, f x ≠ Unfinished) → flat_mapM f l ≠ Unfinished.
Proof.
  intros Hf. induction l as [|x l IH]; [done|]. simpl.
  specialize (Hf x). destruct (f x); [|done..]. simpl.
  by destruct (flat_mapM f l).
Qed.

Lemma row_stub_finishes tr : row_stub tr ≠ Unfinished.
Proof.
  unfold row_stub. destruct (Soup.select_one _ tr); [|done].
  destruct (Soup.select_one (Soup.tag_class "a" "gsc_a_ac") tr); [|done].
  destruct (Py.isdigit _); [|done]. by destruct (Py.int _).
Qed.

Section pagination.
Context (html_parser : string → list Soup.node).
Context (http : list string → string → option string).

Lemma parse_author_page_for_pubs_finishes html :
  parse_author_page_for_pubs html_parser html ≠ Unfinished.
Proof. apply flat_mapM_finishes, row_stub_finishes. Qed.

Lemma pages_loop_finishes user_id cache_dir pagesize max_pubs n :
  ∀ pubs_all cstart page w,
    page ≤ 500 → 501 - page ≤ Z.of_nat n →
    (pages_loop html_parser http n user_id cache_dir pagesize max_pubs
       pubs_all cstart page w).1 ≠ Unfinished.
Proof.
  induction n as [|n IH]; intros pubs_all cstart page w Hp Hn; [lia|].
  simpl. destruct (negb _); [done|]. unfold bind.
  pose proof (cache_get_finishes http
                (Some (author_page_url user_id cstart pagesize))
                (author_page_path cache_dir user_id cstart) w) as Hget.
  destruct (cache_get _ _ _ _ _) as [[html| |] w1]; [|done..].
  destruct (looks_like_captcha html); [done|].
  unfold lift at 1.
  destruct (parse_author_page_for_pubs html_parser html) as [pubs| |] eqn:Hparse; [|done|].
  2:{ by apply parse_author_page_for_pubs_finishes in Hparse. }
  destruct (bool_decide (_ = [])); [done|].
  destruct (match max_pubs with Some _ => _ | None => _ end); [done|].
  destruct (next_cstart_from_author_page html_parser html) as [has_next|]; [|done].
  destruct (bool_decide (has_next = 0)); [done|].
  destruct (500 <? page + 1) eqn:Hlast; [done|].
  apply IH; lia.
Qed.

(** More iterations allowed do not change an answer. *)
Lemma pages_loop_more user_id cache_dir pagesize max_pubs n :
  ∀ m pubs_all cstart page w r w',
    pages_loop html_parser http n user_id cache_dir pagesize max_pubs
      pubs_all cstart page w = (r, w') →
    r ≠ Unfinished → (n ≤ m)%nat →
    pages_loop html_parser http m user_id cache_dir pagesize max_pubs
      pubs_all cstart page w = (r, w').
Proof.
  induction n as [|n IH]; intros m pubs_all cstart page w r w'.
  - simpl. unfold lift. by intros [= <- <-].
  - intros Hrun Hr Hm. destruct m as [|m]; [lia|].
    revert Hrun. simpl. destruct (negb _); [done|]. unfold bind.
    destruct (cache_get _ _ _ _ _) as [[html| |] w1]; [|done..].
    destruct (looks_like_captcha html); [done|].
    destruct (parse_author_page_for_pubs html_parser html) as [pubs| |]; [|done..].
    unfold lift at 1 2.
    destruct (bool_decide (_ = [])); [done|].
    destruct (match max_pubs with Some _ => _ | None => _ end); [done|].
    destruct (next_cstart_from_author_page html_parser html) as [has_next|]; [|done].
    destruct (bool_decide (has_next = 0)); [done|].
    destruct (500 <? page + 1); [done|].
    intros Hrun. apply IH; [done | done | lia].
Qed.

(** Against a listing without end and a cold cache, the loop that starts at
    page [500 - k] loads [k + 1] pages and returns; [k] iterations are not
    enough for it. The numbers it formats stay below the limit of [str]. *)
Lemma pages_loop_endless user_id cache_dir pagesize k :
  0 < pagesize →
  (∀ log url, ∃ body, http log url = Some body ∧ endless_page html_parser body) →
  ∀ pubs_all cstart w,
    0 ≤ cstart →
    Py.str_ok pagesize = true →
    Py.str_ok (cstart + Z.of_nat k * pagesize) = true →
    (∀ c, cstart ≤ c → files w !! author_page_path cache_dir user_id c = None) →
    (∃ pubs w',
        pages_loop html_parser http (S k) user_id cache_dir pagesize None
          pubs_all cstart (500 - Z.of_nat k) w = (Ok pubs, w')
        ∧ length (http_log w') = (S k + length (http_log w))%nat)
    ∧ (pages_loop html_parser http k user_id cache_dir pagesize None
         pubs_all cstart (500 - Z.of_nat k) w).1 = Unfinished.
Proof.
  intros Hps Hserver.
  pose proof (λ u, author_page_url_http user_id u pagesize) as Hurl.
  induction k as [|k IH]; intros pubs_all cstart w Hc0 Hsp Hsc Hcold.
  - split; [|done].
    replace (cstart + Z.of_nat 0 * pagesize) with cstart in Hsc by lia.
    simpl. rewrite Hsc, Hsp. simpl.
    unfold bind. rewrite cache_get_eq, Hcold, Hurl by lia. simpl.
    destruct (Hserver (http_log w) (author_page_url user_id cstart pagesize))
      as (body & -> & Hcap & (pubs & Hpubs & Hne) & Hnext).
    rewrite (proj1 (author_page_path_file _ _ _)), (proj2 (author_page_path_file _ _ _)).
    simpl.
    rewrite Hcap, Hpubs, bool_decide_eq_false_2, Hnext by done. simpl.
    eexists _, _. split; [done|]. done.
  - assert (Py.str_ok cstart = true) as Hsc0.
    { apply (str_ok_le _ (cstart + Z.of_nat (S k) * pagesize)); [nia | done]. }
    assert (∀ n, ∃ pubs body,
              pages_loop html_parser http (S n) user_id cache_dir pagesize None
                   pubs_all cstart (500 - Z.of_nat (S k)) w
                 = pages_loop html_parser http n user_id cache_dir pagesize None
                     (pubs_all ++ pubs)
                     (cstart + pagesize) (500 - Z.of_nat k)
                     (World (<[author_page_path cache_dir user_id cstart := body]> (files w))
                        (author_page_url user_id cstart pagesize :: http_log w)
                        (browser_log w))) as Hstep.
    { intros n. simpl pages_loop. rewrite Hsc0, Hsp. simpl.
      unfold bind. rewrite cache_get_eq, Hcold, Hurl by lia. simpl.
      destruct (Hserver (http_log w) (author_page_url user_id cstart pagesize))
        as (body & -> & Hcap & (pubs & Hpubs & Hne) & Hnext).
      rewrite (proj1 (author_page_path_file _ _ _)), (proj2 (author_page_path_file _ _ _)).
    simpl.
      rewrite Hcap, Hpubs, bool_decide_eq_false_2, Hnext by done. simpl.
      replace (500 - Z.of_nat (S k) + 1) with (500 - Z.of_nat k) by lia.
      exists pubs, body.
      destruct (500 <? 500 - Z.of_nat k) eqn:E; [apply Z.ltb_lt in E; lia | done]. }
    destruct (Hstep (S k)) as (pubs1 & body & Hrun1).
    destruct (Hstep k) as (pubs1' & body' & Hrun0).
    rewrite Hrun1, Hrun0.
    assert (∀ pubs0 body0,
              let w1 := World (<[author_page_path cache_dir user_id cstart := body0]> (files w))
                          (author_page_url user_id cstart pagesize :: http_log w)
                          (browser_log w) in
              (∃ pubs w',
                  pages_loop html_parser http (S k) user_id cache_dir pagesize None
                    (pubs_all ++ pubs0) (cstart + pagesize) (500 - Z.of_nat k) w1
                    = (Ok pubs, w')
                  ∧ length (http_log w') = (S k + length (http_log w1))%nat)
              ∧ (pages_loop html_parser http k user_id cache_dir pagesize None
                   (pubs_all ++ pubs0) (cstart + pagesize) (500 - Z.of_nat k) w1).1
                = Unfinished) as Hnext.
    { intros pubs0 body0 w1. apply IH; [lia | done | |].
      - replace (cstart + pagesize + Z.of_nat k * pagesize)
          with (cstart + Z.of_nat (S k) * pagesize) by lia. done.
      - intros c Hc. unfold w1. simpl. rewrite lookup_insert_ne; [apply Hcold; lia|].
        intros Heq%author_page_path_inj. lia. }
    destruct (Hnext pubs1 body) as [(pubs & w' & Hrun & Hlen) _].
    destruct (Hnext pubs1' body') as [_ Hout].
    split; [|done]. exists pubs, w'. split; [done|]. rewrite Hlen. simpl. lia.
Qed.

End pagination.
(** * The metric *)

(** ** Integers as floats *)

Lemma iter_pos_nat {A} (f : A → A) n x : SpecFloat.iter_pos f n x = Nat.iter (Pos.to_nat n) f x.
Proof.
  revert x. induction n as [n IH|n IH|]; intros x; cbn [SpecFloat.iter_pos].
  - rewrite !IH, Pos2Nat.inj_xI, <- Nat.iter_add, <- Nat.iter_succ_r. f_equal. lia.
  - rewrite !IH, Pos2Nat.inj_xO, <- Nat.iter_add. f_equal. lia.
  - reflexivity.
Qed.

Lemma digits2_size p : digits2_pos p = Pos.size p.
Proof. induction p; simpl; congruence. Qed.

Lemma digits2_iter_xO p k : digits2_pos (Pos.iter xO p k) = (digits2_pos p + k)%positive.
Proof.
  induction k using Pos.peano_ind.
  - simpl. lia.
  - rewrite Pos.iter_succ. simpl. rewrite IHk. lia.
Qed.

Lemma Zpos_iter_xO p k : Zpos (Pos.iter xO p k) = Zpos p * 2 ^ Zpos k.
Proof.
  induction k using Pos.peano_ind.
  - simpl. lia.
  - rewrite Pos.iter_succ, Pos2Z.inj_xO, IHk, Pos2Z.inj_succ, Z.pow_succ_r by lia. lia.
Qed.

Lemma digits2_lower p : 2 ^ Zpos (digits2_pos p) <= 2 * Zpos p.
Proof.
  induction p as [p IH|p IH|]; cbn [digits2_pos];
    rewrite ?Pos2Z.inj_succ, ?Z.pow_succ_r by lia; [lia|lia|].
  change (2 ^ 1) with 2. lia.
Qed.

Lemma digits2_bound p : Zpos p < 2 ^ 53 → Zpos (digits2_pos p) <= 53.
Proof.
  intros Hp. pose proof (digits2_lower p) as Hle.
  destruct (Z_le_gt_dec (Zpos (digits2_pos p)) 53) as [|Hgt]; [assumption|].
  assert (2 ^ 54 <= 2 ^ Zpos (digits2_pos p)) as H54.
  { apply Z.pow_le_mono_r; [reflexivity|]. clear -Hgt. lia. }
  change (2 ^ 54) with (2 * 2 ^ 53) in H54. lia.
Qed.

(** Shifting right by one. *)
Lemma shr_1_pos mrs p :
  shr_m mrs = Zpos p → (1 < Pos.to_nat (digits2_pos p))%nat →
  ∃ p', shr_m (shr_1 mrs) = Zpos p'
             ∧ Pos.to_nat (digits2_pos p') = pred (Pos.to_nat (digits2_pos p)).
Proof.
  destruct mrs as [m r s]. simpl. intros -> Hd.
  destruct p as [p|p|]; simpl in *; [| |lia]; exists p; split; try reflexivity;
    rewrite Pos2Nat.inj_succ; reflexivity.
Qed.

Lemma shr_iter_pos k : ∀ mrs p,
  shr_m mrs = Zpos p → (k < Pos.to_nat (digits2_pos p))%nat →
  ∃ p', shr_m (Nat.iter k shr_1 mrs) = Zpos p'
             ∧ Pos.to_nat (digits2_pos p') = (Pos.to_nat (digits2_pos p) - k)%nat.
Proof.
  induction k as [|k IH]; intros mrs p Hm Hk.
  - exists p. split; [assumption|]. simpl. lia.
  - rewrite Nat.iter_succ_r.
    destruct (shr_1_pos mrs p Hm) as (p1 & Hm1 & Hd1); [lia|].
    destruct (IH (shr_1 mrs) p1 Hm1) as (p2 & Hm2 & Hd2); [lia|].
    exists p2. split; [assumption|]. lia.
Qed.

Lemma fexp_eq e : fexp 53 1024 e = Z.max (e - 53) (-1074).
Proof. reflexivity. Qed.

(** Rounding to the format keeps a mantissa that is not zero. *)
Lemma shr_fexp_pos m e l :
  -1021 <= e →
  ∃ p, shr_m (fst (shr_fexp 53 1024 (Zpos m) e l)) = Zpos p
            ∧ e <= snd (shr_fexp 53 1024 (Zpos m) e l).
Proof.
  intros He. unfold shr_fexp, shr. rewrite fexp_eq.
  set (d := Zdigits2 (Zpos m)).
  assert (shr_m (shr_record_of_loc (Zpos m) l) = Zpos m) as Hm.
  { destruct l as [|[| |]]; reflexivity. }
  destruct (Z.max (d + e - 53) (-1074) - e) as [|n|n] eqn:Hn; simpl.
  - exists m. split; [assumption|lia].
  - rewrite iter_pos_nat.
    destruct (shr_iter_pos (Pos.to_nat n) _ m Hm) as (p & Hp & _).
    { unfold d, Zdigits2 in Hn. lia. }
    exists p. split; [assumption|lia].
  - exists m. split; [assumption|lia].
Qed.

Lemma binary_round_aux_pos s m e l :
  -1021 <= e →
  (∃ m' e', binary_round_aux 53 1024 s (Zpos m) e l = S754_finite s m' e')
  ∨ binary_round_aux 53 1024 s (Zpos m) e l = S754_infinity s.
Proof.
  intros He. unfold binary_round_aux.
  destruct (shr_fexp_pos m e l He) as (p & Hp & He').
  destruct (shr_fexp 53 1024 (Zpos m) e l) as [mrs' e']. simpl in Hp, He'.
  rewrite Hp.
  assert (∃ q, round_nearest_even (Zpos p) (loc_of_shr_record mrs') = Zpos q) as [q ->].
  { unfold round_nearest_even.
    destruct (loc_of_shr_record mrs') as [|[| |]]; try (eexists; reflexivity).
    destruct (Z.even (Zpos p)); eexists; reflexivity. }
  destruct (shr_fexp_pos q e' loc_Exact) as (p2 & Hp2 & _); [lia|].
  destruct (shr_fexp 53 1024 (Zpos q) e' loc_Exact) as [mrs2 e2]. simpl in Hp2.
  rewrite Hp2. destruct (e2 <=? 1024 - 53); [left; eauto | right; reflexivity].
Qed.

Lemma binary_round_pos s m :
  (∃ m' e', binary_round 53 1024 s m 0 = S754_finite s m' e')
  ∨ binary_round 53 1024 s m 0 = S754_infinity s.
Proof.
  unfold binary_round, shl_align. rewrite fexp_eq.
  destruct (Z.max (Zpos (digits2_pos m) + 0 - 53) (-1074) - 0) as [|n|n] eqn:Hn.
  - apply binary_round_aux_pos. lia.
  - apply binary_round_aux_pos. lia.
  - apply binary_round_aux_pos. lia.
Qed.

(** A mantissa that fits is kept as it is. *)
Lemma shr_fexp_canonical m e l :
  fexp 53 1024 (Zpos (digits2_pos m) + e) = e →
  shr_fexp 53 1024 (Zpos m) e l = (shr_record_of_loc (Zpos m) l, e).
Proof.
  intros H. unfold shr_fexp. cbn [Zdigits2]. rewrite H, Z.sub_diag. reflexivity.
Qed.

Lemma binary_round_aux_canonical s m e :
  fexp 53 1024 (Zpos (digits2_pos m) + e) = e → e <= 971 →
  binary_round_aux 53 1024 s (Zpos m) e loc_Exact = S754_finite s m e.
Proof.
  intros H He. unfold binary_round_aux. rewrite shr_fexp_canonical by assumption.
  cbn [shr_record_of_loc shr_m loc_of_shr_record round_nearest_even].
  rewrite shr_fexp_canonical by assumption.
  cbn [shr_record_of_loc shr_m].
  change (1024 - 53) with 971. destruct (Z.leb_spec e 971); [reflexivity|lia].
Qed.

(** An integer of at most 53 bits is a float. *)
Lemma binary_round_exact s m :
  Zpos m < 2 ^ 53 →
  ∃ m' e', binary_round 53 1024 s m 0 = S754_finite s m' e'
                ∧ -52 <= e' <= 0 ∧ Zpos m' = Zpos m * 2 ^ (- e').
Proof.
  intros Hm%digits2_bound. unfold binary_round, shl_align. rewrite fexp_eq.
  rewrite Z.add_0_r, Z.sub_0_r.
  rewrite Z.max_l by lia.
  destruct (Zpos (digits2_pos m) - 53) as [|n|n] eqn:Hn; [|lia|].
  - exists m, 0. split; [|split; [lia|change (2 ^ (- 0)) with 1; lia]].
    apply binary_round_aux_canonical; [|lia]. rewrite fexp_eq. lia.
  - exists (Pos.iter xO m n), (Zneg n). split; [|split; [lia|]].
    + apply binary_round_aux_canonical; [|lia].
      rewrite fexp_eq, digits2_iter_xO. lia.
    + rewrite Zpos_iter_xO. reflexivity.
Qed.

Lemma float_of_int_cases z :
  float_of_int z = Raise OverflowError
  ∨ (z = 0 ∧ float_of_int z = Ok (S754_zero false))
  ∨ (∃ m e, z ≠ 0 ∧ float_of_int z = Ok (S754_finite (z <? 0) m e)).
Proof.
  unfold float_of_int, binary_normalize. destruct z as [|m|m].
  - right. left. done.
  - destruct (binary_round_pos false m) as [(m' & e' & ->)| ->]; [|by left].
    right. right. by exists m', e'.
  - destruct (binary_round_pos true m) as [(m' & e' & ->)| ->]; [|by left].
    right. right. by exists m', e'.
Qed.

(** Below [2 ^ 53] the float of an integer is the integer. *)
Lemma float_of_int_exact z :
  Z.abs z < 2 ^ 53 →
  ∃ x, float_of_int z = Ok x ∧ (float_value x == inject_Z z)%Q.
Proof.
  intros Hz. unfold float_of_int, binary_normalize.
  assert (∀ s m, Z.pos m < 2 ^ 53 →
            ∃ x, match binary_round 53 1024 s m 0 with
                 | S754_infinity _ => Raise OverflowError
                 | x => Ok x
                 end = Ok x
                 ∧ (float_value x == inject_Z (if s then Z.neg m else Z.pos m))%Q) as Hround.
  { intros s m Hm. destruct (binary_round_exact s m Hm) as (m' & e' & -> & He & Hm').
    eexists. split; [done|]. unfold float_value.
    assert ((if s then Z.neg m' else Z.pos m')
            = (if s then Z.neg m else Z.pos m) * 2 ^ (- e')) as ->.
    { destruct s; [|done]. rewrite <- !Pos2Z.opp_pos, Hm'. lia. }
    destruct (Z.leb_spec 0 e') as [H0|H0].
    - assert (e' = 0) as -> by lia. change (2 ^ (- 0)) with 1. change (2 ^ 0) with 1.
      unfold Qeq. simpl. lia.
    - assert (0 < 2 ^ (- e')) as Hpos by (apply Z.pow_pos_nonneg; lia).
      unfold Qeq, Qmult, inject_Z. cbn [Qnum Qden].
      rewrite Pos.mul_1_l, Z2Pos.id by done. lia. }
  destruct z as [|m|m].
  - exists (S754_zero false). split; [done|]. done.
  - apply (Hround false). lia.
  - apply (Hround true). lia.
Qed.

(** ** The proxy *)

Lemma denom_floor d : (if d <=? 0 then 1 else d) = Z.max d 1.
Proof. destruct (Z.leb_spec d 0); lia. Qed.

(** The division of the proxy never meets a zero. *)
Lemma citations_per_year_proxy_eq total year now :
  citations_per_year_proxy total year now =
    match total, year with
    | Some t, Some y =>
        let? a := float_of_int t in
        let? b := float_of_int (Z.max (now - y + 1) 1) in
        Ok (Some (SFdiv 53 1024 a b))
    | _, _ => Ok None
    end.
Proof.
  destruct total as [t|], year as [y|]; try done.
  unfold citations_per_year_proxy. cbn zeta. rewrite denom_floor.
  destruct (float_of_int t) as [a| |]; [|done..]. cbn [rbind].
  destruct (float_of_int_cases (Z.max (now - y + 1) 1)) as [->|[[? _]|(m & e & _ & ->)]];
    [done | lia | done].
Qed.

Lemma float_of_int_raises z e : float_of_int z = Raise e → e = OverflowError.
Proof.
  destruct (float_of_int_cases z) as [->|[[_ ->]|(m & e' & _ & ->)]]; [|done..].
  by intros [= <-].
Qed.

Lemma float_of_int_finishes z : float_of_int z ≠ Unfinished.
Proof. by destruct (float_of_int_cases z) as [->|[[_ ->]|(m & e' & _ & ->)]]. Qed.

(** How the proxy can end. *)
Lemma citations_per_year_proxy_cases total year now :
  (total = None ∨ year = None) ∧ citations_per_year_proxy total year now = Ok None
  ∨ (∃ t y, total = Some t ∧ year = Some y
       ∧ (citations_per_year_proxy total year now = Raise OverflowError
          ∨ ∃ a b, float_of_int t = Ok a
                   ∧ float_of_int (Z.max (now - y + 1) 1) = Ok b
                   ∧ citations_per_year_proxy total year now
                     = Ok (Some (SFdiv 53 1024 a b)))).
Proof.
  rewrite citations_per_year_proxy_eq.
  destruct total as [t|]; [|left; by auto]. destruct year as [y|]; [|left; by auto].
  right. exists t, y. split; [done|]. split; [done|].
  pose proof (float_of_int_raises t) as Ht. pose proof (float_of_int_finishes t) as Ht'.
  destruct (float_of_int t) as [a|e|]; [|left; by rewrite (Ht e)|done]. cbn [rbind].
  pose proof (float_of_int_raises (Z.max (now - y + 1) 1)) as Hd.
  pose proof (float_of_int_finishes (Z.max (now - y + 1) 1)) as Hd'.
  destruct (float_of_int _) as [b|e|]; [|left; by rewrite (Hd e)|done].
  right. by exists a, b.
Qed.

(** C6: when it returns, the proxy is absent exactly when the total or the
    year is; otherwise it is the quotient of two floats, the float of the
    total by the float of [max (horizon_end - year + 1) 1], and the only
    exception is the overflow of one of the two conversions: the divisor is
    never zero. Below [2 ^ 53] the two conversions are exact. So
    proxy(100, 2020, 2026) is the float next to 100/7, proxy(None, 2020, _)
    is absent and proxy(10, 2027, 2026) is the float 10. *)
Theorem citations_per_year_proxy_spec total year now :
  (citations_per_year_proxy total year now = Ok None ↔ total = None ∨ year = None)
  ∧ citations_per_year_proxy total year now =
      match total, year with
      | Some t, Some y =>
          let? a := float_of_int t in
          let? b := float_of_int (Z.max (now - y + 1) 1) in
          Ok (Some (SFdiv 53 1024 a b))
      | _, _ => Ok None
      end
  ∧ citations_per_year_proxy total year now ≠ Unfinished
  ∧ (∀ e, citations_per_year_proxy total year now = Raise e → e = OverflowError)
  ∧ (∀ t y, total = Some t → year = Some y → Z.abs t < 2 ^ 53 → now - y + 1 < 2 ^ 53 →
       ∃ a b, citations_per_year_proxy total year now = Ok (Some (SFdiv 53 1024 a b))
              ∧ (float_value a == inject_Z t)%Q
              ∧ (float_value b == inject_Z (Z.max (now - y + 1) 1))%Q)
  ∧ (citations_per_year_proxy (Some 100) (Some 2020) 2026
       = Ok (Some (S754_finite false 8042142191733029 (-49)))
     ∧ (Qabs (float_value (S754_finite false 8042142191733029 (-49)) - (100 # 7))
          <= 1 # 2 ^ 50)%Q)
  ∧ citations_per_year_proxy None (Some 2020) now = Ok None
  ∧ (citations_per_year_proxy (Some 10) (Some 2027) 2026
       = Ok (Some (S754_finite false 5629499534213120 (-49)))
     ∧ (float_value (S754_finite false 5629499534213120 (-49)) == 10)%Q)
  ∧ (∀ y, 1 ≤ Z.max (now - y + 1) 1).
Proof.
  split; [|split; [|split; [|split; [|split; [|split; [|split; [|split]]]]]]].
  - destruct (citations_per_year_proxy_cases total year now)
      as [[H ->]|(t & y & -> & -> & [->|(a & b & _ & _ & ->)])]; [done|..];
      (split; [done|by intros [|]]).
  - apply citations_per_year_proxy_eq.
  - by destruct (citations_per_year_proxy_cases total year now)
      as [[H ->]|(t & y & -> & -> & [->|(a & b & _ & _ & ->)])].
  - intros e. destruct (citations_per_year_proxy_cases total year now)
      as [[H ->]|(t & y & -> & -> & [->|(a & b & _ & _ & ->)])]; [done| |done].
    by intros [= <-].
  - intros t y -> -> Ht Hy. rewrite citations_per_year_proxy_eq.
    destruct (float_of_int_exact t Ht) as (a & -> & Ha).
    destruct (float_of_int_exact (Z.max (now - y + 1) 1)) as (b & -> & Hb); [lia|].
    by exists a, b.
  - split; [by vm_compute|]. by vm_compute.
  - done.
  - split; [by vm_compute|]. by vm_compute.
  - lia.
Qed.

Lemma citations_per_year_proxy_spec_witness :
  ∃ a b, citations_per_year_proxy (Some 100) (Some 2020) 2026
           = Ok (Some (SFdiv 53 1024 a b))
         ∧ (float_value a == 100)%Q ∧ (float_value b == 7)%Q.
Proof.
  destruct (citations_per_year_proxy_spec (Some 100) (Some 2020) 2026)
    as (_ & _ & _ & _ & H & _).
  apply (H 100 2020); [reflexivity | reflexivity | reflexivity | reflexivity].
Defined.

(** The total is not always divided as a number is: the float of a total
    of 400 digits does not exist, and the float of [2 ^ 53 + 1] is
    [2 ^ 53]. *)
Lemma citations_per_year_proxy_not_the_quotient :
  citations_per_year_proxy (Some (10 ^ 400)) (Some 2020) 2026 = Raise OverflowError
  ∧ ∃ x, citations_per_year_proxy (Some (2 ^ 53 + 1)) (Some 2026) 2026 = Ok (Some x)
         ∧ (float_value x == inject_Z (2 ^ 53))%Q
         ∧ ¬ (float_value x == inject_Z (2 ^ 53 + 1) / inject_Z (Z.max (2026 - 2026 + 1) 1))%Q.
Proof.
  split; [by vm_compute|].
  exists (S754_finite false 4503599627370496 1). split; [by vm_compute|].
  split; by vm_compute.
Qed.

(** C10: with a year present, zero citations give the float 0, not an
    absent value, unless the float of the denominator overflows, which it
    does not below [2 ^ 53]; and whenever the proxy returns, whatever the
    total, it is absent exactly when the total or the year is. *)
Theorem citations_per_year_proxy_zero now :
  (∀ y, now - y + 1 < 2 ^ 53 →
        citations_per_year_proxy (Some 0) (Some y) now = Ok (Some (S754_zero false)))
  ∧ (∀ y, citations_per_year_proxy (Some 0) (Some y) now = Ok (Some (S754_zero false))
          ∨ citations_per_year_proxy (Some 0) (Some y) now = Raise OverflowError)
  ∧ (∀ total year r,
        citations_per_year_proxy total year now = Ok r →
        (r = None ↔ total = None ∨ year = None))
  ∧ (∀ year, citations_per_year_proxy (Some 0) year now = Ok None ↔ year = None).
Proof.
  assert (∀ y, citations_per_year_proxy (Some 0) (Some y) now = Ok (Some (S754_zero false))
               ∨ citations_per_year_proxy (Some 0) (Some y) now = Raise OverflowError) as H0.
  { intros y. rewrite citations_per_year_proxy_eq.
    change (float_of_int 0) with (Ok (S754_zero false)). cbn [rbind].
    destruct (float_of_int_cases (Z.max (now - y + 1) 1)) as [->|[[? _]|(m & e & _ & ->)]];
      [by right | lia | left].
    destruct (Z.ltb_spec (Z.max (now - y + 1) 1) 0); [lia | done]. }
  split; [|split; [exact H0|split]].
  - intros y Hy. rewrite citations_per_year_proxy_eq.
    change (float_of_int 0) with (Ok (S754_zero false)). cbn [rbind].
    destruct (float_of_int_exact (Z.max (now - y + 1) 1)) as (b & Hb & _); [lia|].
    destruct (H0 y) as [H|H]; rewrite citations_per_year_proxy_eq in H; [done|].
    change (float_of_int 0) with (Ok (S754_zero false)) in H. cbn [rbind] in H.
    rewrite Hb in H. done.
  - intros total year r.
    destruct (citations_per_year_proxy_cases total year now)
      as [[H ->]|(t & y & -> & -> & [->|(a & b & _ & _ & ->)])]; [|done|].
    + by intros [= <-].
    + intros [= <-]. split; [done|by intros [|]].
  - intros [y|]; [|done]. split; [|done]. by destruct (H0 y) as [-> | ->].
Qed.

Lemma citations_per_year_proxy_zero_witness :
  citations_per_year_proxy (Some 0) (Some 2020) 2026 = Ok (Some (S754_zero false)).
Proof. apply (proj1 (citations_per_year_proxy_zero 2026) 2020). reflexivity. Defined.

(** With a year far enough in the past, zero citations give no value. *)
Lemma citations_per_year_proxy_zero_overflows :
  citations_per_year_proxy (Some 0) (Some (- 10 ^ 400)) 2026 = Raise OverflowError.
Proof. by vm_compute. Qed.

(** * The cache *)

Lemma read_text_no_cr body :
  Py.contains (String "013" "") body = false → read_text body = body.
Proof.
  induction body as [|a body IH]; [done|].
  cbn [Py.contains Py.startswith read_text].
  intros [Ha Hb]%orb_false_iff. rewrite andb_true_r in Ha.
  rewrite bool_decide_eq_false in Ha.
  rewrite bool_decide_eq_false_2 by congruence. by rewrite IH.
Qed.

(** C7, as the code has it: for a key that is not cached yet, a URL that
    [requests] takes, and a cache path that names a file in a directory,
    two calls without [force] send one request; the first call stores the
    body it fetched and the second returns that entry as it reads back in
    text mode, which is the stored body itself unless it holds a carriage
    return. A failed fetch raises, and the store is left as it was. *)
Theorem cache_get_twice http url cache_path w :
  files w !! cache_path = None →
  http_url url = true →
  Py.contains "/" cache_path = true →
  Py.endswith_char "/" cache_path = false →
  match http (http_log w) url with
  | Some body =>
      ∃ w1,
        cache_get http (Some url) cache_path false w = (Ok body, w1)
        ∧ files w1 !! cache_path = Some body
        ∧ http_log w1 = url :: http_log w
        ∧ cache_get http (Some url) cache_path false w1 = (Ok (read_text body), w1)
        ∧ (Py.contains (String "013" "") body = false → read_text body = body)
  | None =>
      ∃ w1,
        cache_get http (Some url) cache_path false w = (Raise RequestException, w1)
        ∧ files w1 = files w
  end.
Proof.
  intros Hmiss Hurl Hdir Hfile. destruct (http (http_log w) url) as [body|] eqn:Hhttp.
  - eexists. rewrite cache_get_eq, Hmiss, Hurl, Hhttp, Hdir, Hfile. split; [done|].
    rewrite cache_get_eq. simpl. rewrite lookup_insert_eq.
    auto using read_text_no_cr.
  - eexists. by rewrite cache_get_eq, Hmiss, Hurl, Hhttp.
Qed.

Lemma cache_get_twice_witness :
  ∃ w1,
    cache_get (Site.always "page") (Some Site.LIST_URL) Site.LIST_PATH false
      Site.empty_world = (Ok "page", w1)
    ∧ cache_get (Site.always "page") (Some Site.LIST_URL) Site.LIST_PATH false w1
      = (Ok "page", w1)
    ∧ http_log w1 = [Site.LIST_URL].
Proof.
  destruct (cache_get_twice (Site.always "page") Site.LIST_URL Site.LIST_PATH
              Site.empty_world)
    as (w1 & H1 & _ & Hlog & H2 & _); [reflexivity..|].
  exists w1. split; [exact H1|]. split; [exact H2 | exact Hlog].
Defined.

(** C7 as stated fails on a body with a CR LF line ending: the second call
    returns it with a bare LF, which is not the stored body. *)
Lemma cache_get_second_call_differs :
  ∃ w1 body2,
    cache_get (Site.always Site.CRLF_BODY) (Some Site.LIST_URL) Site.LIST_PATH false
      Site.empty_world = (Ok Site.CRLF_BODY, w1)
    ∧ files w1 !! Site.LIST_PATH = Some Site.CRLF_BODY
    ∧ cache_get (Site.always Site.CRLF_BODY) (Some Site.LIST_URL) Site.LIST_PATH false w1
      = (Ok body2, w1)
    ∧ body2 ≠ Site.CRLF_BODY.
Proof. eexists _, _. vm_compute. by repeat split. Qed.

(** * Blocked pages *)

(** C1 at a blocked listing page and at a blocked detail page: the run
    aborts, but the body is in the cache by then; a second run reads it from
    there and aborts again without a request. For the detail page the
    rendered page is loaded before the body is looked at. *)
Theorem blocked_body_is_cached :
  let run1 :=
    get_all_author_pubs Site.html_parser (Site.always Site.BLOCKED_PAGE) 501
      "U" "cache" 100 None Site.empty_world in
  let run2 :=
    get_all_author_pubs Site.html_parser (Site.always Site.LISTING) 501
      "U" "cache" 100 None run1.2 in
  let run3 :=
    process_one_professor Site.html_parser (Site.server Site.LISTING Site.BLOCKED_PAGE)
      (Site.shows Site.PLAIN) 501 "U" "Ann" "CS" "cache" None Site.empty_world in
  run1.1 = Raise (RuntimeError CAPTCHA_LIST)
  ∧ files run1.2 !! "cache/author_pages/U/cstart_0.html" = Some Site.BLOCKED_PAGE
  ∧ run2 = (Raise (RuntimeError CAPTCHA_LIST), run1.2)
  ∧ run3.1 = Raise (RuntimeError CAPTCHA_VIEW)
  ∧ files run3.2 !! "cache/view_pages/U/pub_00000.html" = Some Site.BLOCKED_PAGE
  ∧ browser_log run3.2 = [Site.VIEW_URL].
Proof. vm_compute. by repeat split. Qed.

(** * Listing rows *)

(** C4 at a row whose title anchor has no href: the row is not skipped, its
    stub has no detail URL, and fetching the detail page then fails. *)
Theorem row_without_href_is_emitted :
  parse_author_page_for_pubs Site.html_parser Site.LISTING_NOHREF
    = Ok [Pub "A paper" (Some 2019) (Some 12) None]
  ∧ (process_one_professor Site.html_parser (Site.always Site.LISTING_NOHREF)
       (Site.shows Site.PLAIN) 501 "U" "Ann" "CS" "cache" None Site.empty_world).1
    = Raise RequestException.
Proof. vm_compute. by split. Qed.

(** * Merging a stub with its detail page *)

Section merge.
Context (html_parser : string → list Soup.node).
Context (http : list string → string → option string).
Context (browser : list string → string → option Browser.page).

(** C9, as the code has it: the detail title wins if it is present and not
    empty, the detail year if it is present and not 0, the detail total if it
    is present; otherwise the stub's value is kept. *)
Theorem merge_precedence user_id faculty_name department cache_dir i p w r w' :
  process_pub html_parser http browser user_id faculty_name department cache_dir i p w
    = (Ok r, w') →
  ∃ html w1 parsed,
    cache_get http (p_view_citation_url p) (view_page_path cache_dir user_id i) false w
      = (Ok html, w1)
    ∧ parse_view_citation html_parser html = Ok parsed
    ∧ (∀ t, d_title parsed = Some t → t ≠ "" → r_title r = t)
    ∧ (d_title parsed = None ∨ d_title parsed = Some "" → r_title r = p_title p)
    ∧ (∀ y, d_pub_year parsed = Some y → y ≠ 0 → r_publication_year r = Some y)
    ∧ (d_pub_year parsed = None ∨ d_pub_year parsed = Some 0 →
       r_publication_year r = p_year p)
    ∧ (∀ c, d_cited_by_total parsed = Some c → r_cited_by_total r = Some c)
    ∧ (d_cited_by_total parsed = None → r_cited_by_total r = p_cited_by_from_list p).
Proof.
  intros (html & w1 & cites & parsed & proxy & Hget & _ & _ & Hparse & _ & ->)%process_pub_inv.
  exists html, w1, parsed. split; [done|]. split; [done|]. simpl.
  repeat split.
  - intros t -> Ht. simpl. unfold Py.truthy. by rewrite bool_decide_eq_false_2.
  - by intros [-> | ->].
  - intros y -> Hy. simpl. by rewrite bool_decide_eq_false_2.
  - by intros [-> | ->].
  - by intros c ->.
  - by intros ->.
Qed.

(** C2, as the code has it: once the detail page of a publication is
    fetched, the rendered page is loaded whatever the static page holds, be
    it a series, a block page or text that cannot be parsed: the browser has
    been sent to the URL of the publication, once, and nothing else has
    changed since the fetch. When a row comes out, its series is the
    rendered one unless that is empty, and only then the series of the
    static page. *)
Theorem rendered_series_preferred user_id faculty_name department cache_dir i p w html w1
    res w' :
  cache_get http (p_view_citation_url p) (view_page_path cache_dir user_id i) false w
    = (Ok html, w1) →
  process_pub html_parser http browser user_id faculty_name department cache_dir i p w
    = (res, w') →
  match p_view_citation_url p with
  | None => res = Raise PlaywrightError ∧ w' = w1
  | Some url =>
      browser_log w' = url :: browser_log w
      ∧ files w' = files w1 ∧ http_log w' = http_log w1
  end
  ∧ ∀ r, res = Ok r →
      ∃ cites parsed,
        extract_cites_by_year_playwright browser (p_view_citation_url p) w1 = (Ok cites, w')
        ∧ parse_view_citation html_parser html = Ok parsed
        ∧ (cites ≠ ∅ → r_cites r = cites_2015_2026 cites)
        ∧ (cites = ∅ → r_cites r = cites_2015_2026 (d_cites_by_year parsed)).
Proof.
  intros Hget Hrun. pose proof (cache_get_browser_log _ _ _ _ _ _ Hget) as Hlog.
  revert Hrun. unfold process_pub, bind. rewrite Hget.
  pose proof (playwright_log browser (p_view_citation_url p) w1) as Hpw.
  pose proof (playwright_cases browser (p_view_citation_url p) w1) as Hworld.
  destruct (extract_cites_by_year_playwright _ _ _) as [rendered w2].
  specialize (Hpw rendered w2 eq_refl). destruct Hworld as (Hfiles & Hhttp & _).
  assert (∀ res0,
            (res0, w2) = (res, w') →
            (rendered = Raise PlaywrightError → res0 = Raise PlaywrightError) →
            match p_view_citation_url p with
            | None => res = Raise PlaywrightError ∧ w' = w1
            | Some url =>
                browser_log w' = url :: browser_log w
                ∧ files w' = files w1 ∧ http_log w' = http_log w1
            end) as Hfirst.
  { intros res0 [= <- <-] Hres. destruct (p_view_citation_url p) as [url|].
    - by rewrite Hpw, Hlog.
    - destruct Hpw as [Hr ->]. split; [by apply Hres|done]. }
  destruct rendered as [cites|e|].
  - destruct (looks_like_captcha html).
    { intros Hrun. split; [by apply (Hfirst _ Hrun)|]. injection Hrun as <- _. done. }
    unfold lift. destruct (parse_view_citation html_parser html) as [parsed|e|].
    2,3: intros Hrun; (split; [by apply (Hfirst _ Hrun)|]); injection Hrun as <- _; done.
    destruct (citations_per_year_proxy _ _ _) as [proxy|e|].
    2,3: intros Hrun; (split; [by apply (Hfirst _ Hrun)|]); injection Hrun as <- _; done.
    intros Hrun. split; [by apply (Hfirst _ Hrun)|].
    injection Hrun as <- <-. intros r [= <-]. exists cites, parsed.
    split; [done|]. split; [done|]. simpl. split.
    + intros Hne. by rewrite bool_decide_eq_false_2.
    + by intros ->.
  - intros Hrun. split; [apply (Hfirst _ Hrun); by intros [= ->]|].
    injection Hrun as <- _. done.
  - intros Hrun. split; [by apply (Hfirst _ Hrun)|]. injection Hrun as <- _. done.
Qed.

(** C5: in every row that is put out, the per-year columns are those of
    2015 to 2026 and no others, each holds the count of its year in one
    series (or nothing), and no count is negative. *)
Theorem cites_columns_in_horizon n user_id faculty_name department cache_dir max_pubs
    w rows w' :
  process_one_professor html_parser http browser n user_id faculty_name department
    cache_dir max_pubs w = (Ok rows, w') →
  ∀ r, r ∈ rows →
    (r_cites r).*1 =
      ["cites_2015"; "cites_2016"; "cites_2017"; "cites_2018"; "cites_2019"; "cites_2020";
       "cites_2021"; "cites_2022"; "cites_2023"; "cites_2024"; "cites_2025"; "cites_2026"]
    ∧ (∃ series : gmap Z Z,
          r_cites r = (λ y, ("cites_" +:+ Py.str_int y, series !! y))
                        <$> [2015; 2016; 2017; 2018; 2019; 2020;
                             2021; 2022; 2023; 2024; 2025; 2026])
    ∧ (∀ k v, (k, Some v) ∈ r_cites r → 0 ≤ v).
Proof.
  intros Hrun%process_one_professor_inv r Hr.
  rewrite Forall_forall in Hrun. destruct (Hrun r Hr) as (j & p & w0 & w1 & Hpub).
  apply process_pub_inv in Hpub
    as (html & w2 & cites & parsed & proxy & _ & Hpw & _ & Hparse & _ & ->).
  simpl r_cites.
  set (series := if bool_decide (cites = ∅) then d_cites_by_year parsed else cites).
  assert (nonneg series) as Hseries.
  { unfold series. destruct (bool_decide (cites = ∅)).
    - by apply nonneg2_nonneg, (parse_view_citation_nonneg html_parser html).
    - destruct (playwright_inv _ _ _ _ _ Hpw) as (_ & _ & _ & Hn).
      by apply nonneg2_nonneg. }
  split; [done|]. split; [by exists series|].
  intros k v Hin. unfold cites_2015_2026 in Hin.
  apply list_elem_of_fmap in Hin as (y & [= _ Hy] & _).
  symmetry in Hy. exact (Hseries _ _ Hy).
Qed.

End merge.

Lemma merge_precedence_witness :
  ∃ r w',
    process_pub Site.html_parser (Site.always Site.DETAIL) (Site.shows Site.PLAIN)
      "U" "Ann" "CS" "cache" 0 Site.STUB Site.empty_world = (Ok r, w')
    ∧ r_publication_year r = Some 2020.
Proof.
  eexists _, _. split; [vm_compute; reflexivity|].
  edestruct (merge_precedence Site.html_parser (Site.always Site.DETAIL)
               (Site.shows Site.PLAIN) "U" "Ann" "CS" "cache" 0 Site.STUB Site.empty_world)
    as (html & w1 & parsed & Hget & Hparse & _ & _ & Hyear & _);
    [vm_compute; reflexivity|].
  vm_compute in Hget. injection Hget as <- <-.
  vm_compute in Hparse. injection Hparse as <-.
  apply Hyear; [reflexivity | discriminate].
Defined.

(** C9 as stated fails on a detail page dated 0000: its year is present, it
    is 0, and the merged year is the stub's 2019. *)
Lemma merged_year_ignores_year_zero :
  ∃ parsed r w',
    parse_view_citation Site.html_parser Site.DETAIL_Y0 = Ok parsed
    ∧ d_pub_year parsed = Some 0
    ∧ process_pub Site.html_parser (Site.always Site.DETAIL_Y0) (Site.shows Site.PLAIN)
        "U" "Ann" "CS" "cache" 0 Site.STUB Site.empty_world = (Ok r, w')
    ∧ r_publication_year r = Some 2019
    ∧ r_publication_year r ≠ d_pub_year parsed.
Proof. eexists _, _, _. vm_compute. by repeat split. Qed.

Lemma rendered_series_preferred_witness :
  ∃ w',
    process_pub Site.html_parser (Site.always Site.BLOCKED_PAGE) (Site.shows Site.BARS)
      "U" "Ann" "CS" "cache" 0 Site.STUB Site.empty_world
      = (Raise (RuntimeError CAPTCHA_VIEW), w')
    ∧ browser_log w' = [Site.VIEW_URL].
Proof.
  eexists. split; [vm_compute; reflexivity|].
  edestruct (rendered_series_preferred Site.html_parser (Site.always Site.BLOCKED_PAGE)
               (Site.shows Site.BARS) "U" "Ann" "CS" "cache" 0 Site.STUB Site.empty_world)
    as [(Hlog & _) _]; [vm_compute; reflexivity | vm_compute; reflexivity | exact Hlog].
Defined.

(** C2 as stated fails on a detail page whose static series is not empty:
    the rendered page is loaded all the same, and its series is the one
    stored (9 citations in 2018, where the static page has 5). *)
Lemma rendered_series_overrides_static :
  ∃ parsed r w',
    parse_view_citation Site.html_parser Site.DETAIL = Ok parsed
    ∧ d_cites_by_year parsed = {[ 2018 := 5; 2019 := 7 ]}
    ∧ process_pub Site.html_parser (Site.always Site.DETAIL) (Site.shows Site.BARS)
        "U" "Ann" "CS" "cache" 0 Site.STUB Site.empty_world = (Ok r, w')
    ∧ browser_log w' = [Site.VIEW_URL]
    ∧ r_cites r !! 3%nat = Some ("cites_2018", Some 9)
    ∧ r_cites r ≠ cites_2015_2026 (d_cites_by_year parsed).
Proof. eexists _, _, _. vm_compute. by repeat split. Qed.

Lemma cites_columns_in_horizon_witness :
  ∃ r w',
    process_one_professor Site.html_parser (Site.server Site.LISTING Site.DETAIL)
      (Site.shows Site.PLAIN) 501 "U" "Ann" "CS" "cache" None Site.empty_world
      = (Ok [r], w')
    ∧ (r_cites r).*1 =
        ["cites_2015"; "cites_2016"; "cites_2017"; "cites_2018"; "cites_2019"; "cites_2020";
         "cites_2021"; "cites_2022"; "cites_2023"; "cites_2024"; "cites_2025"; "cites_2026"].
Proof.
  eexists _, _. split; [vm_compute; reflexivity|].
  eapply (cites_columns_in_horizon Site.html_parser (Site.server Site.LISTING Site.DETAIL)
            (Site.shows Site.PLAIN) 501 "U" "Ann" "CS" "cache" None Site.empty_world);
    [vm_compute; reflexivity | apply list_elem_of_here].
Defined.

(** * Termination of the pagination *)

(** C8: the pagination loop ends on every input: 501 iterations are always
    enough. Against a listing that shows, on every page, a row and an enabled
    button for the next page, with nothing cached, the loop requests 501
    pages, neither more nor fewer, and returns (the offsets it formats, up
    to [500 * pagesize], being within the limit of [str]). *)
Theorem paginator_terminates html_parser http :
  (∀ n user_id cache_dir pagesize max_pubs w,
      (501 ≤ n)%nat →
      (get_all_author_pubs html_parser http n user_id cache_dir pagesize max_pubs w).1
        ≠ Unfinished)
  ∧ (∀ user_id cache_dir pagesize w,
      0 < pagesize →
      Py.str_ok (500 * pagesize) = true →
      (∀ log url, ∃ body, http log url = Some body ∧ endless_page html_parser body) →
      (∀ c, files w !! author_page_path cache_dir user_id c = None) →
      ∃ pubs w',
        (∀ n, (501 ≤ n)%nat →
              get_all_author_pubs html_parser http n user_id cache_dir pagesize None w
                = (Ok pubs, w'))
        ∧ (get_all_author_pubs html_parser http 500 user_id cache_dir pagesize None w).1
            = Unfinished
        ∧ length (http_log w') = (501 + length (http_log w))%nat).
Proof.
  split.
  - intros n user_id cache_dir pagesize max_pubs w Hn.
    apply pages_loop_finishes; lia.
  - intros user_id cache_dir pagesize w Hps Hstr Hserver Hcold.
    destruct (pages_loop_endless html_parser http user_id cache_dir pagesize 500
                Hps Hserver [] 0 w) as [(pubs & w' & Hrun & Hlen) Hout].
    { done. }
    { apply (str_ok_le _ (500 * pagesize)); [lia | done]. }
    { exact Hstr. }
    { intros c _. apply Hcold. }
    exists pubs, w'. split; [|split; [exact Hout | exact Hlen]].
    intros n Hn. unfold get_all_author_pubs.
    by apply (pages_loop_more html_parser http user_id cache_dir pagesize None 501).
Qed.

Lemma paginator_terminates_witness :
  ∃ pubs w',
    get_all_author_pubs Site.html_parser (Site.always Site.LISTING_MORE) 501
      "U" "cache" 100 None Site.empty_world = (Ok pubs, w')
    ∧ length (http_log w') = 501%nat.
Proof.
  destruct (proj2 (paginator_terminates Site.html_parser (Site.always Site.LISTING_MORE))
              "U" "cache" 100 Site.empty_world)
    as (pubs & w' & Hrun & _ & Hlen).
  - lia.
  - reflexivity.
  - intros log url. exists Site.LISTING_MORE. split; [reflexivity|].
    split; [reflexivity|]. split; [|reflexivity].
    eexists. split; [vm_compute; reflexivity | discriminate].
  - intros c. apply lookup_empty.
  - exists pubs, w'. split; [apply Hrun; lia | exact Hlen].
Defined.

(** * The yearly export *)

Section export_facts.
Import YearlyDocs.

Lemma clean_text_absent x : absent x → clean_text x = "".
Proof. by intros [-> | ->]. Qed.

(** C3, as the code has it: total citations, proxy metric and description
    are written as "N/A" when the value is missing from the record; the title
    is written as it is cleaned, without a placeholder, so that a missing
    title leaves the rest of its line empty. *)
Theorem placeholders_for_absent_fields (row : gmap string cell) :
  (absent (row_get row "cited_by_total") →
   record_writes row !! 1%nat = Some ("CITED_BY_TOTAL: N/A" +:+ nl))
  ∧ (absent (row_get row "citations_per_year_proxy") →
     record_writes row !! 2%nat = Some ("CITATIONS_PER_YEAR_PROXY: N/A" +:+ nl))
  ∧ (absent (row_get row "abstract") →
     record_writes row !! 3%nat = Some ("ABSTRACT_OR_DESCRIPTION:" +:+ nl)
     ∧ record_writes row !! 4%nat = Some ("N/A" +:+ nl))
  ∧ record_writes row !! 0%nat = Some ("TITLE: " +:+ clean_text (row_get row "title") +:+ nl)
  ∧ (absent (row_get row "title") → record_writes row !! 0%nat = Some ("TITLE: " +:+ nl)).
Proof.
  unfold record_writes. cbn [lookup list_lookup].
  split; [|split; [|split; [|split]]].
  - intros H. by rewrite (clean_text_absent _ H).
  - intros H. by rewrite (clean_text_absent _ H).
  - intros H. by rewrite (clean_text_absent _ H).
  - done.
  - intros H. by rewrite (clean_text_absent _ H).
Qed.

Lemma placeholders_for_absent_fields_witness :
  record_writes Site.BARE !! 1%nat = Some ("CITED_BY_TOTAL: N/A" +:+ nl)
  ∧ record_writes Site.BARE !! 2%nat = Some ("CITATIONS_PER_YEAR_PROXY: N/A" +:+ nl)
  ∧ record_writes Site.BARE !! 4%nat = Some ("N/A" +:+ nl).
Proof.
  destruct (placeholders_for_absent_fields Site.BARE) as (H1 & H2 & H3 & _).
  split; [apply H1; right; reflexivity|].
  split; [apply H2; right; reflexivity|].
  apply H3. left. reflexivity.
Defined.

(** C3 as stated fails for the title: a record whose title is missing gets
    a title line with nothing after the label, not "N/A". *)
Lemma missing_title_has_no_placeholder :
  absent (row_get Site.UNTITLED "title")
  ∧ record_writes Site.UNTITLED !! 0%nat = Some ("TITLE: " +:+ nl)
  ∧ record_writes Site.UNTITLED !! 0%nat ≠ Some ("TITLE: N/A" +:+ nl).
Proof. split; [by right|]. vm_compute. by split. Qed.

End export_facts.

(** * Further properties *)

(** * More about the detail page and the rendered page *)

Section detail_facts.
Context (html_parser : string → list Soup.node).
Context (browser : list string → string → option Browser.page).


(** X2: the rendered extractor ends in one of four ways: it returns a
    series, the page fails to load, the page is a block page, or [int]
    raises [ValueError], and then the text of the page or one of its labels
    holds a run of more than 4300 digits. It leaves the cache and the
    request log alone, and what it returns has no negative year or count. *)
Theorem playwright_outcomes url w :
  let '(r, w') := extract_cites_by_year_playwright browser url w in
  files w' = files w ∧ http_log w' = http_log w
  ∧ ((∃ cites, r = Ok cites ∧ ∀ y c, cites !! y = Some c → 0 ≤ y ∧ 0 ≤ c)
     ∨ r = Raise PlaywrightError
     ∨ r = Raise (RuntimeError BLOCKED)
     ∨ (r = Raise ValueError
        ∧ ∃ u page, url = Some u ∧ browser (browser_log w) u = Some page
                    ∧ ¬ Forall (λ t, short_digits t = true) (rendered_texts page))).
Proof. apply playwright_cases. Qed.

End detail_facts.

(** * More about the listing pages *)

Section listing_facts.
Context (html_parser : string → list Soup.node).
Context (http : list string → string → option string).

(** One iteration of the pagination loop, spelled out. *)
Lemma pages_loop_step n user_id cache_dir pagesize max_pubs pubs_all cstart page w :
  pages_loop html_parser http (S n) user_id cache_dir pagesize max_pubs
    pubs_all cstart page w =
  if negb (Py.str_ok cstart && Py.str_ok pagesize) then (Raise ValueError, w) else
  match cache_get http (Some (author_page_url user_id cstart pagesize))
          (author_page_path cache_dir user_id cstart) false w with
  | (Ok html, w1) =>
      if looks_like_captcha html then (Raise (RuntimeError CAPTCHA_LIST), w1) else
      match parse_author_page_for_pubs html_parser html with
      | Ok pubs =>
          if bool_decide (pubs = []) then (Ok pubs_all, w1)
          else if match max_pubs with
                  | Some m => Z.of_nat (length (pubs_all ++ pubs)) >=? m
                  | None => false
                  end
          then (Ok (slice_to (default 0 max_pubs) (pubs_all ++ pubs)), w1)
          else if bool_decide (next_cstart_from_author_page html_parser html = None)
          then (Ok (pubs_all ++ pubs), w1)
          else if 500 <? page + 1
          then (Ok (pubs_all ++ pubs), w1)
          else pages_loop html_parser http n user_id cache_dir pagesize max_pubs
                 (pubs_all ++ pubs) (cstart + pagesize) (page + 1) w1
      | Raise e => (Raise e, w1)
      | Unfinished => (Unfinished, w1)
      end
  | (Raise e, w1) => (Raise e, w1)
  | (Unfinished, w1) => (Unfinished, w1)
  end.
Proof.
  simpl. destruct (negb _); [done|]. unfold bind.
  destruct (cache_get _ _ _ _ _) as [[html| |] w1]; [|done..].
  destruct (looks_like_captcha html); [done|].
  unfold lift at 1.
  destruct (parse_author_page_for_pubs html_parser html) as [pubs| |]; [|done..].
  destruct (bool_decide (_ = [])); [done|].
  destruct (match max_pubs with Some _ => _ | None => _ end); [done|].
  unfold next_cstart_from_author_page.
  destruct (Soup.select_one_doc _ _) as [btn|]; [|by rewrite bool_decide_eq_true_2].
  destruct (Soup.has_attr "disabled" btn); [by rewrite bool_decide_eq_true_2|].
  rewrite !bool_decide_eq_false_2 by done. by destruct (500 <? page + 1).
Qed.

(** An invariant of the loop: what holds of the world and of the stubs at
    the start holds at the end, if every step keeps it. *)
Lemma pages_loop_inv (I : world → Prop) (P : list pub → Prop)
    user_id cache_dir pagesize max_pubs n :
  (∀ url path w r w', cache_get http url path false w = (r, w') → I w → I w') →
  (∀ pubs_all html pubs,
      parse_author_page_for_pubs html_parser html = Ok pubs →
      P pubs_all → P (pubs_all ++ pubs)) →
  (∀ pubs_all, P pubs_all → P (slice_to (default 0 max_pubs) pubs_all)) →
  ∀ pubs_all cstart page w r w',
    pages_loop html_parser http n user_id cache_dir pagesize max_pubs
      pubs_all cstart page w = (r, w') →
    I w → P pubs_all → I w' ∧ ∀ pubs, r = Ok pubs → P pubs.
Proof.
  intros Hget Happ Hslice.
  induction n as [|n IH]; intros pubs_all cstart page w r w'.
  - simpl. unfold lift. by intros [= <- <-] Hw _.
  - rewrite pages_loop_step.
    destruct (negb _); [by intros [= <- <-] Hw _|].
    destruct (cache_get _ _ _ _ _) as [[html| |] w1] eqn:Hc0;
      pose proof (Hget _ _ _ _ _ Hc0) as Hc.
    2, 3: by intros [= <- <-] Hw _; split; [apply Hc|].
    destruct (looks_like_captcha html).
    { by intros [= <- <-] Hw _; split; [apply Hc|]. }
    destruct (parse_author_page_for_pubs html_parser html) as [pubs| |] eqn:Hparse.
    2, 3: by intros [= <- <-] Hw _; split; [apply Hc|].
    pose proof (λ l, Happ l _ _ Hparse) as Happ'.
    destruct (bool_decide (_ = [])).
    { intros [= <- <-] Hw Hp; split; [by apply Hc|]. by intros ? [= <-]. }
    destruct (match max_pubs with Some _ => _ | None => _ end).
    { intros [= <- <-] Hw Hp; split; [by apply Hc|]. intros ? [= <-]. by apply Hslice, Happ'. }
    destruct (bool_decide (_ = None)).
    { intros [= <- <-] Hw Hp; split; [by apply Hc|]. intros ? [= <-]. by apply Happ'. }
    destruct (500 <? page + 1).
    { intros [= <- <-] Hw Hp; split; [by apply Hc|]. intros ? [= <-]. by apply Happ'. }
    intros Hrun Hw Hp. apply (IH _ _ _ _ _ _ Hrun); [by apply Hc | by apply Happ'].
Qed.

(** X3: one call of the paginator sends at most 501 requests, however it
    ends and however the server answers. *)
Theorem get_all_author_pubs_request_bound n user_id cache_dir pagesize max_pubs w :
  (length (http_log (get_all_author_pubs html_parser http n user_id cache_dir pagesize
                       max_pubs w).2)
   ≤ length (http_log w) + 501)%nat.
Proof.
  unfold get_all_author_pubs.
  assert (∀ pubs_all cstart page w,
            (length (http_log (pages_loop html_parser http n user_id cache_dir pagesize
                                 max_pubs pubs_all cstart page w).2)
             ≤ length (http_log w) + Z.to_nat (Z.max 1 (501 - page)))%nat) as H.
  { induction n as [|n IH]; intros pubs_all cstart page w0; [simpl; lia|].
    rewrite pages_loop_step. destruct (negb _); [simpl; lia|].
    destruct (cache_get _ _ _ _ _) as [[html| |] w1] eqn:Hc;
      apply cache_get_world in Hc as (_ & _ & Hlog & _); [|simpl; lia..].
    destruct (looks_like_captcha html); [simpl; lia|].
    destruct (parse_author_page_for_pubs html_parser html) as [pubs| |]; [|simpl; lia..].
    destruct (bool_decide (_ = [])); [simpl; lia|].
    destruct (match max_pubs with Some _ => _ | None => _ end); [simpl; lia|].
    destruct (bool_decide (_ = None)); [simpl; lia|].
    destruct (500 <? page + 1) eqn:Hp; [simpl; lia|].
    apply Z.ltb_ge in Hp.
    specialize (IH (pubs_all ++ pubs) (cstart + pagesize) (page + 1) w1). lia. }
  specialize (H [] 0 0 w). simpl in H. lia.
Qed.

(** X4: with a cap of [m] publications, the paginator returns at most [m]
    stubs. *)
Theorem get_all_author_pubs_cap n user_id cache_dir pagesize m w pubs w' :
  0 ≤ m →
  get_all_author_pubs html_parser http n user_id cache_dir pagesize (Some m) w = (Ok pubs, w') →
  Z.of_nat (length pubs) ≤ m.
Proof.
  intros Hm. unfold get_all_author_pubs.
  assert (∀ n pubs_all cstart page w,
            Z.of_nat (length pubs_all) ≤ m →
            pages_loop html_parser http n user_id cache_dir pagesize (Some m)
              pubs_all cstart page w = (Ok pubs, w') →
            Z.of_nat (length pubs) ≤ m) as H.
  { clear n w. induction n as [|n IH]; intros pubs_all cstart page w Hlen; [done|].
    rewrite pages_loop_step. destruct (negb _); [done|].
    destruct (cache_get _ _ _ _ _) as [[html| |] w1]; [|done..].
    destruct (looks_like_captcha html); [done|].
    destruct (parse_author_page_for_pubs html_parser html) as [pubs0| |]; [|done..].
    destruct (bool_decide (_ = [])); [by intros [= <- <-]|].
    destruct (_ >=? m) eqn:Hge.
    - intros [= <- <-]. simpl. unfold slice_to.
      replace (0 <=? m) with true by (symmetry; by apply Z.leb_le).
      rewrite length_take. lia.
    - assert (Z.of_nat (length (pubs_all ++ pubs0)) ≤ m)
        by (rewrite Z.geb_leb in Hge; apply Z.leb_gt in Hge; lia).
      destruct (bool_decide (_ = None)); [by intros [= <- <-]|].
      destruct (500 <? page + 1); [by intros [= <- <-]|].
      by apply IH. }
  apply (H n [] 0 0 w). simpl. lia.
Qed.

End listing_facts.

(** X5: once the paginator has returned, running it again over the cache it
    left returns the same stubs and sends nothing, whatever the server would
    answer now (bodies without a carriage return read back as they were
    written). *)
Theorem get_all_author_pubs_rerun html_parser http n user_id cache_dir pagesize max_pubs w pubs w1 :
  (∀ log url body, http log url = Some body → read_text body = body) →
  get_all_author_pubs html_parser http n user_id cache_dir pagesize max_pubs w = (Ok pubs, w1) →
  ∀ http2,
    get_all_author_pubs html_parser http2 n user_id cache_dir pagesize max_pubs w1
      = (Ok pubs, w1).
Proof.
  intros Hcr Hrun http2. unfold get_all_author_pubs in *.
  assert (∀ n pubs_all cstart page w w2,
            pages_loop html_parser http n user_id cache_dir pagesize max_pubs
              pubs_all cstart page w = (Ok pubs, w1) →
            files w1 ⊆ files w2 →
            pages_loop html_parser http2 n user_id cache_dir pagesize max_pubs
              pubs_all cstart page w2 = (Ok pubs, w2)) as H.
  { clear Hrun n w. induction n as [|n IH]; intros pubs_all cstart page w w2; [done|].
    rewrite !pages_loop_step. destruct (negb _); [done|].
    destruct (cache_get http _ _ _ w) as [[html| |] wa] eqn:Hc; [|done..].
    intros Hrest Hsub.
    assert (files wa ⊆ files w1) as Hgrow.
    { destruct (looks_like_captcha html); [done|].
      destruct (parse_author_page_for_pubs html_parser html) as [pubs0| |]; [|done..].
      destruct (bool_decide (_ = [])); [by injection Hrest as _ ->|].
      destruct (match max_pubs with Some _ => _ | None => _ end); [by injection Hrest as _ ->|].
      destruct (bool_decide (_ = None)); [by injection Hrest as _ ->|].
      destruct (500 <? page + 1); [by injection Hrest as _ ->|].
      eapply (pages_loop_inv html_parser http (λ w', files wa ⊆ files w') (λ _, True))
        in Hrest;
        [by destruct Hrest | | done | done | done | done].
      intros url path w0 r w0' Hg Hw0. apply cache_get_world in Hg as [Hg _].
      by etrans. }
    apply cache_get_world in Hc as (_ & _ & _ & Hhtml & _).
    destruct (Hhtml html eq_refl) as (text & Htext & Hread).
    assert (read_text text = html) as Hsame.
    { destruct Hread as [->|[-> (log & u & Hb)]]; [done | by eapply Hcr]. }
    rewrite cache_get_eq.
    rewrite (lookup_weaken _ _ _ _ Htext (transitivity Hgrow Hsub)), Hsame.
    destruct (looks_like_captcha html); [done|].
    destruct (parse_author_page_for_pubs html_parser html) as [pubs0| |]; [|done..].
    destruct (bool_decide (_ = [])); [by injection Hrest as -> _|].
    destruct (match max_pubs with Some _ => _ | None => _ end); [by injection Hrest as -> _|].
    destruct (bool_decide (_ = None)); [by injection Hrest as -> _|].
    destruct (500 <? page + 1); [by injection Hrest as -> _|].
    by eapply IH. }
  by eapply H.
Qed.


Lemma get_all_author_pubs_cap_witness :
  ∃ pubs w',
    get_all_author_pubs Site.html_parser (Site.always Site.LISTING_MORE) 501
      "U" "cache" 100 (Some 3) Site.empty_world = (Ok pubs, w')
    ∧ Z.of_nat (length pubs) ≤ 3.
Proof.
  eexists _, _. split; [vm_compute; reflexivity|].
  eapply (get_all_author_pubs_cap Site.html_parser (Site.always Site.LISTING_MORE) 501
            "U" "cache" 100 3 Site.empty_world); [lia | vm_compute; reflexivity].
Defined.

Lemma get_all_author_pubs_rerun_witness :
  ∃ pubs w1,
    get_all_author_pubs Site.html_parser (Site.always Site.LISTING) 501
      "U" "cache" 100 None Site.empty_world = (Ok pubs, w1)
    ∧ get_all_author_pubs Site.html_parser (Site.always Site.BLOCKED_PAGE) 501
        "U" "cache" 100 None w1 = (Ok pubs, w1).
Proof.
  eexists _, _. split; [vm_compute; reflexivity|].
  eapply (get_all_author_pubs_rerun Site.html_parser (Site.always Site.LISTING) 501
            "U" "cache" 100 None Site.empty_world).
  - intros log url body [= <-]. vm_compute. reflexivity.
  - vm_compute. reflexivity.
Defined.

(** * More about the rows of one author *)

Section int_facts.
Import Py.

Lemma int_digits_nonneg s : ∀ acc z, 0 ≤ acc → int_digits acc s = Some z → 0 ≤ z.
Proof.
  induction s as [|a s IH]; simpl; intros acc z Hacc.
  - by intros [= <-].
  - destruct (bool_decide (a = "_"%char)).
    + destruct s as [|b s']; [done|]. destruct (is_digit b); [|done]. by apply IH.
    + destruct (is_digit a) eqn:Ha; [|done].
      destruct (digit_char a Ha) as (_ & _ & _ & _ & _ & Hv). apply IH. lia.
Qed.

Lemma digit_like_char a :
  is_digit_like a = true → is_int_space a = false ∧ a ≠ "-"%char ∧ a ≠ "+"%char.
Proof. destruct a as [[] [] [] [] [] [] [] []]; intros H; try discriminate H; done. Qed.

(** What [int] makes of a text that [isdigit] accepts is not negative. *)
Lemma int_isdigit_nonneg s z : isdigit s = true → int s = Some z → 0 ≤ z.
Proof.
  destruct s as [|a s]; [done|]. cbn [isdigit all_digit_like].
  intros [Ha _]%andb_true_iff. destruct (digit_like_char a Ha) as (Hsp & Hm & Hp).
  unfold int. cbn [int_lstrip]. rewrite Hsp. cbn [int_rstrip]. rewrite Hsp. cbn [andb].
  assert (match String a (int_rstrip s) with
          | String "-" b => (true, b)
          | String "+" b => (false, b)
          | _ => (false, String a (int_rstrip s))
          end = (false, String a (int_rstrip s))) as ->.
  { destruct a as [[] [] [] [] [] [] [] []]; try done. }
  destruct (is_digit a && _); [|done].
  destruct (int_digits 0 (String a (int_rstrip s))) as [z'|] eqn:Hz; [|done].
  intros [= <-]. by apply (int_digits_nonneg _ 0 z' ltac:(lia) Hz).
Qed.

End int_facts.

Lemma flat_mapM_inv {A B} (f : A → result (list B)) l ys :
  flat_mapM f l = Ok ys →
  ∀ y, y ∈ ys → ∃ x zs, x ∈ l ∧ f x = Ok zs ∧ y ∈ zs.
Proof.
  revert ys. induction l as [|x l IH]; simpl; intros ys.
  - intros [= <-] y Hy. by apply elem_of_nil in Hy.
  - destruct (f x) as [zs| |] eqn:Hx; [|done..]. simpl.
    destruct (flat_mapM f l) as [ys'| |]; [|done..]. simpl.
    intros [= <-] y [Hy|Hy]%elem_of_app.
    + exists x, zs. split; [by left|done].
    + destruct (IH ys' eq_refl y Hy) as (x' & zs' & ? & ? & ?).
      exists x', zs'. split; [by right|done].
Qed.



Section stub_facts.
Context (html_parser : string → list Soup.node).

Lemma startswith_slash_base h : Py.startswith "/" (BASE +:+ h) = false.
Proof. done. Qed.

(** The stub of one row. *)
Lemma row_stub_cases tr :
  match row_stub tr with
  | Ok ps =>
      (length ps ≤ 1)%nat
      ∧ ∀ p, p ∈ ps →
          (∀ c, p_cited_by_from_list p = Some c → 0 ≤ c)
          ∧ (∀ u, p_view_citation_url p = Some u → Py.startswith "/" u = false)
  | Raise e => e = ValueError
  | Unfinished => False
  end.
Proof.
  unfold row_stub.
  destruct (Soup.select_one (Soup.tag_class "a" "gsc_a_at") tr) as [a|].
  2: { split; [simpl; lia|]. intros p Hp. by apply elem_of_nil in Hp. }
  assert (∀ u, match Soup.get "href" a with
               | Some h => if Py.truthy h && Py.startswith "/" h then Some (BASE +:+ h)
                           else Soup.get "href" a
               | None => Soup.get "href" a
               end = Some u → Py.startswith "/" u = false) as Hurl.
  { intros u. destruct (Soup.get "href" a) as [h|]; [|done].
    destruct (Py.truthy h && Py.startswith "/" h) eqn:Hh.
    + by intros [= <-].
    + intros [= <-]. apply andb_false_iff in Hh as [Hh|Hh]; [|done].
      unfold Py.truthy in Hh. apply negb_false_iff, bool_decide_eq_true in Hh. by subst. }
  destruct (Soup.select_one (Soup.tag_class "a" "gsc_a_ac") tr) as [cb|].
  - destruct (Py.isdigit (Soup.get_text "" cb)) eqn:Hd.
    + destruct (Py.int (Soup.get_text "" cb)) as [c|] eqn:Hc; [|done]. simpl.
      split; [lia|]. intros p ->%list_elem_of_singleton. simpl. split; [|done].
      intros c' [= <-]. by apply (int_isdigit_nonneg _ _ Hd).
    + simpl. split; [lia|]. intros p ->%list_elem_of_singleton. simpl. by split.
  - simpl. split; [lia|]. intros p ->%list_elem_of_singleton. simpl. by split.
Qed.

(** What holds of every stub read off a listing page. *)
Lemma parse_author_page_stub html pubs p :
  parse_author_page_for_pubs html_parser html = Ok pubs →
  p ∈ pubs →
  (∀ c, p_cited_by_from_list p = Some c → 0 ≤ c)
  ∧ (∀ u, p_view_citation_url p = Some u → Py.startswith "/" u = false).
Proof.
  unfold parse_author_page_for_pubs. intros Hp Hin.
  destruct (flat_mapM_inv _ _ _ Hp p Hin) as (tr & ps & _ & Htr & Hps).
  pose proof (row_stub_cases tr) as H. rewrite Htr in H. by apply H.
Qed.



End stub_facts.

Section author_facts.
Context (html_parser : string → list Soup.node).
Context (http : list string → string → option string).
Context (browser : list string → string → option Browser.page).


(** How the processing of one publication can end, and what it leaves of
    the cache. *)
Lemma process_pub_cases user_id faculty_name department cache_dir i p w r w' :
  process_pub html_parser http browser user_id faculty_name department cache_dir i p w
    = (r, w') →
  files w ⊆ files w'
  ∧ ((∃ x, r = Ok x) ∨ r = Raise RequestException ∨ r = Raise PlaywrightError
     ∨ r = Raise (RuntimeError BLOCKED) ∨ r = Raise (RuntimeError CAPTCHA_VIEW)
     ∨ r = Raise ValueError ∨ r = Raise OverflowError).
Proof.
  unfold process_pub, bind.
  destruct (cache_get _ _ _ _ _) as [[html| |] w1] eqn:Hc;
    pose proof (cache_get_world _ _ _ _ _ _ Hc) as (Hsub & _);
    pose proof (cache_get_raises _ _ _ _ _ _ Hc) as (Hfin & Hexn).
  2: { intros [= <- <-]. split; [done|].
       destruct (Hexn e eq_refl) as [->|[[_ Hd]|[_ Hf]]]; [by auto|..].
       - by rewrite (proj1 (view_page_path_file _ _ _)) in Hd.
       - by rewrite (proj2 (view_page_path_file _ _ _)) in Hf. }
  2: done.
  pose proof (playwright_cases browser (p_view_citation_url p) w1) as Hpw.
  destruct (extract_cites_by_year_playwright _ _ _) as [[cites| |] w2].
  - destruct Hpw as (Hf & _ & _).
    assert (files w ⊆ files w2) by (by rewrite Hf).
    destruct (looks_like_captcha html); [intros [= <- <-]; by auto 8|].
    unfold lift at 1.
    destruct (parse_view_citation_cases html_parser html) as [(d & -> & _)|[-> _]];
      [|intros [= <- <-]; by auto 10].
    unfold lift at 1.
    destruct (citations_per_year_proxy_cases
                (match d_cited_by_total d with
                 | Some c => Some c
                 | None => p_cited_by_from_list p
                 end)
                (or_int (d_pub_year d) (p_year p)) YEAR_MAX)
      as [[_ ->]|(t & y & _ & _ & [->|(a & b & _ & _ & ->)])];
      intros [= <- <-]; (split; [done|]); eauto 10.
  - destruct Hpw as (Hf & _ & [(? & ? & _)|[[= ->]|[[= ->]|[[= ->] _]]]]); [done|..];
      intros [= <- <-]; (split; [by rewrite Hf|auto 10]).
  - by destruct Hpw as (_ & _ & [(? & ? & _)|[?|[?|[? _]]]]).
Qed.

Lemma process_pubs_cases user_id faculty_name department cache_dir pubs :
  ∀ i w r w',
    process_pubs html_parser http browser user_id faculty_name department cache_dir i pubs w
      = (r, w') →
    files w ⊆ files w'
    ∧ ((∃ x, r = Ok x) ∨ r = Raise RequestException ∨ r = Raise PlaywrightError
       ∨ r = Raise (RuntimeError BLOCKED) ∨ r = Raise (RuntimeError CAPTCHA_VIEW)
       ∨ r = Raise ValueError ∨ r = Raise OverflowError).
Proof.
  induction pubs as [|p pubs IH]; simpl; intros i w r w'.
  - intros [= <- <-]. eauto.
  - unfold bind at 1.
    destruct (process_pub _ _ _ _ _ _ _ _ _ _) as [[x| |] w1] eqn:Hp;
      apply process_pub_cases in Hp as (Hsub & Hcase).
    + unfold bind at 1.
      destruct (process_pubs _ _ _ _ _ _ _ _ _ _) as [[xs| |] w2] eqn:Hps;
        apply IH in Hps as (Hsub2 & Hcase2); intros [= <- <-];
        (split; [by etrans|]).
      * eauto.
      * destruct Hcase2 as [[? ?]|Hcase2]; [done|]. by right.
      * by destruct Hcase2 as [[? ?]|[?|[?|[?|[?|[?|?]]]]]].
    + intros [= <- <-]. split; [done|].
      destruct Hcase as [[? ?]|[[= ->]|[[= ->]|[[= ->]|[[= ->]|[[= ->]|[= ->]]]]]]];
        [done|auto 10..].
    + by destruct Hcase as [[? ?]|[?|[?|[?|[?|[?|?]]]]]].
Qed.

(** The rows, before the filter, stand one to one for the stubs. *)
Lemma process_pubs_rows user_id faculty_name department cache_dir pubs :
  ∀ i w rows w',
    process_pubs html_parser http browser user_id faculty_name department cache_dir i pubs w
      = (Ok rows, w') →
    Forall2 (λ p r, ∃ j w0 w1,
                process_pub html_parser http browser user_id faculty_name department
                  cache_dir j p w0 = (Ok r, w1)) pubs rows.
Proof.
  induction pubs as [|p pubs IH]; simpl; intros i w rows w'.
  - intros [= <- <-]. constructor.
  - unfold bind at 1.
    destruct (process_pub _ _ _ _ _ _ _ _ _ _) as [[r| |] w1] eqn:Hr; [|done..].
    unfold bind at 1.
    destruct (process_pubs _ _ _ _ _ _ _ _ _ _) as [[rows'| |] w2] eqn:Hrows; [|done..].
    intros [= <- <-]. constructor; eauto.
Qed.

Lemma get_all_author_pubs_files n user_id cache_dir pagesize max_pubs w r w' :
  get_all_author_pubs html_parser http n user_id cache_dir pagesize max_pubs w = (r, w') →
  files w ⊆ files w'.
Proof.
  intros Hrun.
  eapply (pages_loop_inv html_parser http (λ w', files w ⊆ files w') (λ _, True)) in Hrun;
    [by destruct Hrun | | done | done | done | done].
  intros url path w0 r0 w0' Hg Hw0. apply cache_get_world in Hg as [Hg _]. by etrans.
Qed.

Lemma get_all_author_pubs_stubs n user_id cache_dir pagesize max_pubs w pubs w' :
  get_all_author_pubs html_parser http n user_id cache_dir pagesize max_pubs w = (Ok pubs, w') →
  Forall (λ p, ∀ c, p_cited_by_from_list p = Some c → 0 ≤ c) pubs.
Proof.
  intros Hrun.
  eapply (pages_loop_inv html_parser http (λ _, True)
            (Forall (λ p, ∀ c, p_cited_by_from_list p = Some c → 0 ≤ c))) in Hrun;
    [by apply Hrun | done | | | done | done].
  - intros pubs_all html pubs0 Hparse Hall. apply Forall_app. split; [done|].
    apply Forall_forall. intros p Hp.
    by apply (parse_author_page_stub html_parser html pubs0).
  - intros pubs_all Hall. unfold slice_to. destruct (0 <=? _); by apply Forall_take.
Qed.

(** X7: a run over one author never overwrites a page that is in the
    cache: every entry there at the start is there with the same text at the
    end, however the run ends. *)
Theorem process_one_professor_keeps_cache n user_id faculty_name department cache_dir
    max_pubs w path text :
  files w !! path = Some text →
  files (process_one_professor html_parser http browser n user_id faculty_name department
           cache_dir max_pubs w).2 !! path = Some text.
Proof.
  intros Hpath. apply (lookup_weaken (files w)); [done|].
  unfold process_one_professor, bind.
  destruct (get_all_author_pubs _ _ _ _ _ _ _ _) as [[pubs| |] w1] eqn:Hl;
    apply get_all_author_pubs_files in Hl; [|done..].
  destruct (process_pubs _ _ _ _ _ _ _ _ _ _) as [[rows| |] w2] eqn:Hp;
    apply process_pubs_cases in Hp as [Hp _]; [|by etrans..].
  destruct (bool_decide (rows = [])); simpl; by etrans.
Qed.



(** X9: an author whose first listing page shows no publication row gets
    no empty table: the run raises the key error of the year column,
    after one request at most. *)
Theorem process_one_professor_no_rows n user_id faculty_name department cache_dir
    max_pubs w html w1 :
  cache_get http (Some (author_page_url user_id 0 100))
    (author_page_path cache_dir user_id 0) false w = (Ok html, w1) →
  looks_like_captcha html = false →
  parse_author_page_for_pubs html_parser html = Ok [] →
  process_one_professor html_parser http browser (S n) user_id faculty_name department
    cache_dir max_pubs w = (Raise (KeyError "publication_year"), w1)
  ∧ (length (http_log w1) ≤ S (length (http_log w)))%nat.
Proof.
  intros Hc Hcap Hrows. split; [|by apply cache_get_world in Hc as (_ & _ & ? & _)].
  unfold process_one_professor, bind, get_all_author_pubs.
  rewrite pages_loop_step, Hc, Hcap, Hrows.
  by change (negb (Py.str_ok 0 && Py.str_ok 100)) with false.
Qed.

Lemma process_one_professor_rows_inv n user_id faculty_name department cache_dir
    max_pubs w rows w' :
  process_one_professor html_parser http browser n user_id faculty_name department
    cache_dir max_pubs w = (Ok rows, w') →
  ∀ r, r ∈ rows →
    r_department r = department ∧ r_faculty_name r = faculty_name
    ∧ r_scholar_user_id r = user_id
    ∧ is_Some (r_view_citation_url r)
    ∧ (∀ y, r_publication_year r = Some y → YEAR_MIN ≤ y ≤ YEAR_MAX)
    ∧ (∀ t, r_cited_by_total r = Some t → 0 ≤ t)
    ∧ citations_per_year_proxy (r_cited_by_total r) (r_publication_year r) YEAR_MAX
      = Ok (r_citations_per_year_proxy r).
Proof.
  unfold process_one_professor, bind.
  destruct (get_all_author_pubs _ _ _ _ _ _ _ _) as [[pubs| |] w1] eqn:Hl; [|done..].
  apply get_all_author_pubs_stubs in Hl.
  destruct (process_pubs _ _ _ _ _ _ _ _ _ _) as [[rows'| |] w2] eqn:Hp; [|done..].
  apply process_pubs_rows in Hp.
  destruct (bool_decide (rows' = [])); [done|]. intros [= <- <-] r [Hin Hr]%list_elem_of_filter.
  apply (Forall2_Forall_r _ (λ r, ∃ p, (∀ c, p_cited_by_from_list p = Some c → 0 ≤ c) ∧ ∃ j w0 w1,
            process_pub html_parser http browser user_id faculty_name department
              cache_dir j p w0 = (Ok r, w1))) in Hp.
  2: { eapply Forall_impl; [exact Hl|]. intros p Hpc r0 Hr0. eauto. }
  rewrite Forall_forall in Hp. destruct (Hp r Hr) as (p & Hpc & j & w0 & w3 & Hpub).
  pose proof Hpub
    as (html & w4 & cites & parsed & proxy & _ & Hpw & _ & Hparse & Hproxy & ->)%process_pub_inv.
  destruct (playwright_inv _ _ _ _ _ Hpw) as (url & Hurl & _).
  destruct (parse_view_citation_nonneg html_parser html parsed Hparse) as (_ & Hct & _).
  unfold in_horizon in Hin. simpl in Hin |- *.
  split; [done|]. split; [done|]. split; [done|]. split; [by rewrite Hurl|].
  split; [|split; [|done]].
  - intros y Hy. rewrite Hy in Hin.
    apply andb_prop_elim in Hin as [H1%Is_true_true%Z.leb_le H2%Is_true_true%Z.leb_le]. done.
  - intros t. destruct (d_cited_by_total parsed) as [c|] eqn:Hc.
    + intros [= <-]. by apply Hct.
    + apply Hpc.
Qed.

(** X10: in the table returned for one author, every row carries the
    department, the name and the user id the run was asked for and a detail
    link; its year is missing or within 2015..2026; its total is not
    negative; and its proxy is the metric of its own total and year. *)
Theorem process_one_professor_rows n user_id faculty_name department cache_dir
    max_pubs w rows w' :
  process_one_professor html_parser http browser n user_id faculty_name department
    cache_dir max_pubs w = (Ok rows, w') →
  ∀ r, r ∈ rows →
    r_department r = department ∧ r_faculty_name r = faculty_name
    ∧ r_scholar_user_id r = user_id
    ∧ is_Some (r_view_citation_url r)
    ∧ (∀ y, r_publication_year r = Some y → YEAR_MIN ≤ y ≤ YEAR_MAX)
    ∧ (∀ t, r_cited_by_total r = Some t → 0 ≤ t)
    ∧ citations_per_year_proxy (r_cited_by_total r) (r_publication_year r) YEAR_MAX
      = Ok (r_citations_per_year_proxy r).
Proof. apply process_one_professor_rows_inv. Qed.

(** X11: in the table returned for one author, the floor of the metric
    never applies: a row with total [t] and year [y] has for proxy the
    quotient of the float of [t] by the float of [2026 - y + 1]; that
    denominator lies between 1 and 12, and its float is exact. *)
Theorem process_one_professor_proxy n user_id faculty_name department cache_dir
    max_pubs w rows w' :
  process_one_professor html_parser http browser n user_id faculty_name department
    cache_dir max_pubs w = (Ok rows, w') →
  ∀ r t y, r ∈ rows → r_cited_by_total r = Some t → r_publication_year r = Some y →
    (∃ a b,
        float_of_int t = Ok a
        ∧ float_of_int (2026 - y + 1) = Ok b
        ∧ (float_value b == inject_Z (2026 - y + 1))%Q
        ∧ r_citations_per_year_proxy r = Some (SFdiv 53 1024 a b))
    ∧ 1 ≤ 2026 - y + 1 ≤ 12.
Proof.
  intros Hrun r t y Hr Ht Hy.
  destruct (process_one_professor_rows_inv _ _ _ _ _ _ _ _ _ Hrun r Hr)
    as (_ & _ & _ & _ & Hyear & _ & Hproxy).
  specialize (Hyear y Hy). unfold YEAR_MIN, YEAR_MAX in *.
  split; [|lia].
  rewrite Ht, Hy, citations_per_year_proxy_eq in Hproxy.
  replace (Z.max (2026 - y + 1) 1) with (2026 - y + 1) in Hproxy by lia.
  destruct (float_of_int_exact (2026 - y + 1)) as (b & Hb & Hvb); [lia|].
  rewrite Hb in Hproxy.
  destruct (float_of_int t) as [a| |]; [|done..]. cbn [rbind] in Hproxy.
  injection Hproxy as <-. by exists a, b.
Qed.

End author_facts.

Lemma process_one_professor_keeps_cache_witness :
  files (process_one_professor Site.html_parser (Site.server Site.LISTING Site.DETAIL)
           (Site.shows Site.BARS) 501 "U" "Ann" "CS" "cache" None
           (World {[ "cache/author_pages/U/cstart_0.html" := Site.LISTING_MORE ]} [] [])).2
    !! "cache/author_pages/U/cstart_0.html" = Some Site.LISTING_MORE.
Proof. apply process_one_professor_keeps_cache. reflexivity. Defined.


Lemma process_one_professor_no_rows_witness :
  ∃ w1,
    process_one_professor Site.html_parser (Site.always Demo.NO_ROWS)
      (Site.shows Site.PLAIN) 501 "U" "Ann" "CS" "cache" None Site.empty_world
    = (Raise (KeyError "publication_year"), w1).
Proof.
  eexists.
  eapply (process_one_professor_no_rows Site.html_parser
            (Site.always Demo.NO_ROWS) (Site.shows Site.PLAIN) 500
            "U" "Ann" "CS" "cache" None Site.empty_world Demo.NO_ROWS);
    vm_compute; reflexivity.
Defined.

Lemma process_one_professor_rows_witness :
  ∃ r w',
    process_one_professor Site.html_parser (Site.server Site.LISTING Site.DETAIL)
      (Site.shows Site.BARS) 501 "U" "Ann" "CS" "cache" None Site.empty_world
      = (Ok [r], w')
    ∧ r_faculty_name r = "Ann".
Proof.
  eexists _, _. split; [vm_compute; reflexivity|].
  eapply (process_one_professor_rows Site.html_parser (Site.server Site.LISTING Site.DETAIL)
            (Site.shows Site.BARS) 501 "U" "Ann" "CS" "cache" None Site.empty_world);
    [vm_compute; reflexivity | apply list_elem_of_here].
Defined.

Lemma process_one_professor_proxy_witness :
  ∃ r w' a b,
    process_one_professor Site.html_parser (Site.server Site.LISTING Site.DETAIL)
      (Site.shows Site.BARS) 501 "U" "Ann" "CS" "cache" None Site.empty_world
      = (Ok [r], w')
    ∧ float_of_int 12 = Ok a ∧ float_of_int 7 = Ok b
    ∧ r_citations_per_year_proxy r = Some (SFdiv 53 1024 a b).
Proof.
  eexists _, _.
  edestruct (process_one_professor_proxy Site.html_parser
               (Site.server Site.LISTING Site.DETAIL) (Site.shows Site.BARS) 501
               "U" "Ann" "CS" "cache" None Site.empty_world)
    as [(a & b & Ha & Hb & _ & Hq) _];
    [vm_compute; reflexivity | apply list_elem_of_here | reflexivity | reflexivity |].
  exists a, b. split; [vm_compute; reflexivity|]. split; [exact Ha|].
  split; [exact Hb | exact Hq].
Defined.
(** * The user id of a profile link *)

Section user_id_facts.
Import Re.

(** A literal matches where the subject starts with it, and nowhere else. *)
Lemma run_lit_no l s c : Py.startswith l s = false → run (lit l) s c = [].
Proof.
  revert s. induction l as [|a l IH]; intros s; [done|].
  destruct s as [|b s]; [done|]. simpl.
  destruct (bool_decide (a = b)); [|done]. simpl. intros H. by rewrite IH.
Qed.

Lemma run_lit_yes l s c : run (lit l) (l +:+ s) c = [(s, c)].
Proof.
  induction l as [|a l IH]; [done|]. simpl.
  rewrite bool_decide_eq_true_2 by done. simpl. by rewrite IH.
Qed.

(** The longest run of characters of a class is what a greedy star tries
    first. *)
Lemma iter_greedy_cls p n s c :
  (String.length s ≤ n)%nat →
  ∃ l, iter_greedy (run (Cls p)) n s c = (drop_while p s, c) :: l.
Proof.
  revert s. induction n as [|n IH]; intros s Hn.
  - destruct s; [|simpl in Hn; lia]. by exists [].
  - destruct s as [|a s]; [by exists []|]. cbn [iter_greedy drop_while].
    assert (run (Cls p) (String a s) c = if p a then [(s, c)] else []) as -> by done.
    destruct (p a); [|by exists []]. cbn [flat_map].
    replace (String.length s <? String.length (String a s))%nat with true
      by (symmetry; apply Nat.ltb_lt; simpl; lia).
    destruct (IH s) as [l ->]; [simpl in Hn; lia|]. simpl. eauto.
Qed.

Lemma run_plus_cls p a s c :
  p a = true → ∃ l, run (plus (Cls p)) (String a s) c = (drop_while p s, c) :: l.
Proof.
  intros Ha.
  change (run (plus (Cls p)) (String a s) c)
    with (flat_map (λ '(s1, c1), run (Star (Cls p)) s1 c1) (run (Cls p) (String a s) c)).
  assert (run (Cls p) (String a s) c = [(s, c)]) as -> by (simpl; by rewrite Ha).
  cbn [flat_map].
  change (run (Star (Cls p)) s c) with (iter_greedy (run (Cls p)) (String.length s) s c).
  destruct (iter_greedy_cls p (String.length s) s c) as [l ->]; [done|]. simpl. eauto.
Qed.

Lemma run_plus_cls_no p s c :
  match s with String a _ => p a = false | "" => True end → run (plus (Cls p)) s c = [].
Proof. destruct s as [|a s]; [done|]. simpl. by intros ->. Qed.

Lemma drop_while_app p u t :
  Py.startswith "&" t = true ∨ t = "" →
  (∀ a, p a = negb (bool_decide (a = "&"%char))) →
  Py.contains "&" u = false → drop_while p (u +:+ t) = t.
Proof.
  intros Ht Hp. induction u as [|a u IH]; simpl.
  - intros _. destruct Ht as [Ht| ->]; [|done].
    destruct t as [|b t]; [done|]. simpl in *.
    rewrite Hp. destruct (bool_decide ("&"%char = b)) eqn:Hb; [|done].
    apply bool_decide_eq_true in Hb as <-. done.
  - intros [Ha Hu]%orb_false_iff. rewrite andb_true_r in Ha.
    rewrite Hp. apply bool_decide_eq_false in Ha.
    rewrite bool_decide_eq_false_2 by congruence. simpl. by apply IH.
Qed.

Lemma triple_Grp_consumes (Q : string → Prop) (Pre Post : caps → Prop) g r :
  no_grp r = true → consumes r Q →
  (∀ c v, Pre c → Q v → Post (<[g := v]> c)) →
  triple Pre (Grp g r) Post.
Proof.
  intros Hng Hr HPost s c s1 c1; simpl.
  intros ([s2 c2] & Hin & [[= <- <-]|[]])%in_flat_map Hc.
  rewrite (no_grp_same r Hng _ _ _ _ Hin).
  destruct (Hr _ _ _ _ Hin) as (pre & -> & Hpre).
  rewrite consumed_app. auto.
Qed.

Lemma consumes_not_amp :
  consumes (plus (Cls (λ a, negb (bool_decide (a = "&"%char)))))
    (λ pre, pre ≠ "" ∧ Py.contains "&" pre = false).
Proof.
  unfold plus.
  pose proof (consumes_Cls (λ a, negb (bool_decide (a = "&"%char)))) as H1.
  assert (consumes (Star (Cls (λ a, negb (bool_decide (a = "&"%char)))))
            (λ pre, Py.contains "&" pre = false)) as Hstar.
  { eapply consumes_Star; [done| |exact H1].
    intros x b (a & -> & Ha) Hb. simpl. rewrite Hb, andb_true_r, orb_false_r.
    apply negb_true_iff, bool_decide_eq_false in Ha.
    apply bool_decide_eq_false. congruence. }
  eapply consumes_mono; [|exact (consumes_Cat _ _ _ _ H1 Hstar)].
  intros x (y & b & -> & (a & -> & Ha) & Hb). split; [done|].
  simpl. rewrite Hb, andb_true_r, orb_false_r.
  apply negb_true_iff, bool_decide_eq_false in Ha.
  apply bool_decide_eq_false. congruence.
Qed.

Lemma user_param_groups :
  triple (λ _, True) Pat2.user_param
    (λ c, ∃ v, c !! 1%nat = Some v ∧ v ≠ "" ∧ Py.contains "&" v = false).
Proof.
  unfold Pat2.user_param, cat.
  do 2 (apply (triple_Cat _ (λ _, True)); [by apply triple_no_grp|]).
  eapply triple_Grp_consumes; [done | apply consumes_not_amp |].
  intros c v _ [? ?]. exists v. by rewrite lookup_insert_eq.
Qed.

Lemma search_user_param_none s :
  Py.contains "user=" s = false → search Pat2.user_param s = None.
Proof.
  induction s as [|a s IH]; [done|].
  cbn [Py.contains]. intros [_ Hs]%orb_false_iff.
  assert (Py.startswith "user=" s = false) as Hst.
  { destruct s; [done|]. cbn [Py.contains] in Hs. by apply orb_false_iff in Hs as [? _]. }
  cbn [search].
  assert (run Pat2.user_param (String a s) ∅ = []) as ->.
  { unfold Pat2.user_param, cat. cbn [run].
    destruct (_ || _); [|done]. cbn [flat_map].
    by rewrite (run_lit_no "user=" s ∅ Hst). }
  by apply IH.
Qed.

Lemma scholar_author_id_from_url_shape_inv url user_id :
  scholar_author_id_from_url url = Some user_id →
  user_id ≠ "" ∧ Py.contains "&" user_id = false.
Proof.
  unfold scholar_author_id_from_url. destruct (negb (Py.truthy url)); [done|].
  destruct (search Pat2.user_param url) as [m|] eqn:Hm; [|done].
  intros [= <-].
  destruct (search_groups _ _ _ _ user_param_groups Hm) as (v & Hv & ? & ?).
  unfold group. by rewrite Hv.
Qed.

(** X12: what the user id of a link can be: a link in which "user=" does
    not occur has none (its roster row is skipped), and an id that is found
    is not empty and holds no ampersand. *)
Theorem scholar_author_id_from_url_shape url :
  (Py.contains "user=" url = false → scholar_author_id_from_url url = None)
  ∧ (∀ user_id, scholar_author_id_from_url url = Some user_id →
       user_id ≠ "" ∧ Py.contains "&" user_id = false).
Proof.
  split; [|apply scholar_author_id_from_url_shape_inv].
  unfold scholar_author_id_from_url.
  intros H. destruct (negb (Py.truthy url)); [done|].
  by rewrite search_user_param_none.
Qed.

Lemma search_user_param_skip a s :
  (bool_decide (a = "?"%char) || bool_decide (a = "&"%char)) && Py.startswith "user=" s = false →
  search Pat2.user_param (String a s) = search Pat2.user_param s.
Proof.
  intros H. cbn [search].
  assert (run Pat2.user_param (String a s) ∅ = []) as ->; [|done].
  unfold Pat2.user_param, cat. cbn [run].
  destruct (_ || _); [|done]. cbn [flat_map]. simpl in H.
  by rewrite (run_lit_no "user=" s ∅ H).
Qed.

Lemma search_hit r s rest c l :
  run r s ∅ = (rest, c) :: l → search r s = Some (Match (consumed s rest) c rest).
Proof. intros H. destruct s; simpl; by rewrite H. Qed.

Lemma run_user_param_hit a u tail :
  a ≠ "&"%char → Py.contains "&" u = false → Py.startswith "&" tail = true ∨ tail = "" →
  ∃ l, run Pat2.user_param (String "&" ("user=" +:+ String a u +:+ tail)) ∅
       = (tail, {[ 1%nat := String a u ]}) :: l.
Proof.
  intros Ha Hu Htail.
  change (run Pat2.user_param (String "&" ("user=" +:+ String a u +:+ tail)) ∅)
    with (flat_map
            (λ '(s1, c1),
               flat_map
                 (λ '(s2, c2),
                    flat_map (λ '(s3, c3), [(s3, <[1%nat := consumed s2 s3]> c3)])
                      (run (plus (Cls (λ a, negb (bool_decide (a = "&"%char))))) s2 c2))
                 (run (lit "user=") s1 c1))
            [("user=" +:+ String a u +:+ tail, ∅)]).
  cbn [flat_map]. rewrite (run_lit_yes "user=" (String a u +:+ tail) ∅). cbn [flat_map].
  change (String a u +:+ tail) with (String a (u +:+ tail)).
  destruct (run_plus_cls (λ a, negb (bool_decide (a = "&"%char))) a (u +:+ tail) ∅)
    as [l ->]; [by rewrite bool_decide_eq_false_2|].
  rewrite (drop_while_app _ u tail); [|done..].
  cbn [flat_map app].
  change (String a (u +:+ tail)) with (String a u +:+ tail). rewrite consumed_app.
  rewrite insert_empty. eauto.
Qed.

(** X13: the listing links the crawler builds name their user: for an id
    that is not empty and holds no ampersand, the user id of the link of any
    of its listing pages is that id. *)
Theorem scholar_author_id_from_url_author_page_url user_id cstart pagesize :
  user_id ≠ "" → Py.contains "&" user_id = false →
  scholar_author_id_from_url (author_page_url user_id cstart pagesize) = Some user_id.
Proof.
  intros Hne Hamp. unfold scholar_author_id_from_url, author_page_url, BASE.
  set (tail := "&cstart=" +:+ _).
  assert (Py.truthy ("https://scholar.google.com" +:+ "/citations?hl=en&user=" +:+ user_id +:+ tail)
          = true) as -> by done.
  cbn [negb]. cbn [String.append].
  do 42 (rewrite search_user_param_skip by done).
  destruct user_id as [|a u]; [done|].
  cbn [Py.contains Py.startswith] in Hamp.
  apply orb_false_iff in Hamp as [Ha Hu]. rewrite andb_true_r in Ha.
  apply bool_decide_eq_false in Ha.
  destruct (run_user_param_hit a u tail) as [l Hl]; [congruence | done | by left |].
  erewrite search_hit by exact Hl.
  unfold group. cbn [m_groups]. by rewrite lookup_singleton_eq.
Qed.

End user_id_facts.

Lemma scholar_author_id_from_url_author_page_url_witness :
  scholar_author_id_from_url (author_page_url "AbC-12" 200 100) = Some "AbC-12".
Proof. apply scholar_author_id_from_url_author_page_url; [discriminate | reflexivity]. Defined.

Lemma scholar_author_id_from_url_shape_witness :
  scholar_author_id_from_url "https://scholar.google.com/citations?hl=en" = None.
Proof.
  apply (proj1 (scholar_author_id_from_url_shape "https://scholar.google.com/citations?hl=en")).
  reflexivity.
Defined.

(** * The run over a department *)

Section department_facts.
Context (html_parser : string → list Soup.node).
Context (http : list string → string → option string).
Context (browser : list string → string → option Browser.page).

(** Once the cap is reached the loop ends. *)
Lemma faculty_loop_full fuel department name_col url_col cache_dir m max_pubs rows frames n w :
  m ≤ n →
  faculty_loop html_parser http browser fuel department name_col url_col
    cache_dir (Some m) max_pubs rows frames n w
  = (Ok frames, w).
Proof.
  intros Hn. destruct rows as [|r rows]; [done|]. simpl.
  by destruct (Z.geb_spec n m); [|lia].
Qed.

(** The loop over a roster is the loop over its processed rows, up to the
    cap. *)
Lemma faculty_loop_cap fuel department name_col url_col cache_dir m max_pubs rows :
  ∀ frames n w,
    faculty_loop html_parser http browser fuel department name_col url_col
      cache_dir (Some m) max_pubs rows frames n w
    = faculty_loop html_parser http browser fuel department name_col url_col cache_dir None max_pubs
        (take (Z.to_nat (m - n))
           (filter (λ r, is_Some (roster_entry name_col url_col r)) rows)) frames n w.
Proof.
  induction rows as [|r rows IH]; intros frames n w.
  - by rewrite filter_nil, take_nil.
  - destruct (decide (m ≤ n)) as [Hn|Hn].
    { rewrite faculty_loop_full by done.
      by replace (Z.to_nat (m - n)) with 0%nat by lia. }
    rewrite filter_cons. cbn [faculty_loop].
    destruct (Z.geb_spec n m); [lia|].
    destruct (roster_entry name_col url_col r) as [[user_id faculty_name]|] eqn:He.
    + rewrite decide_True by eauto.
      replace (Z.to_nat (m - n)) with (S (Z.to_nat (m - (n + 1)))) by lia.
      cbn [take faculty_loop]. rewrite He. unfold bind.
      destruct (process_one_professor html_parser http browser _ _ _ _ _ _ _)
        as [[df| |] w1]; [|done..].
      apply IH.
    + rewrite decide_False by (by intros [? ?]). apply IH.
Qed.

Lemma faculty_loop_skip fuel department name_col url_col cache_dir max_pubs rows :
  ∀ frames n w,
    faculty_loop html_parser http browser fuel department name_col url_col
      cache_dir None max_pubs rows frames n w
    = faculty_loop html_parser http browser fuel department name_col url_col cache_dir None max_pubs
        (filter (λ r, is_Some (roster_entry name_col url_col r)) rows) frames n w.
Proof.
  induction rows as [|r rows IH]; intros frames n w; [done|].
  rewrite filter_cons. cbn [faculty_loop].
  destruct (roster_entry name_col url_col r) as [[user_id faculty_name]|] eqn:He.
  - rewrite decide_True by eauto. cbn [faculty_loop]. rewrite He. unfold bind.
    destruct (process_one_professor html_parser http browser _ _ _ _ _ _ _)
      as [[df| |] w1]; [|done..].
    apply IH.
  - rewrite decide_False by (by intros [? ?]). apply IH.
Qed.

(** Without a cap the count plays no part. *)
Lemma faculty_loop_count fuel department name_col url_col cache_dir max_pubs rows :
  ∀ frames n n' w,
    faculty_loop html_parser http browser fuel department name_col url_col
      cache_dir None max_pubs rows frames n w
    = faculty_loop html_parser http browser fuel department name_col url_col
      cache_dir None max_pubs rows frames n' w.
Proof.
  induction rows as [|r rows IH]; intros frames n n' w; [done|].
  cbn [faculty_loop].
  destruct (roster_entry name_col url_col r) as [[user_id faculty_name]|]; [|apply IH].
  unfold bind. destruct (process_one_professor html_parser http browser _ _ _ _ _ _ _)
    as [[df| |] w1]; [|done..].
  apply IH.
Qed.

Lemma faculty_loop_app fuel department name_col url_col cache_dir max_pubs pre post :
  ∀ frames n w,
    faculty_loop html_parser http browser fuel department name_col url_col
      cache_dir None max_pubs (pre ++ post)
      frames n w
    = bind (faculty_loop html_parser http browser fuel department name_col url_col
      cache_dir None max_pubs pre frames n)
        (λ frames', faculty_loop html_parser http browser fuel department name_col url_col
          cache_dir None max_pubs
                      post frames' n) w.
Proof.
  induction pre as [|r pre IH]; intros frames n w; [done|].
  cbn [app faculty_loop].
  destruct (roster_entry name_col url_col r) as [[user_id faculty_name]|]; [|apply IH].
  unfold bind.
  destruct (process_one_professor html_parser http browser _ _ _ _ _ _ _)
    as [[df| |] w1]; [|done..].
  rewrite IH. unfold bind.
  destruct (faculty_loop html_parser http browser _ _ _ _ _ _ _ pre _ _ _)
    as [[fr| |] w2]; [|done..].
  apply faculty_loop_count.
Qed.

(** What the frames collected hold. *)
Lemma faculty_loop_rows (P : row → Prop) fuel department name_col url_col cache_dir
    max_faculty max_pubs rows0 :
  (∀ rr user_id faculty_name w df w',
     rr ∈ rows0 → roster_entry name_col url_col rr = Some (user_id, faculty_name) →
     process_one_professor html_parser http browser fuel user_id faculty_name department
       cache_dir max_pubs w
       = (Ok df, w') →
     Forall P df) →
  ∀ rows frames n w frames' w',
    rows ⊆ rows0 →
    Forall (Forall P) frames →
    faculty_loop html_parser http browser fuel department name_col url_col
      cache_dir max_faculty max_pubs rows
      frames n w = (Ok frames', w') →
    Forall (Forall P) frames'.
Proof.
  intros HP. induction rows as [|r rows IH]; intros frames n w frames' w' Hsub Hfr.
  - by intros [= <- <-].
  - cbn [faculty_loop].
    destruct (match max_faculty with Some m => n >=? m | None => false end);
      [by intros [= <- <-]|].
    destruct (roster_entry name_col url_col r) as [[user_id faculty_name]|] eqn:He.
    + unfold bind.
      destruct (process_one_professor html_parser http browser _ _ _ _ _ _ _)
        as [[df| |] w1] eqn:Hp; [|done..].
      apply IH; [set_solver|]. apply Forall_app. split; [done|].
      constructor; [|done]. eapply HP; [|done..]. set_solver.
    + apply IH; [set_solver|done].
Qed.

(** X14: the rows of the roster that are skipped (no name, no link, a
    link that names no user) cost nothing: the run gives the result and
    leaves the state of the run over the roster without them. *)
Theorem process_department_csv_skips fuel cols rows department name_col url_col cache_dir
    max_faculty max_pubs w :
  process_department_csv html_parser http browser fuel (Roster.Frame cols rows)
    department name_col url_col
    cache_dir max_faculty max_pubs w
  = process_department_csv html_parser http browser fuel
      (Roster.Frame cols (filter (λ r, is_Some (roster_entry name_col url_col r)) rows))
      department name_col url_col cache_dir max_faculty max_pubs w.
Proof.
  unfold process_department_csv. cbn [Roster.columns Roster.rows].
  destruct (negb _); [done|]. unfold bind.
  destruct max_faculty as [m|].
  - rewrite !faculty_loop_cap. by rewrite list_filter_filter_l.
  - by rewrite faculty_loop_skip.
Qed.

(** X15: the cap on the authors counts the rows that are processed, not
    the rows of the roster: a run with the cap [m] is the run without a cap
    over the first [m] rows that are not skipped. *)
Theorem process_department_csv_max_faculty fuel cols rows department name_col url_col
    cache_dir m max_pubs w :
  process_department_csv html_parser http browser fuel (Roster.Frame cols rows)
    department name_col url_col
    cache_dir (Some m) max_pubs w
  = process_department_csv html_parser http browser fuel
      (Roster.Frame cols
         (take (Z.to_nat m) (filter (λ r, is_Some (roster_entry name_col url_col r)) rows)))
      department name_col url_col cache_dir None max_pubs w.
Proof.
  unfold process_department_csv. cbn [Roster.columns Roster.rows].
  destruct (negb _); [done|]. unfold bind.
  rewrite faculty_loop_cap. by rewrite Z.sub_0_r.
Qed.

(** X16: an exception in the run over one author ends the run over the
    department with that exception, whatever the authors before it gave:
    no table is returned. *)
Theorem process_department_csv_aborts fuel cols pre r post department name_col url_col
    cache_dir max_pubs w out w1 user_id faculty_name e w2 :
  process_department_csv html_parser http browser fuel (Roster.Frame cols pre)
    department name_col url_col
    cache_dir None max_pubs w = (Ok out, w1) →
  roster_entry name_col url_col r = Some (user_id, faculty_name) →
  process_one_professor html_parser http browser fuel user_id faculty_name department
    cache_dir max_pubs w1
    = (Raise e, w2) →
  process_department_csv html_parser http browser fuel (Roster.Frame cols (pre ++ r :: post))
    department name_col
    url_col cache_dir None max_pubs w = (Raise e, w2).
Proof.
  unfold process_department_csv. cbn [Roster.columns Roster.rows].
  destruct (negb _); [done|]. intros Hpre He Hp. unfold bind in Hpre |- *.
  rewrite faculty_loop_app. unfold bind.
  destruct (faculty_loop html_parser http browser _ _ _ _ _ _ _ pre _ _ _)
    as [[fr| |] w1'] eqn:Hl; [|done..].
  injection Hpre as _ <-.
  cbn [faculty_loop]. rewrite He. unfold bind. by rewrite Hp.
Qed.

(** X17: every row of the table of a department comes from a row of the
    roster: it carries the department, the stripped name of that roster row
    (which is not empty) and the user id its link names (not empty, without
    an ampersand), and its year is missing or within 2015..2026. *)
Theorem process_department_csv_rows fuel df department name_col url_col cache_dir
    max_faculty max_pubs w out w' :
  process_department_csv html_parser http browser fuel df department name_col url_col
    cache_dir max_faculty
    max_pubs w = (Ok out, w') →
  ∀ r, r ∈ out →
    r_department r = department
    ∧ (∃ rr u, rr ∈ Roster.rows df
         ∧ Roster.get rr url_col = Roster.Str u
         ∧ scholar_author_id_from_url u = Some (r_scholar_user_id r)
         ∧ r_faculty_name r = Py.strip (Roster.str (Roster.get rr name_col)))
    ∧ r_faculty_name r ≠ ""
    ∧ r_scholar_user_id r ≠ "" ∧ Py.contains "&" (r_scholar_user_id r) = false
    ∧ (∀ y, r_publication_year r = Some y → YEAR_MIN ≤ y ≤ YEAR_MAX).
Proof.
  unfold process_department_csv.
  destruct (negb _); [done|]. unfold bind.
  destruct (faculty_loop html_parser http browser _ _ _ _ _ _ _ _ _ _ _)
    as [[frames| |] w1] eqn:Hl; [|done..].
  intros [= <- <-] r Hr.
  eapply (faculty_loop_rows (λ r,
            r_department r = department
            ∧ (∃ rr u, rr ∈ Roster.rows df
                 ∧ Roster.get rr url_col = Roster.Str u
                 ∧ scholar_author_id_from_url u = Some (r_scholar_user_id r)
                 ∧ r_faculty_name r = Py.strip (Roster.str (Roster.get rr name_col)))
            ∧ r_faculty_name r ≠ ""
            ∧ r_scholar_user_id r ≠ "" ∧ Py.contains "&" (r_scholar_user_id r) = false
            ∧ (∀ y, r_publication_year r = Some y → YEAR_MIN ≤ y ≤ YEAR_MAX)))
    in Hl; [| |done|constructor].
  - apply list_elem_of_In, in_concat in Hr as (fr & Hfr%list_elem_of_In & Hin%list_elem_of_In).
    rewrite Forall_forall in Hl. specialize (Hl fr Hfr). rewrite Forall_forall in Hl.
    by apply Hl.
  - intros rr user_id faculty_name w0 df0 w0' Hrr He Hp.
    apply Forall_forall. intros r0 Hr0.
    destruct (process_one_professor_rows_inv _ _ _ _ _ _ _ _ _ _ _ _ Hp r0 Hr0)
      as (Hd & Hn & Hu & _ & Hy & _).
    unfold roster_entry in He.
    destruct (bool_decide (_ = "")) eqn:Hname; [done|]. apply bool_decide_eq_false in Hname.
    destruct (Roster.get rr url_col) as [|u|] eqn:Hurl; [done| |done].
    destruct (bool_decide (Py.strip u = "")); [done|].
    destruct (scholar_author_id_from_url u) as [uid|] eqn:Hid; [|done].
    destruct (Py.truthy uid) eqn:Ht; [|done]. injection He as Hu' Hn'. subst uid faculty_name.
    destruct (scholar_author_id_from_url_shape_inv u user_id Hid) as [Hne Hamp].
    rewrite Hd, Hn, Hu. split; [done|]. split; [by eauto 10|]. done.
Qed.

(** X18: a roster that lacks the name column or the link column makes the
    run raise the value error, and then nothing was requested or written. *)
Theorem process_department_csv_value_error fuel df department name_col url_col cache_dir
    max_faculty max_pubs w :
  name_col ∉ Roster.columns df ∨ url_col ∉ Roster.columns df →
  process_department_csv html_parser http browser fuel df department name_col url_col
    cache_dir max_faculty max_pubs w
  = (Raise ValueError, w).
Proof.
  unfold process_department_csv. intros [Hn|Hu].
  - by rewrite (bool_decide_eq_false_2 (name_col ∈ _)) by done.
  - rewrite (bool_decide_eq_false_2 (url_col ∈ _)) by done. by rewrite andb_false_r.
Qed.

End department_facts.

Lemma process_department_csv_aborts_witness :
  process_department_csv Site.html_parser Demo.down (Site.shows Site.PLAIN) 501
    (Roster.Frame Demo.COLUMNS ([Demo.BOB; Demo.CY] ++ Demo.ANN :: []))
    "CS" "Faculty Name" "Google Scholar Link" "cache" None None Site.empty_world
  = (Raise RequestException,
     World ∅ ["https://scholar.google.com/citations?hl=en&user=U&cstart=0&pagesize=100"] []).
Proof.
  apply (process_department_csv_aborts Site.html_parser Demo.down (Site.shows Site.PLAIN)
           501 Demo.COLUMNS [Demo.BOB; Demo.CY] Demo.ANN [] "CS" "Faculty Name"
           "Google Scholar Link" "cache" None Site.empty_world [] Site.empty_world "U" "Ann");
    vm_compute; reflexivity.
Defined.

Lemma process_department_csv_rows_witness :
  ∃ r w',
    process_department_csv Site.html_parser (Site.server Site.LISTING Site.DETAIL)
      (Site.shows Site.BARS) 501 Demo.ROSTER "CS" "Faculty Name" "Google Scholar Link"
      "cache" None None Site.empty_world = (Ok [r], w')
    ∧ r_department r = "CS" ∧ r_faculty_name r ≠ "".
Proof.
  eexists _, _. split; [vm_compute; reflexivity|].
  destruct (process_department_csv_rows Site.html_parser
              (Site.server Site.LISTING Site.DETAIL) (Site.shows Site.BARS) 501 Demo.ROSTER
              "CS" "Faculty Name" "Google Scholar Link" "cache" None None Site.empty_world
              _ _ ltac:(vm_compute; reflexivity) _ (list_elem_of_here _ _))
    as (Hd & _ & Hn & _).
  split; [exact Hd | exact Hn].
Defined.

Lemma process_department_csv_value_error_witness :
  process_department_csv Site.html_parser Demo.down (Site.shows Site.PLAIN) 501
    (Roster.Frame ["Faculty Name"] [Demo.ANN])
    "CS" "Faculty Name" "Google Scholar Link" "cache" None None Site.empty_world
  = (Raise ValueError, Site.empty_world).
Proof.
  apply process_department_csv_value_error. right.
  intros Hin%list_elem_of_singleton. discriminate Hin.
Defined.
(** * The block classifier *)

Section captcha_facts.

(** X19: what the classifier calls a block page stays one inside any
    other text: a page that quotes such a text anywhere (in a title or an
    abstract, say), in any case of the letters, is taken for a block page. *)
Theorem looks_like_captcha_context before html after :
  looks_like_captcha html = true →
  looks_like_captcha (before +:+ html +:+ after) = true.
Proof.
  unfold looks_like_captcha. rewrite !lower_app.
  intros [[H|H]%orb_true_iff|[H1 H2]%andb_true_iff]%orb_true_iff.
  - by rewrite (contains_context _ _ _ _ H).
  - rewrite (contains_context _ _ _ _ H). by rewrite orb_true_r.
  - rewrite (contains_context _ _ _ _ H1), (contains_context _ _ _ _ H2).
    by rewrite !orb_true_r.
Qed.

End captcha_facts.

Lemma looks_like_captcha_context_witness :
  looks_like_captcha ("<td>Breaking " +:+ "reCAPTCHA" +:+ " with deep learning</td>") = true.
Proof. apply looks_like_captcha_context. reflexivity. Defined.

(** * Slugs *)

Section slug_facts.
Import Re.


Lemma chars_app s t : chars (s +:+ t) = chars s ++ chars t.
Proof. induction s as [|a s IH]; simpl; [done|]. by rewrite IH. Qed.

Lemma drop_while_split p s : ∃ pre, s = pre +:+ drop_while p s.
Proof.
  induction s as [|a s [pre IH]]; [by exists ""|]. simpl.
  destruct (p a); [|by exists ""]. exists (String a pre). simpl. by rewrite <- IH.
Qed.

Lemma search_plus_cls_none p s :
  Forall (λ a, p a = false) (chars s) → search (plus (Cls p)) s = None.
Proof.
  induction s as [|a s IH]; [done|]. intros [Ha Hs]%Forall_cons. cbn [search].
  rewrite (run_plus_cls_no p (String a s) ∅ Ha). by apply IH.
Qed.

Lemma search_plus_cls p s :
  Forall (λ a, p a = false) (chars s)
  ∨ ∃ pre a s',
      s = pre +:+ String a s' ∧ Forall (λ a, p a = false) (chars pre) ∧
      search (plus (Cls p)) s
      = Some (Match (consumed (String a s') (drop_while p s')) ∅ (drop_while p s')).
Proof.
  induction s as [|a s IH]; [by left|].
  destruct (p a) eqn:Ha.
  - right. exists "", a, s. split; [done|]. split; [constructor|].
    destruct (run_plus_cls p a s ∅ Ha) as [l Hl]. by apply (search_hit _ _ _ _ l).
  - destruct IH as [Hs|(pre & b & s' & -> & Hpre & Hm)].
    + left. by constructor.
    + right. exists (String a pre), b, s'. split; [done|]. split; [by constructor|].
      cbn [search String.append].
      by rewrite (run_plus_cls_no p (String a (pre +:+ String b s')) ∅ Ha).
Qed.

(** What [re.sub] leaves of the characters of a class. *)
Lemma sub_go_chars (p q : ascii → bool) repl :
  (∀ a, p a = false → q a = true) → Forall (λ a, q a = true) (chars repl) →
  ∀ n s, (String.length s ≤ n)%nat →
    Forall (λ a, q a = true) (chars (ReSub.sub_go n (plus (Cls p)) repl s)).
Proof.
  intros Hpq Hrepl. induction n as [|n IH]; intros s Hn.
  { destruct s; [constructor|simpl in Hn; lia]. }
  cbn [ReSub.sub_go].
  destruct (search_plus_cls p s) as [Hs|(pre & a & s' & -> & Hpre & ->)].
  - rewrite (search_plus_cls_none p s Hs). eapply Forall_impl; [exact Hs|]. exact Hpq.
  - cbn [m_rest m_text].
    destruct (drop_while_split p s') as [run Hrun].
    remember (drop_while p s') as dw eqn:Hdw. clear Hdw. subst s'.
    change (String a (run +:+ dw)) with (String a run +:+ dw). rewrite consumed_app.
    rewrite !str_length_app in Hn |- *. cbn [String.length] in Hn |- *.
    rewrite !str_length_app in Hn |- *.
    change (String.length (String a run)) with (S (String.length run)).
    replace (_ <? _)%nat with true by (symmetry; apply Nat.ltb_lt; lia).
    replace (String.length pre + (S (String.length run) + String.length dw)
             - S (String.length run) - String.length dw)%nat
      with (String.length pre) by lia.
    rewrite str_substring_app, !chars_app, !Forall_app.
    split; [by eapply Forall_impl; [exact Hpre|]|]. split; [done|].
    apply IH. lia.
Qed.

Lemma sub_none r repl s : search r s = None → ReSub.sub r repl s = s.
Proof. unfold ReSub.sub. destruct (String.length s); simpl; [done|]. by intros ->. Qed.

Lemma chars_take n s : chars (str_take n s) = take n (chars s).
Proof.
  unfold str_take. revert s. induction n as [|n IH]; intros [|a s]; simpl; try done.
  by rewrite IH.
Qed.

Lemma chars_length s : length (chars s) = String.length s.
Proof. induction s; simpl; [done|]. by f_equal. Qed.

Lemma str_take_all n s : (String.length s ≤ n)%nat → str_take n s = s.
Proof.
  unfold str_take. revert s. induction n as [|n IH]; intros [|a s]; simpl; try done; [lia|].
  intros Hn. rewrite IH; [done|lia].
Qed.

Lemma slug_char_plain a :
  Pat2.is_slug_char a = true → Py.is_space a = false ∧ Py.lower_char a = a.
Proof.
  destruct a as [[] [] [] [] [] [] [] []]; intros H; vm_compute in H; try discriminate;
    by split.
Qed.

Lemma strip_plain s :
  Forall (λ a, Py.is_space a = false) (chars s) → Py.strip s = s.
Proof.
  intros Hs. unfold Py.strip.
  assert (Py.lstrip s = s) as ->.
  { destruct s as [|a s]; [done|]. apply Forall_cons in Hs as [Ha _]. simpl. by rewrite Ha. }
  induction s as [|a s IH]; [done|]. apply Forall_cons in Hs as [Ha Hs]. simpl.
  rewrite Ha. simpl. by rewrite IH.
Qed.

Lemma lower_plain s :
  Forall (λ a, Py.lower_char a = a) (chars s) → Py.lower s = s.
Proof.
  induction s as [|a s IH]; [done|]. intros [Ha Hs]%Forall_cons. simpl.
  by rewrite Ha, IH.
Qed.

Lemma slugify_shape_inv s :
  slugify s ≠ ""
  ∧ (String.length (slugify s) ≤ 120)%nat
  ∧ Forall (λ a, Pat2.is_slug_char a = true) (chars (slugify s)).
Proof.
  unfold slugify.
  set (t := ReSub.sub Pat2.non_slug "" _).
  assert (Forall (λ a, Pat2.is_slug_char a = true) (chars t)) as Ht.
  { apply (sub_go_chars (λ a, negb (Pat2.is_slug_char a))); [|constructor|done].
    intros a. by destruct (Pat2.is_slug_char a). }
  unfold Py.truthy. destruct (decide (str_take 120 t = "")) as [He|He].
  - rewrite bool_decide_eq_true_2 by done. cbn [negb]. split; [done|]. split; [simpl; lia|].
    by repeat constructor.
  - rewrite bool_decide_eq_false_2 by done. cbn [negb]. split; [done|].
    split.
    + rewrite <- chars_length, chars_take, length_take. lia.
    + rewrite chars_take. by apply Forall_take.
Qed.

(** X20: a slug is a file name: it is never empty, has at most 120
    characters, and holds nothing but small letters, digits and
    underscores. *)
Theorem slugify_shape s :
  slugify s ≠ ""
  ∧ (String.length (slugify s) ≤ 120)%nat
  ∧ Forall (λ a, Pat2.is_slug_char a = true) (String.list_ascii_of_string (slugify s)).
Proof. apply slugify_shape_inv. Qed.

Lemma slugify_fixed s :
  s ≠ "" → (String.length s ≤ 120)%nat →
  Forall (λ a, Pat2.is_slug_char a = true) (chars s) → slugify s = s.
Proof.
  intros Hne Hlen Hs. unfold slugify.
  rewrite strip_plain
    by (eapply Forall_impl; [exact Hs|]; intros a Ha; by apply slug_char_plain).
  rewrite lower_plain
    by (eapply Forall_impl; [exact Hs|]; intros a Ha; by apply slug_char_plain).
  rewrite (sub_none Pat2.spaces).
  2: { apply search_plus_cls_none. eapply Forall_impl; [exact Hs|].
       intros a Ha; by apply slug_char_plain. }
  rewrite (sub_none Pat2.non_slug).
  2: { apply search_plus_cls_none. eapply Forall_impl; [exact Hs|].
       intros a Ha; simpl. by rewrite Ha. }
  rewrite str_take_all by done. unfold Py.truthy. by rewrite bool_decide_eq_false_2.
Qed.

(** X21: a slug is its own slug: making the slug of a slug changes
    nothing. *)
Theorem slugify_idempotent s : slugify (slugify s) = slugify s.
Proof.
  destruct (slugify_shape_inv s) as (Hne & Hlen & Hs). by apply slugify_fixed.
Qed.

End slug_facts.

(** * The requests of the paginator *)

Section request_facts.
Context (html_parser : string → list Soup.node).
Context (http : list string → string → option string).

Lemma pages_loop_requests n user_id cache_dir pagesize max_pubs :
  ∀ pubs_all cstart page w url,
    0 ≤ page ≤ 500 →
    url ∈ http_log (pages_loop html_parser http n user_id cache_dir pagesize max_pubs
                      pubs_all cstart page w).2 →
    url ∈ http_log w
    ∨ ∃ k, 0 ≤ k ≤ 500 - page
           ∧ url = author_page_url user_id (cstart + k * pagesize) pagesize.
Proof.
  induction n as [|n IH]; intros pubs_all cstart page w url Hpage; [by left|].
  rewrite pages_loop_step.
  assert (∀ w1 : world,
            http_log w1 = http_log w
            ∨ http_log w1 = author_page_url user_id cstart pagesize :: http_log w →
            url ∈ http_log w1 →
            url ∈ http_log w
            ∨ ∃ k, 0 ≤ k ≤ 500 - page
                   ∧ url = author_page_url user_id (cstart + k * pagesize) pagesize)
    as Hstep.
  { intros w1 [-> | ->]; [by left|]. intros [-> | Hin]%elem_of_cons; [|by left].
    right. exists 0. split; [lia|]. by rewrite Z.mul_0_l, Z.add_0_r. }
  destruct (negb _); [by left|].
  destruct (cache_get _ _ _ _ _) as [[html| |] w1] eqn:Hc; apply cache_get_log in Hc;
    [|by apply Hstep..].
  destruct (looks_like_captcha html); [by apply Hstep|].
  destruct (parse_author_page_for_pubs html_parser html) as [pubs| |]; [|by apply Hstep..].
  destruct (bool_decide (_ = [])); [by apply Hstep|].
  destruct (match max_pubs with Some _ => _ | None => _ end); [by apply Hstep|].
  destruct (bool_decide (_ = None)); [by apply Hstep|].
  destruct (500 <? page + 1) eqn:Hp; [by apply Hstep|].
  apply Z.ltb_ge in Hp. intros Hin.
  apply IH in Hin as [Hin|(k & Hk & ->)]; [| |lia].
  - by apply (Hstep w1).
  - right. exists (k + 1). split; [lia|]. f_equal. lia.
Qed.

(** X23: the requests of the paginator are requests for listing pages of
    the author it was asked for: each asks for 100 rows from a start that is
    a multiple of 100, from 0 up to 50000. *)
Theorem get_all_author_pubs_requests n user_id cache_dir max_pubs w url :
  url ∈ http_log (get_all_author_pubs html_parser http n user_id cache_dir 100 max_pubs w).2 →
  url ∈ http_log w
  ∨ ∃ k, 0 ≤ k ≤ 500 ∧ url = author_page_url user_id (100 * k) 100.
Proof.
  unfold get_all_author_pubs. intros Hin.
  apply pages_loop_requests in Hin as [Hin|(k & Hk & ->)]; [by left| |lia].
  right. exists k. split; [lia|]. f_equal. lia.
Qed.

End request_facts.

Lemma get_all_author_pubs_requests_witness :
  "https://scholar.google.com/citations?hl=en&user=U&cstart=0&pagesize=100"
    ∈ http_log Site.empty_world
  ∨ ∃ k, 0 ≤ k ≤ 500
         ∧ "https://scholar.google.com/citations?hl=en&user=U&cstart=0&pagesize=100"
           = author_page_url "U" (100 * k) 100.
Proof.
  apply (get_all_author_pubs_requests Site.html_parser (Site.always Site.LISTING) 501
           "U" "cache" None Site.empty_world).
  vm_compute. apply list_elem_of_here.
Defined.

(** * The records of the yearly export *)

Section record_facts.
Import YearlyDocs.

Lemma rstrip_rstrip s : Py.rstrip (Py.rstrip s) = Py.rstrip s.
Proof.
  induction s as [|a s IH]; [done|]. cbn [Py.rstrip].
  destruct (Py.is_space a && bool_decide (Py.rstrip s = "")) eqn:E; [done|].
  cbn [Py.rstrip]. by rewrite IH, E.
Qed.

Lemma lstrip_head s :
  match Py.lstrip s with
  | String a _ => Py.is_space a = false
  | "" => True
  end.
Proof.
  induction s as [|a s IH]; [done|]. simpl.
  destruct (Py.is_space a) eqn:Ha; [done|]. by rewrite Ha.
Qed.

Lemma lstrip_rstrip t :
  match t with
  | String a _ => Py.is_space a = false
  | "" => True
  end →
  Py.lstrip (Py.rstrip t) = Py.rstrip t.
Proof. destruct t as [|a t]; [done|]. simpl. intros Ha. rewrite Ha. simpl. by rewrite Ha. Qed.

Lemma strip_strip s : Py.strip (Py.strip s) = Py.strip s.
Proof.
  unfold Py.strip. rewrite (lstrip_rstrip (Py.lstrip s)) by apply lstrip_head.
  apply rstrip_rstrip.
Qed.

(** X24: what [clean_text] returns is stripped: no field of a record
    begins or ends with white space, whatever the cell held. *)
Theorem clean_text_stripped x : Py.strip (clean_text x) = clean_text x.
Proof. destruct x; simpl; first [done | apply strip_strip]. Qed.

(** X25: a record is written from four columns of its row and from
    nothing else: the author's name, or any other column, changes no
    character of it. *)
Theorem record_writes_other_columns (row : gmap string cell) k v :
  k ∉ ["title"; "abstract"; "cited_by_total"; "citations_per_year_proxy"] →
  record_writes (<[k := v]> row) = record_writes row.
Proof.
  intros Hk. unfold record_writes, row_get.
  rewrite !lookup_insert_ne; [done|intros ->; apply Hk; by repeat constructor..].
Qed.

End record_facts.

Lemma record_writes_other_columns_witness :
  YearlyDocs.record_writes (<["faculty_name" := YearlyDocs.CStr "Ann"]> Site.BARE)
  = YearlyDocs.record_writes Site.BARE.
Proof.
  apply record_writes_other_columns.
  intros H. repeat (apply elem_of_cons in H as [H|H]; [discriminate|]).
  by apply elem_of_nil in H.
Defined.

(** * The rows of the roster *)

Section roster_facts.

Lemma strip_empty s :
  Py.strip s = "" → Forall (λ a, Py.is_space a = true) (chars s).
Proof.
  unfold Py.strip. induction s as [|a s IH]; [constructor|]. simpl.
  destruct (Py.is_space a) eqn:Ha.
  - intros H. constructor; [done|]. by apply IH.
  - simpl. by rewrite Ha.
Qed.

Lemma spaces_no_user s :
  Forall (λ a, Py.is_space a = true) (chars s) →
  Py.contains "user=" s = false.
Proof.
  induction s as [|a s IH]; [done|]. intros [Ha Hs]%Forall_cons.
  cbn [Py.contains Py.startswith]. rewrite (IH Hs), orb_false_r.
  destruct (bool_decide ("u"%char = a)) eqn:Hu; [|done].
  apply bool_decide_eq_true in Hu as <-. done.
Qed.

(** X26: a name cell left empty does not make a roster row skipped: the
    cell reads as the text "nan", and a row whose link names a user is
    processed under that name. *)
Theorem roster_entry_empty_name name_col url_col (r : gmap string Roster.cell) u user_id :
  Roster.get r name_col = Roster.NaN →
  Roster.get r url_col = Roster.Str u →
  scholar_author_id_from_url u = Some user_id →
  roster_entry name_col url_col r = Some (user_id, "nan").
Proof.
  intros Hn Hu Hid. unfold roster_entry. rewrite Hn, Hu, Hid. cbn [Roster.str].
  destruct (scholar_author_id_from_url_shape_inv u user_id Hid) as [Hne _].
  assert (Py.strip u ≠ "") as Hs.
  { intros Hs%strip_empty%spaces_no_user.
    revert Hid. unfold scholar_author_id_from_url. destruct (negb (Py.truthy u)); [done|].
    by rewrite (search_user_param_none u Hs). }
  change (Py.strip "nan") with "nan".
  rewrite (bool_decide_eq_false_2 ("nan" = "")) by done.
  rewrite (bool_decide_eq_false_2 (Py.strip u = "")) by done.
  unfold Py.truthy. by rewrite (bool_decide_eq_false_2 (user_id = "")).
Qed.

End roster_facts.

Lemma roster_entry_empty_name_witness :
  roster_entry "Faculty Name" "Google Scholar Link"
    {[ "Google Scholar Link" := Roster.Str "https://scholar.google.com/citations?user=U&hl=en" ]}
  = Some ("U", "nan").
Proof.
  apply (roster_entry_empty_name _ _ _ "https://scholar.google.com/citations?user=U&hl=en");
    reflexivity.
Defined.
